(** * Resofleur: the client-side reconciliation layer

    A shallow embedding of the four TypeScript units that make up the
    reconciliation layer of the Resofleur front end:

    - [ResolumeApiClient]     (services/ResolumeApiClient.ts)
    - [Connection]            (hooks/useResolumeConnection.ts)
    - [Clips]                 (hooks/useResolumeClips.ts)
    - [Controls]              (hooks/useResolumeControls.ts)

    Asynchronous functions are split at their [await]: the part that runs
    synchronously when the function is called ([*_call]), and one
    continuation per way the awaited promise settles ([*_resolve],
    [*_reject]).  React state cells and refs are record fields; the effects
    a function has on the outside world (requests handed to the API client,
    timers registered with the event loop) are appended to logs kept in the
    same record, so that they can be counted. *)

From Stdlib Require Import ZArith QArith Qminmax Qround Lia Lqa Bool.
From stdpp Require Import gmap strings list fin_maps pretty.

Open Scope string_scope.
Open Scope Z_scope.

(** ** JavaScript values used by the code *)

(** A JavaScript [number].  Finite doubles are rationals; the three special
    values are kept apart because every ordered comparison with [NaN] is
    false.  Arithmetic on the finite part is exact rational arithmetic (the
    rounding of doubles is not modelled). *)
Inductive number : Type :=
  | Fin (q : Q)
  | NaN
  | PosInf
  | NegInf.

(** [a < b] on numbers. *)
Definition num_lt (a b : number) : bool :=
  match a, b with
  | NaN, _ | _, NaN => false
  | Fin x, Fin y => negb (Qle_bool y x)
  | Fin _, PosInf => true
  | Fin _, NegInf => false
  | PosInf, _ => false
  | NegInf, NegInf => false
  | NegInf, _ => true
  end.

(** [a > b] on numbers. *)
Definition num_gt (a b : number) : bool := num_lt b a.

(** [v / 100], exactly.  On doubles the quotient is rounded, and a quotient
    smaller in magnitude than the smallest double is a zero, so what is
    proved through this definition is stated for values whose quotient the
    rounding cannot carry across the bound it is compared with. *)
Definition num_div100 (v : number) : number :=
  match v with
  | Fin q => Fin (q / 100)
  | other => other
  end.

Definition of_Z (z : Z) : number := Fin (inject_Z z).

(** What a [catch] clause can receive: an [Error] object (with the optional
    [statusCode] that [ResolumeApiError] adds), or any other thrown value. *)
Inductive Thrown : Type :=
  | ErrorObj (message : string) (statusCode : option Z)
  | NonError.

(** [err instanceof Error ? err.message : fallback] *)
Definition message_or (fallback : string) (err : Thrown) : string :=
  match err with
  | ErrorObj m _ => m
  | NonError => fallback
  end.

(** [err?.statusCode] *)
Definition statusCode (err : Thrown) : option Z :=
  match err with
  | ErrorObj _ c => c
  | NonError => None
  end.

(** ** The API client (services/ResolumeApiClient.ts) *)

Module ResolumeApiClient.

Section Client.

(** The decoded JSON payload of a response ([data: unknown]). *)
Context {Payload : Type}.
(** The value [{}] returned for a 204 response. *)
Variable emptyObject : Payload.
(** Template-literal interpolation of a number, [`${n}`]. *)
Variable numberToString : number -> string.

Record CacheEntry : Type := mkEntry { data : Payload; timestamp : Z }.

(** What [fetch] resolves to: the status line and, for [response.json()],
the decoded body ([None] when decoding throws). *)
Record Response : Type := mkResponse {
status : Z;
statusText : string;
json : option Payload
}.

(** [response.ok] *)
Definition ok (r : Response) : bool := (200 <=? status r) && (status r <=? 299).

(** The client instance together with the network it talks to:
[fetched] lists the [(method, url)] of every [fetch] issued, oldest
first. *)
Record Client : Type := mkClient {
baseUrl : string;
requestCache : gmap string CacheEntry;
fetched : list (string * string)
}.

Definition cacheTTL : Z := 1000.

(** [options.method], absent or a string.  The empty string is falsy. *)
Definition method_or_GET (method : option string) : string :=
match method with
| Some m => if decide (m = "") then "GET" else m
| None => "GET"
end.

(** [options.method === 'GET' || !options.method] *)
Definition is_GET (method : option string) : bool :=
match method with
| Some m => bool_decide (m = "GET") || bool_decide (m = "")
| None => true
end.

Definition url_of (c : Client) (endpoint : string) : string := baseUrl c ++ endpoint.

Definition cacheKey (c : Client) (endpoint : string) (method : option string) : string :=
method_or_GET method ++ "_" ++ url_of c endpoint.

(** The method [fetch] uses: the one given, GET when none is. *)
Definition fetch_method (method : option string) : string :=
match method with
| Some m => m
| None => "GET"
end.

(** How far a call to [request] gets before it first suspends. *)
Inductive Started : Type :=
| CacheHit (d : Payload)      (* returned from the cache, no fetch *)
| Fetching.                   (* [fetch] issued, awaiting the response *)

(** [request], up to [await fetch(...)].  [now] is what [Date.now()]
returns at the cache check. *)
Definition request_call (now : Z) (endpoint : string) (method : option string)
(c : Client) : Client * Started :=
let miss :=
(mkClient (baseUrl c) (requestCache c)
   (fetched c ++ [(fetch_method method, url_of c endpoint)]), Fetching) in
if is_GET method then
match requestCache c !! cacheKey c endpoint method with
| Some cached =>
    if now - timestamp cached <? cacheTTL then (c, CacheHit (data cached))
    else miss
| None => miss
end
else miss.

(** How a call ends. *)
Inductive Outcome (A : Type) : Type :=
| Returned (a : A)
| Threw (e : Thrown).
Arguments Returned {A} a.
Arguments Threw {A} e.

Definition http_error (r : Response) : Thrown :=
ErrorObj ("HTTP " ++ numberToString (of_Z (status r)) ++ ": " ++ statusText r)
       (Some (status r)).

(** [request], from the response on.  [now] is what [Date.now()] returns
when the decoded payload is stored. *)
Definition request_resolve (now : Z) (endpoint : string) (method : option string)
(r : Response) (c : Client) : Client * Outcome Payload :=
if negb (ok r) then (c, Threw (http_error r))
else if status r =? 204 then (c, Returned emptyObject)
else match json r with
   | None => (c, Threw (ErrorObj "Unexpected end of JSON input" None))
   | Some d =>
       if is_GET method then
         (mkClient (baseUrl c)
            (<[cacheKey c endpoint method := mkEntry d now]> (requestCache c))
            (fetched c),
          Returned d)
       else (c, Returned d)
   end.

(** A whole [request] with nothing else running in between: the call at
[now], and, when it fetches, the response [r] handled at [later]. *)
Definition request (now : Z) (endpoint : string) (method : option string)
(r : Response) (later : Z) (c : Client) : Client * Outcome Payload :=
match request_call now endpoint method c with
| (c', CacheHit d) => (c', Returned d)
| (c', Fetching) => request_resolve later endpoint method r c'
end.

(** A write operation either fails its precondition (the promise is
rejected before [request] is reached) or reaches [request]. *)
Inductive Write : Type :=
| Rejected (e : Thrown)
| Requested (s : Started).

Definition validation_error (msg : string) : Thrown := ErrorObj msg None.

(** [setBpm], up to the [await]. *)
Definition setBpm (now : Z) (bpm : number) (c : Client) : Client * Write :=
if num_lt bpm (of_Z 20) || num_gt bpm (of_Z 999) then
(c, Rejected (validation_error "BPM must be between 20 and 999"))
else
let '(c', s) :=
  request_call now ("/api/resolume/composition/tempo/bpm?bpm=" ++ numberToString bpm)
               (Some "POST") c in
(c', Requested s).

(** [setLayerOpacity], up to the [await]. *)
Definition setLayerOpacity (now : Z) (layerIndex : Z) (opacity : number) (c : Client)
: Client * Write :=
if num_lt opacity (of_Z 0) || num_gt opacity (of_Z 1) then
(c, Rejected (validation_error "Opacity must be between 0 and 1"))
else
let '(c', s) :=
  request_call now
    ("/api/resolume/composition/layers/" ++ numberToString (of_Z layerIndex)
       ++ "/video/opacity?opacity=" ++ numberToString opacity)
    (Some "POST") c in
(c', Requested s).

(** [setClipPosition], up to the [await]. *)
Definition setClipPosition (now : Z) (layerIndex clipIndex : Z) (position : number)
(c : Client) : Client * Write :=
if num_lt position (of_Z 0) || num_gt position (of_Z 1) then
(c, Rejected (validation_error "Position must be between 0 and 1"))
else
let '(c', s) :=
  request_call now
    ("/api/resolume/composition/layers/" ++ numberToString (of_Z layerIndex)
       ++ "/clips/" ++ numberToString (of_Z clipIndex)
       ++ "/transport/position?position=" ++ numberToString position)
    (Some "POST") c in
(c', Requested s).

(** [setClipOpacity], up to the [await]. *)
Definition setClipOpacity (now : Z) (layerIndex clipIndex : Z) (opacity : number)
    (c : Client) : Client * Write :=
  if num_lt opacity (of_Z 0) || num_gt opacity (of_Z 1) then
    (c, Rejected (validation_error "Opacity must be between 0 and 1"))
  else
    let '(c', s) :=
      request_call now
        ("/api/resolume/composition/layers/" ++ numberToString (of_Z layerIndex)
           ++ "/clips/" ++ numberToString (of_Z clipIndex)
           ++ "/video/opacity/values?opacity=" ++ numberToString opacity)
        (Some "PUT") c in
    (c', Requested s).

(** [String.prototype.includes]: [sub] occurs somewhere in [s]. *)
Fixpoint includes (s sub : string) : bool :=
  String.prefix sub s ||
  match s with
  | EmptyString => false
  | String _ rest => includes rest sub
  end.

(** [invalidateCache]: collect the keys that contain [endpoint], then delete
    them. *)
Definition invalidateCache (endpoint : string) (c : Client) : Client :=
  mkClient (baseUrl c)
           (filter (fun entry => includes (fst entry) endpoint = false) (requestCache c))
           (fetched c).

(** [clearCache] *)
Definition clearCache (c : Client) : Client :=
  mkClient (baseUrl c) ∅ (fetched c).

(** [getConnectionStatus], up to the [await]. *)
Definition getConnectionStatus (now : Z) (c : Client) : Client * Started :=
  request_call now "/api/resolume/status" None c.

Definition activate_endpoint (configId : string) : string :=
  "/api/resolume/config/" ++ configId ++ "/activate".

(** [activateConfiguration], up to the [await]. *)
Definition activateConfiguration_call (now : Z) (configId : string) (c : Client)
    : Client * Started :=
  request_call now (activate_endpoint configId) (Some "PUT") c.

(** [activateConfiguration], from the response on: when [request] returns,
    the cached connection status is invalidated. *)
Definition activateConfiguration_resolve (now : Z) (configId : string) (r : Response)
    (c : Client) : Client * Outcome unit :=
  match request_resolve now (activate_endpoint configId) (Some "PUT") r c with
  | (c', Returned _) => (invalidateCache "/api/resolume/status" c', Returned tt)
  | (c', Threw e) => (c', Threw e)
  end.

End Client.

Arguments Returned {A} a.
Arguments Threw {A} e.

End ResolumeApiClient.

(** ** The connection monitor (hooks/useResolumeConnection.ts) *)

Module Connection.

Record ResolumeConfiguration : Type := mkConfiguration {
  id : string;
  name : string;
  host : string;
  port : Z;
  is_active : bool;
  created_at : string
}.

Record ConnectionStatus : Type := mkStatus {
  connected : bool;
  config : option ResolumeConfiguration;
  composition_name : option string;
  status_error : option string
}.

(** [POLLING_CONFIG] *)
Definition INITIAL_INTERVAL : Q := 2000.
Definition MAX_INTERVAL : Q := 30000.
Definition BACKOFF_MULTIPLIER : Q := 3 # 2.
Definition SUCCESS_INTERVAL : Q := 5000.

(** The hook instance: four state cells, three refs, and what it has
    asked of the outside world: the number of status requests issued and
    the delay of every [setTimeout] registered, oldest first. *)
Record Hook : Type := mkHook {
  isConnected : bool;
  connectionStatus : option ConnectionStatus;
  isLoading : bool;
  error : option string;
  pollingIntervalRef : Q;
  timeoutRef : option nat;
  isMountedRef : bool;
  statusRequests : nat;
  delays : list Q
}.

(** The instance at its first render. *)
Definition initial : Hook :=
  mkHook false None true None INITIAL_INTERVAL None true 0 [].

(** [checkConnection], up to [await resolumeApi.getConnectionStatus()]. *)
Definition checkConnection_call (h : Hook) : Hook :=
  mkHook (isConnected h) (connectionStatus h) (isLoading h) (error h)
         (pollingIntervalRef h) (timeoutRef h) (isMountedRef h)
         (S (statusRequests h)) (delays h).

(** [checkConnection], when the status request resolves with [status]. *)
Definition checkConnection_resolve (status : ConnectionStatus) (h : Hook) : Hook :=
  if negb (isMountedRef h) then h
  else
    mkHook (connected status) (Some status) false None
           (if connected status then SUCCESS_INTERVAL else pollingIntervalRef h)
           (timeoutRef h) (isMountedRef h) (statusRequests h) (delays h).

(** [checkConnection], when the status request rejects with [err]. *)
Definition checkConnection_reject (err : Thrown) (h : Hook) : Hook :=
  if negb (isMountedRef h) then h
  else
    mkHook false (connectionStatus h) false (Some (message_or "Connection failed" err))
           (Qmin (pollingIntervalRef h * BACKOFF_MULTIPLIER) MAX_INTERVAL)
           (timeoutRef h) (isMountedRef h) (statusRequests h) (delays h).

(** How a status request settles. *)
Inductive Settled : Type :=
  | Resolved (status : ConnectionStatus)
  | Failed (err : Thrown).

Definition checkConnection_settle (s : Settled) (h : Hook) : Hook :=
  match s with
  | Resolved status => checkConnection_resolve status h
  | Failed err => checkConnection_reject err h
  end.

(** [scheduleNextCheck]: register a timer whose delay is the interval
    ref's current value, and remember its handle (the timers are numbered
    from 1). *)
Definition scheduleNextCheck (h : Hook) : Hook :=
  mkHook (isConnected h) (connectionStatus h) (isLoading h) (error h)
         (pollingIntervalRef h) (Some (S (length (delays h)))) (isMountedRef h)
         (statusRequests h) (delays h ++ [pollingIntervalRef h]).

(** The timer callback, [checkConnection().then(scheduleNextCheck)], with
    the way its status request settles. *)
Definition poll (s : Settled) (h : Hook) : Hook :=
  scheduleNextCheck (checkConnection_settle s (checkConnection_call h)).

(** [retryConnection] (clearing a timer leaves [delays], a log, alone). *)
Definition retryConnection (h : Hook) : Hook :=
  checkConnection_call
    (mkHook (isConnected h) (connectionStatus h) (isLoading h) (error h)
            INITIAL_INTERVAL (timeoutRef h) (isMountedRef h)
            (statusRequests h) (delays h)).

(** The polling effect: an immediate check, whose settling is not chained
    to anything, and the first timer of the polling chain. *)
Definition mount (h : Hook) : Hook :=
  scheduleNextCheck
    (checkConnection_call
       (mkHook (isConnected h) (connectionStatus h) (isLoading h) (error h)
               (pollingIntervalRef h) (timeoutRef h) true
               (statusRequests h) (delays h))).

(** The cleanup function of the polling effect. *)
Definition unmount (h : Hook) : Hook :=
  mkHook (isConnected h) (connectionStatus h) (isLoading h) (error h)
         (pollingIntervalRef h) (timeoutRef h) false
         (statusRequests h) (delays h).

(** The state cells, which is what a consumer of the hook observes. *)
Definition observable (h : Hook) : bool * option ConnectionStatus * bool * option string :=
  (isConnected h, connectionStatus h, isLoading h, error h).

(** The interval the [catch] clause of [checkConnection] stores, from the
    one it finds. *)
Definition grown (interval : Q) : Q :=
  Qmin (interval * BACKOFF_MULTIPLIER) MAX_INTERVAL.

(** Everything that can happen to an instance: a status request is issued
    by the timer callback, a status request settles, the callback's [then]
    registers the next timer, the user retries, the effect runs or is
    cleaned up. *)
Inductive Event : Type :=
  | Call
  | Settle (s : Settled)
  | Schedule
  | Retry
  | Mount
  | Unmount.

Definition step (e : Event) (h : Hook) : Hook :=
  match e with
  | Call => checkConnection_call h
  | Settle s => checkConnection_settle s h
  | Schedule => scheduleNextCheck h
  | Retry => retryConnection h
  | Mount => mount h
  | Unmount => unmount h
  end.

(** A run: the events in the order they happen. *)
Definition run (events : list Event) (h : Hook) : Hook :=
  fold_left (fun h e => step e h) events h.

(** The instance [new] with the state cells of [old]: what is left of a
    callback's work when its state updates are dropped. *)
Definition keep_state (old new : Hook) : Hook :=
  mkHook (isConnected old) (connectionStatus old) (isLoading old) (error old)
         (pollingIntervalRef new) (timeoutRef new) (isMountedRef new)
         (statusRequests new) (delays new).

Definition is_cleanup (e : Event) : bool :=
  match e with
  | Unmount => true
  | _ => false
  end.

End Connection.

(** ** The clip reconciler (hooks/useResolumeClips.ts) *)

Module Clips.

Module ClipViewModel.
Record t : Type := mk {
  id : Z;
  name : string;
  isConnected : bool;
  thumbnailUrl : string;
  opacityParameterId : option Z;
  positionParameterId : option Z
}.
End ClipViewModel.
Abbreviation ClipViewModel := ClipViewModel.t.

(** The hook's options, and with them what the callbacks of one render
    close over. *)
Record Options : Type := mkOptions {
  layerIndex : Z;
  isConnected : bool;
  autoRefreshInterval : Z
}.

(** Requests handed to the API client. *)
Inductive ApiCall : Type :=
  | GetClipsForLayer (layer : Z)
  | TriggerClip (layer clip : Z)
  | ClearLayer (layer : Z).

(** The callback of the delayed refetch,
    [() => { if (isMountedRef.current) fetchClips(); }], with the options
    its [fetchClips] closes over. *)
Inductive Callback : Type :=
  | RefetchIfMounted (o : Options).

(** The hook instance: six state cells, the liveness ref, the requests
    handed to the API client and the [(delay, callback)] of every
    [setTimeout] registered, both oldest first. *)
Record Hook : Type := mkHook {
  clips : list ClipViewModel;
  activeClipId : option Z;
  activeClipIndex : option Z;
  selectedClipIndex : option Z;
  isLoading : bool;
  error : option string;
  isMountedRef : bool;
  apiCalls : list ApiCall;
  timeouts : list (Z * Callback)
}.

Definition initial : Hook := mkHook [] None None None false None true [] [].

(** [Array.prototype.find] *)
Fixpoint find {A : Type} (p : A -> bool) (l : list A) : option A :=
  match l with
  | [] => None
  | x :: rest => if p x then Some x else find p rest
  end.

(** [Array.prototype.findIndex]: the first index, or -1. *)
Fixpoint findIndex {A : Type} (p : A -> bool) (l : list A) : Z :=
  match l with
  | [] => -1
  | x :: rest =>
      if p x then 0
      else let i := findIndex p rest in
           if i <? 0 then -1 else i + 1
  end.

(** [array[i]] for a number [i]: [undefined] outside the array. *)
Definition at_index {A : Type} (l : list A) (i : Z) : option A :=
  if i <? 0 then None else l !! Z.to_nat i.

(** [fetchClips], up to [await resolumeApi.getClipsForLayer(layerIndex)].
    Disconnected, it empties the clip list and returns. *)
Definition fetchClips_call (o : Options) (h : Hook) : Hook :=
  if negb (isConnected o) then
    mkHook [] (activeClipId h) (activeClipIndex h) (selectedClipIndex h)
           (isLoading h) (error h) (isMountedRef h) (apiCalls h) (timeouts h)
  else
    mkHook (clips h) (activeClipId h) (activeClipIndex h) (selectedClipIndex h)
           true None (isMountedRef h)
           (apiCalls h ++ [GetClipsForLayer (layerIndex o)]) (timeouts h).

(** [fetchClips], when the request resolves.  [response] is
    [response?.clips], [None] when it is missing. *)
Definition fetchClips_resolve (response : option (list ClipViewModel)) (h : Hook) : Hook :=
  if negb (isMountedRef h) then h
  else
    let clipsData := default [] response in
    let activeClip := find ClipViewModel.isConnected clipsData in
    let activeIdx := findIndex ClipViewModel.isConnected clipsData in
    match activeClip with
    | Some clip =>
        mkHook clipsData (Some (ClipViewModel.id clip)) (Some (activeIdx + 1))
               (Some (activeIdx + 1)) false (error h) (isMountedRef h)
               (apiCalls h) (timeouts h)
    | None =>
        mkHook clipsData None None (selectedClipIndex h) false (error h)
               (isMountedRef h) (apiCalls h) (timeouts h)
    end.

(** [fetchClips], when the request rejects. *)
Definition fetchClips_reject (o : Options) (err : Thrown) (h : Hook) : Hook :=
  if negb (isMountedRef h) then h
  else if bool_decide (statusCode err = Some 404) then
    mkHook [] (activeClipId h) (activeClipIndex h) (selectedClipIndex h) false
           (Some ("Layer " ++ pretty (layerIndex o) ++ " not found in Resolume composition"))
           (isMountedRef h) (apiCalls h) (timeouts h)
  else
    mkHook (clips h) (activeClipId h) (activeClipIndex h) (selectedClipIndex h) false
           (Some (message_or "Failed to fetch clips" err))
           (isMountedRef h) (apiCalls h) (timeouts h).

(** [selectClip] *)
Definition selectClip (clipIndex : option Z) (h : Hook) : Hook :=
  mkHook (clips h) (activeClipId h) (activeClipIndex h) clipIndex
         (isLoading h) (error h) (isMountedRef h) (apiCalls h) (timeouts h).

Definition not_connected : Thrown := ErrorObj "Not connected to Resolume" None.

(** [triggerClip], up to [await resolumeApi.triggerClip(...)]; the second
    component is the error thrown when it does not get that far. *)
Definition triggerClip_call (o : Options) (clipIndex : Z) (h : Hook)
    : Hook * option Thrown :=
  if negb (isConnected o) then (h, Some not_connected)
  else
    let h1 :=
      match at_index (clips h) (clipIndex - 1) with
      | Some targetClip =>
          mkHook (clips h) (Some (ClipViewModel.id targetClip)) (Some clipIndex)
                 (Some clipIndex) (isLoading h) (error h) (isMountedRef h)
                 (apiCalls h) (timeouts h)
      | None => h
      end in
    (mkHook (clips h1) (activeClipId h1) (activeClipIndex h1) (selectedClipIndex h1)
            (isLoading h1) (error h1) (isMountedRef h1)
            (apiCalls h1 ++ [TriggerClip (layerIndex o) clipIndex]) (timeouts h1),
     None).

(** [setTimeout(callback, delay)] *)
Definition setTimeout (cb : Callback) (delay : Z) (h : Hook) : Hook :=
  mkHook (clips h) (activeClipId h) (activeClipIndex h) (selectedClipIndex h)
         (isLoading h) (error h) (isMountedRef h) (apiCalls h)
         (timeouts h ++ [(delay, cb)]).

(** [triggerClip], when the connect request resolves. *)
Definition triggerClip_resolve (o : Options) (h : Hook) : Hook :=
  setTimeout (RefetchIfMounted o) 500 h.

(** [triggerClip], when the connect request rejects: the [catch] clause;
    the second component is the error it rethrows. *)
Definition triggerClip_reject (o : Options) (err : Thrown) (h : Hook) : Hook * Thrown :=
  (fetchClips_call o h, err).

(** [clearLayer], up to [await resolumeApi.clearLayer(layerIndex)]. *)
Definition clearLayer_call (o : Options) (h : Hook) : Hook * option Thrown :=
  if negb (isConnected o) then (h, Some not_connected)
  else
    (mkHook (clips h) None None None (isLoading h) (error h) (isMountedRef h)
            (apiCalls h ++ [ClearLayer (layerIndex o)]) (timeouts h),
     None).

Definition clearLayer_resolve (o : Options) (h : Hook) : Hook :=
  setTimeout (RefetchIfMounted o) 300 h.

Definition clearLayer_reject (o : Options) (err : Thrown) (h : Hook) : Hook * Thrown :=
  (fetchClips_call o h, err).

(** Running a timer callback. *)
Definition run (cb : Callback) (h : Hook) : Hook :=
  match cb with
  | RefetchIfMounted o => if isMountedRef h then fetchClips_call o h else h
  end.

(** The effect that resets the selection when the layer changes. *)
Definition layerChanged (h : Hook) : Hook := selectClip None h.

(** The fetching effect and its cleanup. *)
Definition mount (o : Options) (h : Hook) : Hook :=
  fetchClips_call o
    (mkHook (clips h) (activeClipId h) (activeClipIndex h) (selectedClipIndex h)
            (isLoading h) (error h) true (apiCalls h) (timeouts h)).

Definition unmount (h : Hook) : Hook :=
  mkHook (clips h) (activeClipId h) (activeClipIndex h) (selectedClipIndex h)
         (isLoading h) (error h) false (apiCalls h) (timeouts h).

(** Everything that can happen to an instance. *)
Inductive Event : Type :=
  | FetchCall (o : Options)
  | FetchResolve (response : option (list ClipViewModel))
  | FetchReject (o : Options) (err : Thrown)
  | Select (clipIndex : option Z)
  | TriggerCall (o : Options) (clipIndex : Z)
  | TriggerResolve (o : Options)
  | TriggerReject (o : Options) (err : Thrown)
  | ClearCall (o : Options)
  | ClearResolve (o : Options)
  | ClearReject (o : Options) (err : Thrown)
  | TimerFires (cb : Callback)
  | LayerChanged
  | Mount (o : Options)
  | Unmount.

Definition step (e : Event) (h : Hook) : Hook :=
  match e with
  | FetchCall o => fetchClips_call o h
  | FetchResolve response => fetchClips_resolve response h
  | FetchReject o err => fetchClips_reject o err h
  | Select clipIndex => selectClip clipIndex h
  | TriggerCall o clipIndex => fst (triggerClip_call o clipIndex h)
  | TriggerResolve o => triggerClip_resolve o h
  | TriggerReject o err => fst (triggerClip_reject o err h)
  | ClearCall o => fst (clearLayer_call o h)
  | ClearResolve o => clearLayer_resolve o h
  | ClearReject o err => fst (clearLayer_reject o err h)
  | TimerFires cb => run cb h
  | LayerChanged => layerChanged h
  | Mount o => mount o h
  | Unmount => unmount h
  end.

(** The state cells, which is what a consumer of the hook observes. *)
Definition observable (h : Hook) :=
  (clips h, activeClipId h, activeClipIndex h, selectedClipIndex h, isLoading h, error h).

(** The active clip id and the active clip index are both absent or both
    present. *)
Definition paired (h : Hook) : Prop :=
  activeClipId h = None <-> activeClipIndex h = None.

(** The instances that a run of events leads to from the first render. *)
Inductive reachable : Hook -> Prop :=
  | reachable_initial : reachable initial
  | reachable_step (e : Event) (h : Hook) : reachable h -> reachable (step e h).

(** [clip] is the first entry of [l] whose connected flag is set, at
    0-based position [i]. *)
Definition first_connected (l : list ClipViewModel) (i : nat) (clip : ClipViewModel) : Prop :=
  l !! i = Some clip
  /\ ClipViewModel.isConnected clip = true
  /\ forall (j : nat) (c : ClipViewModel),
       (j < i)%nat -> l !! j = Some c -> ClipViewModel.isConnected c = false.

(** A run: the events in the order they happen. *)
Definition run_events (events : list Event) (h : Hook) : Hook :=
  fold_left (fun h e => step e h) events h.

(** The continuations that either check the liveness flag before touching
    state, or touch no state cell: a fetch settling, a timer callback, and
    the [try] branch after a trigger or a clear. *)
Definition quiet (e : Event) : bool :=
  match e with
  | FetchResolve _ | FetchReject _ _ | TimerFires _ | TriggerResolve _ | ClearResolve _ => true
  | _ => false
  end.

(** A re-render with another layer index: the fetching effect is cleaned
    up, then runs again with the [fetchClips] of the new render, and the
    selection effect, which depends on the layer index alone, runs. *)
Definition rerender (o : Options) (h : Hook) : Hook :=
  layerChanged (mount o (unmount h)).

(** The instance [new] with the state cells of [old]: what is left of a
    callback's work when its state updates are dropped. *)
Definition keep_state (old new : Hook) : Hook :=
  mkHook (clips old) (activeClipId old) (activeClipIndex old) (selectedClipIndex old)
         (isLoading old) (error old) (isMountedRef new) (apiCalls new) (timeouts new).

Definition is_cleanup (e : Event) : bool :=
  match e with
  | Unmount => true
  | _ => false
  end.

(** What can be attempted while the connection is down: a fetch, directly
    or by a timer, a trigger and a clear, all with disconnected options. *)
Definition offline (e : Event) : bool :=
  match e with
  | FetchCall o | TriggerCall o _ | ClearCall o | TimerFires (RefetchIfMounted o) =>
      negb (isConnected o)
  | _ => false
  end.

End Clips.

(** ** The parameter controller (hooks/useResolumeControls.ts) *)

Module Controls.

(** The hook's options, and with them what the callbacks of one render
    close over. *)
Record Options : Type := mkOptions {
  layerIndex : Z;
  activeClipId : option Z;
  activeClipIndex : option Z;
  isConnected : bool
}.

(** Requests handed to the API client. *)
Inductive ApiCall : Type :=
  | GetBpm
  | GetLayerOpacity (layer : Z)
  | SetBpm (bpm : number)
  | SetLayerOpacity (layer : Z) (opacity : number)
  | SetClipPosition (layer clip : Z) (position : number).

(** The three asynchronous callbacks handed to [setTimeout], each with the
    variables it closes over. *)
Inductive Commit : Type :=
  | CommitBpm (value : number)
  | CommitOpacity (layer : Z) (value : number)
  | CommitScrub (layer clip : Z) (value : number).

(** A timer waiting in the event loop. *)
Record Timer : Type := mkTimer {
  handle : nat;
  due : Z;
  callback : Commit
}.

(** The hook instance: seven state cells, four refs, and the part of the
    event loop it uses: the pending timers in the order they were
    registered, the next timer handle, and the requests handed to the API
    client, oldest first. *)
Record Hook : Type := mkHook {
  bpm : number;
  opacity : number;
  scrubPosition : number;
  error : option string;
  isBpmLoading : bool;
  isOpacityLoading : bool;
  isScrubbing : bool;
  bpmTimeoutRef : option nat;
  opacityTimeoutRef : option nat;
  scrubTimeoutRef : option nat;
  isMountedRef : bool;
  timers : list Timer;
  nextHandle : nat;
  apiCalls : list ApiCall
}.

(** The instance at its first render.  Timer handles are positive, hence
    truthy. *)
Definition initial : Hook :=
  mkHook (of_Z 120) (of_Z 100) (of_Z 0) None false false false
         None None None true [] 1 [].

Definition DEBOUNCE_DELAY : Z := 150.

(** *** State setters and refs *)

(** Each setter is written as it acts in a mounted component: it replaces
    its cell.  What React makes of a setter called after the component was
    unmounted is modelled once for the three hooks, in [React.run_in]. *)

Definition setBpmState (v : number) (h : Hook) : Hook :=
  mkHook v (opacity h) (scrubPosition h) (error h) (isBpmLoading h)
         (isOpacityLoading h) (isScrubbing h) (bpmTimeoutRef h) (opacityTimeoutRef h)
         (scrubTimeoutRef h) (isMountedRef h) (timers h) (nextHandle h) (apiCalls h).

Definition setOpacityState (v : number) (h : Hook) : Hook :=
  mkHook (bpm h) v (scrubPosition h) (error h) (isBpmLoading h)
         (isOpacityLoading h) (isScrubbing h) (bpmTimeoutRef h) (opacityTimeoutRef h)
         (scrubTimeoutRef h) (isMountedRef h) (timers h) (nextHandle h) (apiCalls h).

Definition setScrubPositionState (v : number) (h : Hook) : Hook :=
  mkHook (bpm h) (opacity h) v (error h) (isBpmLoading h)
         (isOpacityLoading h) (isScrubbing h) (bpmTimeoutRef h) (opacityTimeoutRef h)
         (scrubTimeoutRef h) (isMountedRef h) (timers h) (nextHandle h) (apiCalls h).

Definition setError (e : option string) (h : Hook) : Hook :=
  mkHook (bpm h) (opacity h) (scrubPosition h) e (isBpmLoading h)
         (isOpacityLoading h) (isScrubbing h) (bpmTimeoutRef h) (opacityTimeoutRef h)
         (scrubTimeoutRef h) (isMountedRef h) (timers h) (nextHandle h) (apiCalls h).

Definition setIsBpmLoading (b : bool) (h : Hook) : Hook :=
  mkHook (bpm h) (opacity h) (scrubPosition h) (error h) b
         (isOpacityLoading h) (isScrubbing h) (bpmTimeoutRef h) (opacityTimeoutRef h)
         (scrubTimeoutRef h) (isMountedRef h) (timers h) (nextHandle h) (apiCalls h).

Definition setIsOpacityLoading (b : bool) (h : Hook) : Hook :=
  mkHook (bpm h) (opacity h) (scrubPosition h) (error h) (isBpmLoading h)
         b (isScrubbing h) (bpmTimeoutRef h) (opacityTimeoutRef h)
         (scrubTimeoutRef h) (isMountedRef h) (timers h) (nextHandle h) (apiCalls h).

Definition setIsScrubbing (b : bool) (h : Hook) : Hook :=
  mkHook (bpm h) (opacity h) (scrubPosition h) (error h) (isBpmLoading h)
         (isOpacityLoading h) b (bpmTimeoutRef h) (opacityTimeoutRef h)
         (scrubTimeoutRef h) (isMountedRef h) (timers h) (nextHandle h) (apiCalls h).

Definition set_bpmTimeoutRef (r : option nat) (h : Hook) : Hook :=
  mkHook (bpm h) (opacity h) (scrubPosition h) (error h) (isBpmLoading h)
         (isOpacityLoading h) (isScrubbing h) r (opacityTimeoutRef h)
         (scrubTimeoutRef h) (isMountedRef h) (timers h) (nextHandle h) (apiCalls h).

Definition set_opacityTimeoutRef (r : option nat) (h : Hook) : Hook :=
  mkHook (bpm h) (opacity h) (scrubPosition h) (error h) (isBpmLoading h)
         (isOpacityLoading h) (isScrubbing h) (bpmTimeoutRef h) r
         (scrubTimeoutRef h) (isMountedRef h) (timers h) (nextHandle h) (apiCalls h).

Definition set_scrubTimeoutRef (r : option nat) (h : Hook) : Hook :=
  mkHook (bpm h) (opacity h) (scrubPosition h) (error h) (isBpmLoading h)
         (isOpacityLoading h) (isScrubbing h) (bpmTimeoutRef h) (opacityTimeoutRef h)
         r (isMountedRef h) (timers h) (nextHandle h) (apiCalls h).

Definition set_isMountedRef (b : bool) (h : Hook) : Hook :=
  mkHook (bpm h) (opacity h) (scrubPosition h) (error h) (isBpmLoading h)
         (isOpacityLoading h) (isScrubbing h) (bpmTimeoutRef h) (opacityTimeoutRef h)
         (scrubTimeoutRef h) b (timers h) (nextHandle h) (apiCalls h).

Definition set_timers (l : list Timer) (h : Hook) : Hook :=
  mkHook (bpm h) (opacity h) (scrubPosition h) (error h) (isBpmLoading h)
         (isOpacityLoading h) (isScrubbing h) (bpmTimeoutRef h) (opacityTimeoutRef h)
         (scrubTimeoutRef h) (isMountedRef h) l (nextHandle h) (apiCalls h).

(** Handing a request to the API client. *)
Definition api (c : ApiCall) (h : Hook) : Hook :=
  mkHook (bpm h) (opacity h) (scrubPosition h) (error h) (isBpmLoading h)
         (isOpacityLoading h) (isScrubbing h) (bpmTimeoutRef h) (opacityTimeoutRef h)
         (scrubTimeoutRef h) (isMountedRef h) (timers h) (nextHandle h)
         (apiCalls h ++ [c]).

(** *** Timers *)

(** [clearTimeout(ref.current)] guarded by [if (ref.current)]: a timer that
    already ran, or was cleared, is no longer pending and nothing happens. *)
Definition clearTimeout (ref : option nat) (h : Hook) : Hook :=
  match ref with
  | Some id => set_timers (filter (fun t => handle t ≠ id) (timers h)) h
  | None => h
  end.

(** [setTimeout(cb, DEBOUNCE_DELAY)] at time [now]; returns the handle. *)
Definition setTimeout (now : Z) (cb : Commit) (h : Hook) : nat * Hook :=
  (nextHandle h,
   mkHook (bpm h) (opacity h) (scrubPosition h) (error h) (isBpmLoading h)
          (isOpacityLoading h) (isScrubbing h) (bpmTimeoutRef h) (opacityTimeoutRef h)
          (scrubTimeoutRef h) (isMountedRef h)
          (timers h ++ [mkTimer (nextHandle h) (now + DEBOUNCE_DELAY) cb])
          (S (nextHandle h)) (apiCalls h)).

(** *** The three setters *)

(** [setBpm] *)
Definition setBpm (now : Z) (value : number) (h : Hook) : Hook :=
  let h := setBpmState value h in
  let h := setError None h in
  let h := clearTimeout (bpmTimeoutRef h) h in
  let '(id, h) := setTimeout now (CommitBpm value) h in
  set_bpmTimeoutRef (Some id) h.

(** [setOpacity] *)
Definition setOpacity (o : Options) (now : Z) (value : number) (h : Hook) : Hook :=
  let h := setOpacityState value h in
  let h := setError None h in
  let h := clearTimeout (opacityTimeoutRef h) h in
  let '(id, h) := setTimeout now (CommitOpacity (layerIndex o) value) h in
  set_opacityTimeoutRef (Some id) h.

(** Truthiness of a [number | null] that holds an integer: [null] and [0]
    are falsy. *)
Definition truthy (x : option Z) : bool :=
  match x with
  | Some z => negb (z =? 0)
  | None => false
  end.

(** [setScrubPosition] *)
Definition setScrubPosition (o : Options) (now : Z) (value : number) (h : Hook) : Hook :=
  if negb (isConnected o) || negb (truthy (activeClipId o)) || negb (truthy (activeClipIndex o))
  then h
  else
    let h := setScrubPositionState value h in
    let h := setError None h in
    let h := clearTimeout (scrubTimeoutRef h) h in
    let '(id, h) :=
      setTimeout now (CommitScrub (layerIndex o) (default 0 (activeClipIndex o)) value) h in
    set_scrubTimeoutRef (Some id) h.

(** *** The debounced commits *)

(** A commit, from the timer firing up to its [await]. *)
Definition commit_call (cb : Commit) (h : Hook) : Hook :=
  match cb with
  | CommitBpm value => api (SetBpm value) (setIsBpmLoading true h)
  | CommitOpacity layer value =>
      let normalizedOpacity := num_div100 value in
      api (SetLayerOpacity layer normalizedOpacity) (setIsOpacityLoading true h)
  | CommitScrub layer clip value =>
      api (SetClipPosition layer clip value) (setIsScrubbing true h)
  end.

(** The [finally] clause of a commit. *)
Definition commit_finally (cb : Commit) (h : Hook) : Hook :=
  if isMountedRef h then
    match cb with
    | CommitBpm _ => setIsBpmLoading false h
    | CommitOpacity _ _ => setIsOpacityLoading false h
    | CommitScrub _ _ _ => setIsScrubbing false h
    end
  else h.

(** A commit, when its write resolves. *)
Definition commit_resolve (cb : Commit) (h : Hook) : Hook := commit_finally cb h.

Definition fallback_message (cb : Commit) : string :=
  match cb with
  | CommitBpm _ => "Failed to set BPM"
  | CommitOpacity _ _ => "Failed to set opacity"
  | CommitScrub _ _ _ => "Failed to scrub clip"
  end.

(** A commit, when its write rejects: the [catch] clause, then [finally]. *)
Definition commit_reject (cb : Commit) (err : Thrown) (h : Hook) : Hook :=
  commit_finally cb (setError (Some (message_or (fallback_message cb) err)) h).

(** *** The event loop *)

(** Time passes up to [now]: the pending timers that are due run, in the
    order they were registered (all delays are equal, so this is the order
    in which they fall due). *)
Definition run_all (ready : list Timer) (h : Hook) : Hook :=
  fold_left (fun h t => commit_call (callback t) h) ready h.

Definition advance (now : Z) (h : Hook) : Hook :=
  run_all (filter (fun t => due t <= now) (timers h))
          (set_timers (filter (fun t => now < due t) (timers h)) h).

(** The cleanup function of the mount effect. *)
Definition unmount (h : Hook) : Hook :=
  let h := set_isMountedRef false h in
  let h := clearTimeout (bpmTimeoutRef h) h in
  let h := clearTimeout (opacityTimeoutRef h) h in
  clearTimeout (scrubTimeoutRef h) h.

(** *** Initial values *)

(** [Math.round], on the finite numbers. *)
Definition num_round (v : number) : number :=
  match v with
  | Fin q => of_Z (Qfloor (q + (1 # 2)))
  | other => other
  end.

(** [v * 100], exactly (on doubles the product is rounded). *)
Definition num_times100 (v : number) : number :=
  match v with
  | Fin q => Fin (q * 100)
  | other => other
  end.

(** [fetchInitialValues], up to the first [await]. *)
Definition fetchInitialValues_call (o : Options) (h : Hook) : Hook :=
  if negb (isConnected o) then h else api GetBpm h.

(** [fetchInitialValues], when the BPM read settles ([None]: it rejected),
    up to the second [await]. *)
Definition fetchInitialValues_bpm (o : Options) (value : option number) (h : Hook) : Hook :=
  let h :=
    match value with
    | Some v => if isMountedRef h then setBpmState (num_round v) h else h
    | None => h
    end in
  api (GetLayerOpacity (layerIndex o)) h.

(** [fetchInitialValues], when the opacity read settles. *)
Definition fetchInitialValues_opacity (value : option number) (h : Hook) : Hook :=
  match value with
  | Some v => if isMountedRef h then setOpacityState (num_round (num_times100 v)) h else h
  | None => if isMountedRef h then setOpacityState (of_Z 100) h else h
  end.

(** The state cells, which is what a consumer of the hook observes. *)
Definition observable (h : Hook) :=
  (bpm h, opacity h, scrubPosition h, error h,
   isBpmLoading h, isOpacityLoading h, isScrubbing h).

(** *** The three controls, uniformly *)

Inductive Control : Type := Bpm | Opacity | Scrub.

#[export] Instance Control_eq_dec : EqDecision Control.
Proof. solve_decision. Defined.

(** Calling the setter of a control. *)
Definition call_setter (k : Control) (o : Options) (now : Z) (value : number) (h : Hook) : Hook :=
  match k with
  | Bpm => setBpm now value h
  | Opacity => setOpacity o now value h
  | Scrub => setScrubPosition o now value h
  end.

(** The state cell a control displays. *)
Definition display (k : Control) (h : Hook) : number :=
  match k with
  | Bpm => bpm h
  | Opacity => opacity h
  | Scrub => scrubPosition h
  end.

Definition timeoutRef (k : Control) (h : Hook) : option nat :=
  match k with
  | Bpm => bpmTimeoutRef h
  | Opacity => opacityTimeoutRef h
  | Scrub => scrubTimeoutRef h
  end.

(** The commit a setter hands to [setTimeout]. *)
Definition commit_of (k : Control) (o : Options) (value : number) : Commit :=
  match k with
  | Bpm => CommitBpm value
  | Opacity => CommitOpacity (layerIndex o) value
  | Scrub => CommitScrub (layerIndex o) (default 0 (activeClipIndex o)) value
  end.

(** The request a commit hands to the API client. *)
Definition write_of (cb : Commit) : ApiCall :=
  match cb with
  | CommitBpm value => SetBpm value
  | CommitOpacity layer value => SetLayerOpacity layer (num_div100 value)
  | CommitScrub layer clip value => SetClipPosition layer clip value
  end.

Definition control_of (cb : Commit) : Control :=
  match cb with
  | CommitBpm _ => Bpm
  | CommitOpacity _ _ => Opacity
  | CommitScrub _ _ _ => Scrub
  end.

(** Which control a request writes, if any. *)
Definition written (c : ApiCall) : option Control :=
  match c with
  | SetBpm _ => Some Bpm
  | SetLayerOpacity _ _ => Some Opacity
  | SetClipPosition _ _ _ => Some Scrub
  | GetBpm | GetLayerOpacity _ => None
  end.

(** The pending commits of a control, and the writes made for it. *)
Definition pending (k : Control) (h : Hook) : list Timer :=
  filter (fun t => control_of (callback t) = k) (timers h).

Definition writes (k : Control) (h : Hook) : list ApiCall :=
  filter (fun c => written c = Some k) (apiCalls h).

(** The scrub setter's gate. *)
Definition gate (o : Options) : bool :=
  isConnected o && truthy (activeClipId o) && truthy (activeClipIndex o).

(** A burst of calls to one setter, each given with the time it is made
    at; between two calls the event loop runs whatever fell due. *)
Fixpoint burst (k : Control) (o : Options) (calls : list (Z * number)) (h : Hook) : Hook :=
  match calls with
  | [] => h
  | (now, value) :: rest => burst k o rest (call_setter k o now value (advance now h))
  end.

(** Every call of the burst comes less than the debounce delay after the
    one before it. *)
Fixpoint rapid (calls : list (Z * number)) : Prop :=
  match calls with
  | (t1, _) :: (((t2, _) :: _) as rest) => t1 <= t2 < t1 + DEBOUNCE_DELAY ∧ rapid rest
  | _ => True
  end.

(** The control has exactly one commit pending: the one for [value],
    scheduled at time [t], whose handle its ref holds. *)
Definition armed (k : Control) (o : Options) (t : Z) (value : number) (h : Hook) : Prop :=
  exists id : nat,
    pending k h = [mkTimer id (t + DEBOUNCE_DELAY) (commit_of k o value)]
    /\ timeoutRef k h = Some id.

(** The mount effect. *)
Definition mount (h : Hook) : Hook := set_isMountedRef true h.

(** Everything that can happen to an instance. *)
Inductive Event : Type :=
  | SetterCall (k : Control) (o : Options) (now : Z) (value : number)
  | Advance (now : Z)
  | CommitResolve (cb : Commit)
  | CommitReject (cb : Commit) (err : Thrown)
  | InitialCall (o : Options)
  | InitialBpm (o : Options) (value : option number)
  | InitialOpacity (value : option number)
  | Mount
  | Unmount.

Definition step (e : Event) (h : Hook) : Hook :=
  match e with
  | SetterCall k o now value => call_setter k o now value h
  | Advance now => advance now h
  | CommitResolve cb => commit_resolve cb h
  | CommitReject cb err => commit_reject cb err h
  | InitialCall o => fetchInitialValues_call o h
  | InitialBpm o value => fetchInitialValues_bpm o value h
  | InitialOpacity value => fetchInitialValues_opacity value h
  | Mount => mount h
  | Unmount => unmount h
  end.

(** A run: the events in the order they happen. *)
Definition run_events (events : list Event) (h : Hook) : Hook :=
  fold_left (fun h e => step e h) events h.

(** The bookkeeping of the timers is sound: handles are fresh, the ref of a
    control only ever names a timer of that control, and a control has at
    most one commit pending, the one its ref names. *)
Definition sound (h : Hook) : Prop :=
  (forall t, t ∈ timers h -> (handle t < nextHandle h)%nat)
  /\ (forall k id, timeoutRef k h = Some id ->
        (id < nextHandle h)%nat
        /\ forall t, t ∈ timers h -> handle t = id -> control_of (callback t) = k)
  /\ (forall k, pending k h = []
             \/ exists t, pending k h = [t] /\ timeoutRef k h = Some (handle t)).

(** The instance [new] with the state cells of [old]: what is left of a
    callback's work when its state updates are dropped. *)
Definition keep_state (old new : Hook) : Hook :=
  mkHook (bpm old) (opacity old) (scrubPosition old) (error old) (isBpmLoading old)
         (isOpacityLoading old) (isScrubbing old) (bpmTimeoutRef new)
         (opacityTimeoutRef new) (scrubTimeoutRef new) (isMountedRef new) (timers new)
         (nextHandle new) (apiCalls new).

Definition is_cleanup (e : Event) : bool :=
  match e with
  | Unmount => true
  | _ => false
  end.

End Controls.

(** ** The parameter controller on top of the API client *)

Module Wiring.

Section Perform.

Context {Payload : Type}.
Variable numberToString : number -> string.

(** What the API client does, up to its [await], with a request the
    parameter controller hands it. *)
Definition perform (now : Z) (call : Controls.ApiCall)
    (c : @ResolumeApiClient.Client Payload)
    : @ResolumeApiClient.Client Payload * @ResolumeApiClient.Write Payload :=
  match call with
  | Controls.GetBpm =>
      let '(c', s) :=
        ResolumeApiClient.request_call now "/api/resolume/composition/tempo/bpm" None c in
      (c', ResolumeApiClient.Requested s)
  | Controls.GetLayerOpacity layer =>
      let '(c', s) :=
        ResolumeApiClient.request_call now
          ("/api/resolume/composition/layers/" ++ numberToString (of_Z layer)
             ++ "/video/opacity") None c in
      (c', ResolumeApiClient.Requested s)
  | Controls.SetBpm bpm => ResolumeApiClient.setBpm numberToString now bpm c
  | Controls.SetLayerOpacity layer opacity =>
      ResolumeApiClient.setLayerOpacity numberToString now layer opacity c
  | Controls.SetClipPosition layer clip position =>
      ResolumeApiClient.setClipPosition numberToString now layer clip position c
  end.

End Perform.

(** The value a write carries, and the bounds the client checks it
    against. *)
Definition carried (call : Controls.ApiCall) : option (number * Z * Z) :=
  match call with
  | Controls.SetBpm bpm => Some (bpm, 20, 999)
  | Controls.SetLayerOpacity _ opacity => Some (opacity, 0, 1)
  | Controls.SetClipPosition _ _ position => Some (position, 0, 1)
  | Controls.GetBpm | Controls.GetLayerOpacity _ => None
  end.

(** The write passes the client's precondition: its value is neither below
    the lower bound nor above the upper one. *)
Definition passes (call : Controls.ApiCall) : bool :=
  match carried call with
  | Some (v, lo, hi) => negb (num_lt v (of_Z lo)) && negb (num_gt v (of_Z hi))
  | None => true
  end.

(** *** The clip reconciler on top of the API client *)

(** The payload of a clips read is [response?.clips]: the list, or nothing
    when the decoded object has no [clips]. *)
Abbreviation ClipsPayload := (option (list Clips.ClipViewModel)).

Section Fetch.

Variable numberToString : number -> string.

Definition clips_endpoint (layer : Z) : string :=
  "/api/resolume/composition/layers/" ++ numberToString (of_Z layer) ++ "/clips".

(** The object [{}] has no [clips]. *)
Definition emptyObject : ClipsPayload := None.

(** [fetchClips] with [getClipsForLayer] underneath, up to the network:
    when the client answers from its cache, the cached payload is applied;
    otherwise the request is in flight ([true]). *)
Definition fetchClips (now : Z) (o : Clips.Options)
    (c : @ResolumeApiClient.Client ClipsPayload) (h : Clips.Hook)
    : @ResolumeApiClient.Client ClipsPayload * Clips.Hook * bool :=
  if negb (Clips.isConnected o) then (c, Clips.fetchClips_call o h, false)
  else
    match ResolumeApiClient.request_call now (clips_endpoint (Clips.layerIndex o)) None c with
    | (c', ResolumeApiClient.CacheHit d) =>
        (c', Clips.fetchClips_resolve d (Clips.fetchClips_call o h), false)
    | (c', ResolumeApiClient.Fetching) => (c', Clips.fetchClips_call o h, true)
    end.

(** [fetchClips] from the response of its request on. *)
Definition fetchClips_response (now : Z) (o : Clips.Options)
    (r : @ResolumeApiClient.Response ClipsPayload)
    (c : @ResolumeApiClient.Client ClipsPayload) (h : Clips.Hook)
    : @ResolumeApiClient.Client ClipsPayload * Clips.Hook :=
  match ResolumeApiClient.request_resolve emptyObject numberToString now
          (clips_endpoint (Clips.layerIndex o)) None r c with
  | (c', ResolumeApiClient.Returned d) => (c', Clips.fetchClips_resolve d h)
  | (c', ResolumeApiClient.Threw e) => (c', Clips.fetchClips_reject o e h)
  end.

End Fetch.

(** *** A write, to the end *)

Section WriteResponse.

Context {Payload : Type}.
Variable emptyObject : Payload.
Variable numberToString : number -> string.

(** The endpoint and the method of the request a write makes. *)
Definition write_endpoint (call : Controls.ApiCall) : string :=
  match call with
  | Controls.GetBpm => "/api/resolume/composition/tempo/bpm"
  | Controls.GetLayerOpacity layer =>
      "/api/resolume/composition/layers/" ++ numberToString (of_Z layer) ++ "/video/opacity"
  | Controls.SetBpm bpm =>
      "/api/resolume/composition/tempo/bpm?bpm=" ++ numberToString bpm
  | Controls.SetLayerOpacity layer opacity =>
      "/api/resolume/composition/layers/" ++ numberToString (of_Z layer)
        ++ "/video/opacity?opacity=" ++ numberToString opacity
  | Controls.SetClipPosition layer clip position =>
      "/api/resolume/composition/layers/" ++ numberToString (of_Z layer)
        ++ "/clips/" ++ numberToString (of_Z clip)
        ++ "/transport/position?position=" ++ numberToString position
  end.

Definition write_method (call : Controls.ApiCall) : option string :=
  match Controls.written call with
  | Some _ => Some "POST"
  | None => None
  end.

(** What the API client does with the response to the request of [call]. *)
Definition perform_response (now : Z) (call : Controls.ApiCall)
    (r : @ResolumeApiClient.Response Payload) (c : @ResolumeApiClient.Client Payload)
    : @ResolumeApiClient.Client Payload * ResolumeApiClient.Outcome Payload :=
  ResolumeApiClient.request_resolve emptyObject numberToString now
    (write_endpoint call) (write_method call) r c.

End WriteResponse.

End Wiring.

(** ** The components that use the hooks *)

(** [Dashboard] (App.tsx) *)
Module Dashboard.

(** The options [Dashboard] hands to [useResolumeClips]. *)
Definition clips_options (selectedLayer : Z) (connection : Connection.Hook) : Clips.Options :=
  Clips.mkOptions selectedLayer (Connection.isConnected connection) 3000.

(** The options [Dashboard] hands to [useResolumeControls]: the active clip
    id of the clip reconciler, and, as [activeClipIndex], its selected clip
    index. *)
Definition controls_options (selectedLayer : Z) (connection : Connection.Hook)
    (clipsHook : Clips.Hook) : Controls.Options :=
  Controls.mkOptions selectedLayer (Clips.activeClipId clipsHook)
                     (Clips.selectedClipIndex clipsHook)
                     (Connection.isConnected connection).

(** [handleClipTrigger], up to the [await]: what [triggerClip] throws is
    caught and logged. *)
Definition handleClipTrigger (o : Clips.Options) (clipIndex : Z) (h : Clips.Hook)
    : Clips.Hook :=
  fst (Clips.triggerClip_call o clipIndex h).

(** [handleClearLayer], up to the [await]. *)
Definition handleClearLayer (o : Clips.Options) (h : Clips.Hook) : Clips.Hook :=
  fst (Clips.clearLayer_call o h).

End Dashboard.

(** [ResolumeControls] (components/ResolumeControls.tsx) *)
Module ResolumeControls.

(** The [onClick] of the button of clip slot [clipIndex]:
    [onTriggerClip(clipIndex); onSelectClip(clipIndex)]. *)
Definition clickClip (o : Clips.Options) (clipIndex : Z) (h : Clips.Hook) : Clips.Hook :=
  Clips.selectClip (Some clipIndex) (Dashboard.handleClipTrigger o clipIndex h).

(** The [onClick] of the clear button: [onClearLayer(); onSelectClip(null)]. *)
Definition clickClear (o : Clips.Options) (h : Clips.Hook) : Clips.Hook :=
  Clips.selectClip None (Dashboard.handleClearLayer o h).

End ResolumeControls.

(** [VideoScrubber] (components/VideoScrubber.tsx) *)
Module VideoScrubber.

(** What [getBoundingClientRect] gives, as far as it is used. *)
Record DOMRect : Type := mkRect { left : Q; width : Q }.

(** [a / b] on finite numbers: a zero divisor gives [NaN] for a zero
    dividend and an infinity of the dividend's sign otherwise. *)
Definition num_div (a b : Q) : number :=
  if Qeq_bool b 0 then
    if Qeq_bool a 0 then NaN else if Qle_bool 0 a then PosInf else NegInf
  else Fin (a / b).

(** [Math.min] and [Math.max] of two numbers. *)
Definition num_min (a b : number) : number :=
  match a, b with
  | NaN, _ | _, NaN => NaN
  | NegInf, _ | _, NegInf => NegInf
  | PosInf, x | x, PosInf => x
  | Fin x, Fin y => Fin (Qmin x y)
  end.

Definition num_max (a b : number) : number :=
  match a, b with
  | NaN, _ | _, NaN => NaN
  | PosInf, _ | _, PosInf => PosInf
  | NegInf, x | x, NegInf => x
  | Fin x, Fin y => Fin (Qmax x y)
  end.

(** [calculatePosition]; [rect] is [None] when [scrubberRef.current] is
    null. *)
Definition calculatePosition (rect : option DOMRect) (clientX : Q) : number :=
  match rect with
  | None => of_Z 0
  | Some r =>
      let position := num_div (clientX - left r) (width r) in
      num_max (of_Z 0) (num_min (of_Z 1) position)
  end.

End VideoScrubber.

(** ** The hooks inside a React component *)

(** The hooks run inside a component mounted with [createRoot] (the
    application's entry point), that is under React 18: a state setter
    called once the component has been unmounted does nothing.  Refs,
    timers and requests are not React's and are not affected. *)
Module React.

Section Component.

Context {Hook Event Arg : Type}.
(** [keep_state old new]: [new] with the state cells of [old]. *)
Variable keep_state : Hook -> Hook -> Hook.
Variable step : Event -> Hook -> Hook.
(** The effect of the hook, run with the values of a render, and its
    cleanup. *)
Variable effect : Arg -> Event.
Variable cleanup : Event.
Variable is_cleanup : Event -> bool.

Record Component : Type := mkComponent { hook : Hook; unmounted : bool }.

(** Code of the hook runs (a callback, a continuation, a timer): the state
    updates it asks for are applied unless the component has been
    unmounted. *)
Definition run_in (f : Hook -> Hook) (c : Component) : Component :=
  mkComponent (if unmounted c then keep_state (hook c) (f (hook c)) else f (hook c))
              (unmounted c).

(** The component is unmounted: the cleanup runs. *)
Definition remove (f : Hook -> Hook) (c : Component) : Component :=
  mkComponent (f (hook c)) true.

(** What happens to a component: an event of its hook, where the cleanup
    event on its own is the unmount; or the effect running again (its
    dependencies changed, or strict mode replays it), which is the cleanup
    followed at once by the effect. *)
Inductive Happening : Type :=
  | Happens (e : Event)
  | Rerun (a : Arg).

Definition happen (x : Happening) (c : Component) : Component :=
  match x with
  | Happens e => if is_cleanup e then remove (step e) c else run_in (step e) c
  | Rerun a => run_in (fun h => step (effect a) (step cleanup h)) c
  end.

(** The life of a component from its first render. *)
Definition life (xs : list Happening) (first : Hook) : Component :=
  fold_left (fun c x => happen x c) xs (mkComponent first false).

(** The liveness flag of the hook is false only in a component that was
    unmounted. *)
Variable flag : Hook -> bool.

Definition flag_tells (c : Component) : Prop :=
  flag (hook c) = false -> unmounted c = true.

End Component.

End React.

(** The three hooks as components. *)
Module Component.

Definition connection_happen
    : React.Happening -> React.Component -> @React.Component Connection.Hook :=
  React.happen Connection.keep_state Connection.step
               (fun _ : unit => Connection.Mount) Connection.Unmount Connection.is_cleanup.

Definition connection (xs : list (@React.Happening Connection.Event unit))
    : @React.Component Connection.Hook :=
  React.life Connection.keep_state Connection.step
             (fun _ : unit => Connection.Mount) Connection.Unmount Connection.is_cleanup
             xs Connection.initial.

Definition clips_happen
    : React.Happening -> React.Component -> @React.Component Clips.Hook :=
  React.happen Clips.keep_state Clips.step Clips.Mount Clips.Unmount Clips.is_cleanup.

Definition clips (xs : list (@React.Happening Clips.Event Clips.Options))
    : @React.Component Clips.Hook :=
  React.life Clips.keep_state Clips.step Clips.Mount Clips.Unmount Clips.is_cleanup
             xs Clips.initial.

Definition controls_happen
    : React.Happening -> React.Component -> @React.Component Controls.Hook :=
  React.happen Controls.keep_state Controls.step
               (fun _ : unit => Controls.Mount) Controls.Unmount Controls.is_cleanup.

Definition controls (xs : list (@React.Happening Controls.Event unit))
    : @React.Component Controls.Hook :=
  React.life Controls.keep_state Controls.step
             (fun _ : unit => Controls.Mount) Controls.Unmount Controls.is_cleanup
             xs Controls.initial.

End Component.

(** ** Concrete values used in the examples below *)

Module Sample.

(** A rendering of numbers, standing in for JavaScript's: integers in
    decimal, other rationals as a fraction. *)
Definition show (v : number) : string :=
  match v with
  | Fin q =>
      if (Z.pos (Qden q) =? 1)%Z then pretty (Qnum q)
      else pretty (Qnum q) ++ "/" ++ pretty (Z.pos (Qden q))
  | NaN => "NaN"
  | PosInf => "Infinity"
  | NegInf => "-Infinity"
  end.

(** A client with an empty cache that has not used the network yet; its
    payloads are the JSON texts. *)
Definition client : @ResolumeApiClient.Client string :=
  ResolumeApiClient.mkClient "" ∅ [].

Definition no_content : @ResolumeApiClient.Response string :=
  ResolumeApiClient.mkResponse 204 "No Content" None.

Definition status_ok : @ResolumeApiClient.Response string :=
  ResolumeApiClient.mkResponse 200 "OK" (Some "{connected:true}").

Definition unreachable : Connection.ConnectionStatus :=
  Connection.mkStatus false None None (Some "Resolume unreachable").

Definition clip (id : Z) (connected : bool) : Clips.ClipViewModel :=
  Clips.ClipViewModel.mk id "clip" connected "/thumbnail" None None.

Definition layer1 : Clips.Options := Clips.mkOptions 1 true 3000.

Definition layer1_offline : Clips.Options := Clips.mkOptions 1 false 3000.

Definition playing : Controls.Options := Controls.mkOptions 1 (Some 7) (Some 2) true.

Definition idle : Controls.Options := Controls.mkOptions 1 None None true.

(** A client of clips reads, the answer to one, and a 404. *)
Definition clips_client : @ResolumeApiClient.Client Wiring.ClipsPayload :=
  ResolumeApiClient.mkClient "" ∅ [].

Definition two_clips : list Clips.ClipViewModel := [clip 11 true; clip 12 false].

Definition clips_ok : @ResolumeApiClient.Response Wiring.ClipsPayload :=
  ResolumeApiClient.mkResponse 200 "OK" (Some (Some two_clips)).

Definition not_found : @ResolumeApiClient.Response Wiring.ClipsPayload :=
  ResolumeApiClient.mkResponse 404 "Not Found" None.

(** The client after the clips of layer 1 were stored at time 100. *)
Definition clips_cached : @ResolumeApiClient.Client Wiring.ClipsPayload :=
  fst (ResolumeApiClient.request_resolve Wiring.emptyObject show 100
         (Wiring.clips_endpoint show 1) None clips_ok clips_client).

(** The client after a tempo read was stored at time 5. *)
Definition tempo_cached : @ResolumeApiClient.Client string :=
  fst (ResolumeApiClient.request_resolve "{}" show 5 "/api/resolume/composition/tempo/bpm"
         None (ResolumeApiClient.mkResponse 200 "OK" (Some "{value:120}")) client).

End Sample.

(** * Properties *)

(** ** Numbers *)

Lemma num_lt_Fin (a b : Q) : num_lt (Fin a) (Fin b) = true <-> (a < b)%Q.
Proof.
  simpl. rewrite negb_true_iff. split.
  - intros H. apply Qnot_le_lt. intros Hle.
    apply Qle_bool_iff in Hle. congruence.
  - intros H. destruct (Qle_bool b a) eqn:E; [|reflexivity].
    apply Qle_bool_iff in E. exfalso. exact (Qlt_not_le _ _ H E).
Qed.

Lemma num_lt_NaN_l (b : number) : num_lt NaN b = false.
Proof. reflexivity. Qed.

Lemma num_lt_NaN_r (a : number) : num_lt a NaN = false.
Proof. destruct a; reflexivity. Qed.

(** ** The API client *)

Section ClientFacts.

Import ResolumeApiClient.

Context {Payload : Type}.
Variable emptyObject : Payload.
Variable numberToString : number -> string.

#[local] Abbreviation Client := (@Client Payload).
#[local] Abbreviation Response := (@Response Payload).

(** A request that is not GET-equivalent always reaches the network. *)
Lemma request_call_not_GET (now : Z) (endpoint : string) (method : option string)
    (c : Client) :
  is_GET method = false ->
  request_call now endpoint method c =
    (mkClient (baseUrl c) (requestCache c)
       (fetched c ++ [(fetch_method method, url_of c endpoint)]), Fetching).
Proof. intros H. unfold request_call. rewrite H. reflexivity. Qed.

(** Whatever [request_call] does, it issues at most one [fetch] and leaves
    the cache alone. *)
Lemma request_call_cases (now : Z) (endpoint : string) (method : option string)
    (c : Client) :
  (exists d, request_call now endpoint method c = (c, CacheHit d)) \/
  request_call now endpoint method c =
    (mkClient (baseUrl c) (requestCache c)
       (fetched c ++ [(fetch_method method, url_of c endpoint)]), Fetching).
Proof.
  unfold request_call.
  destruct (is_GET method); [|now right].
  destruct (requestCache c !! cacheKey c endpoint method) as [cached|]; [|now right].
  destruct (now - timestamp cached <? cacheTTL); [left; eauto | now right].
Qed.

(** Two GET-equivalent methods give one cache key. *)
Lemma cacheKey_GET (c : Client) (endpoint : string) (m1 m2 : option string) :
  is_GET m1 = true -> is_GET m2 = true ->
  cacheKey c endpoint m1 = cacheKey c endpoint m2.
Proof.
  assert (G : forall m, is_GET m = true -> method_or_GET m = "GET").
  { intros [m|]; simpl; [|reflexivity].
    intros H. apply orb_true_iff in H as [H|H]; apply bool_decide_eq_true in H; subst.
    - reflexivity.
    - reflexivity. }
  intros H1 H2. unfold cacheKey. rewrite (G _ H1), (G _ H2). reflexivity.
Qed.

(** C6. [setBpm] on any number [v]: when [v < 20] or [v > 999] the call is
    rejected with the validation error and the client, its list of issued
    fetches included, is unchanged; for [v = 20] and [v = 999] the check
    passes and exactly one POST to the tempo endpoint is issued. *)
Theorem setBpm_range_check (now : Z) (v : number) (c : Client) :
  (num_lt v (of_Z 20) = true \/ num_gt v (of_Z 999) = true ->
     setBpm numberToString now v c
     = (c, Rejected (validation_error "BPM must be between 20 and 999")))
  /\
  (v = of_Z 20 \/ v = of_Z 999 ->
     setBpm numberToString now v c
     = (mkClient (baseUrl c) (requestCache c)
          (fetched c ++
             [("POST", baseUrl c ++ "/api/resolume/composition/tempo/bpm?bpm="
                         ++ numberToString v)]),
        Requested Fetching)).
Proof.
  split.
  - intros H. unfold setBpm.
    assert (E : num_lt v (of_Z 20) || num_gt v (of_Z 999) = true)
      by (apply orb_true_iff; exact H).
    rewrite E. reflexivity.
  - intros [-> | ->]; unfold setBpm.
    + assert (E : num_lt (of_Z 20) (of_Z 20) || num_gt (of_Z 20) (of_Z 999) = false)
        by reflexivity.
      rewrite E, request_call_not_GET by reflexivity. reflexivity.
    + assert (E : num_lt (of_Z 999) (of_Z 20) || num_gt (of_Z 999) (of_Z 999) = false)
        by reflexivity.
      rewrite E, request_call_not_GET by reflexivity. reflexivity.
Qed.

(** Every number in the closed range is let through, [NaN] too. *)
Lemma setBpm_in_range (now : Z) (v : Q) (c : Client) :
  (20 <= v <= 999)%Q ->
  snd (setBpm numberToString now (Fin v) c) = Requested Fetching
  /\ length (fetched (fst (setBpm numberToString now (Fin v) c))) = S (length (fetched c)).
Proof.
  intros [Hlo Hhi]. unfold setBpm.
  assert (E1 : num_lt (Fin v) (of_Z 20) = false).
  { destruct (num_lt (Fin v) (of_Z 20)) eqn:E; [|reflexivity].
    apply num_lt_Fin in E. exfalso. exact (Qlt_not_le _ _ E Hlo). }
  assert (E2 : num_gt (Fin v) (of_Z 999) = false).
  { unfold num_gt. destruct (num_lt (of_Z 999) (Fin v)) eqn:E; [|reflexivity].
    apply num_lt_Fin in E. exfalso. exact (Qlt_not_le _ _ E Hhi). }
  rewrite E1, E2. cbn [orb].
  rewrite request_call_not_GET by reflexivity. cbn [fst snd fetched].
  split; [reflexivity|]. rewrite length_app. simpl. lia.
Qed.

Lemma setBpm_NaN (now : Z) (c : Client) :
  snd (setBpm numberToString now NaN c) = Requested Fetching.
Proof.
  unfold setBpm. cbn [num_lt num_gt orb].
  rewrite request_call_not_GET by reflexivity. reflexivity.
Qed.

(** C7, as the code has it.  Take two GET-equivalent requests for one
    endpoint.  When the first one's response is a success other than 204
    whose body decodes to [d], and is stored at time [t0], then a second
    call at time [t] with [t - t0 < 1000] returns [d] from the cache and
    issues no fetch, and a second call with [t - t0 >= 1000] issues one. *)
Theorem cache_ttl (endpoint : string) (m1 m2 : option string) (r : Response)
    (d : Payload) (t0 t : Z) (c : Client) :
  is_GET m1 = true -> is_GET m2 = true ->
  ok r = true -> status r <> 204 -> json r = Some d ->
  let c1 := fst (request_resolve emptyObject numberToString t0 endpoint m1 r c) in
  snd (request_resolve emptyObject numberToString t0 endpoint m1 r c) = Returned d
  /\ fetched c1 = fetched c
  /\ (t - t0 < 1000 -> request_call t endpoint m2 c1 = (c1, CacheHit d))
  /\ (1000 <= t - t0 ->
        request_call t endpoint m2 c1
        = (mkClient (baseUrl c1) (requestCache c1)
             (fetched c1 ++ [(fetch_method m2, url_of c1 endpoint)]), Fetching)).
Proof.
  intros G1 G2 Hok H204 Hjson.
  unfold request_resolve. rewrite Hok. simpl.
  apply Z.eqb_neq in H204. rewrite H204, Hjson, G1. simpl.
  split; [reflexivity|]. split; [reflexivity|].
  set (c1 := mkClient _ _ _).
  assert (L : requestCache c1 !! cacheKey c1 endpoint m2 = Some (mkEntry d t0)).
  { assert (K : cacheKey c1 endpoint m2 = cacheKey c endpoint m1)
      by (rewrite (cacheKey_GET c endpoint m1 m2 G1 G2); reflexivity).
    rewrite K. unfold c1. cbn [requestCache]. apply lookup_insert_eq. }
  split; intros Ht; unfold request_call; rewrite G2, L; simpl.
  - assert (E : (t - t0 <? cacheTTL) = true) by (apply Z.ltb_lt; unfold cacheTTL; lia).
    rewrite E. reflexivity.
  - assert (E : (t - t0 <? cacheTTL) = false) by (apply Z.ltb_ge; unfold cacheTTL; lia).
    rewrite E. reflexivity.
Qed.

End ClientFacts.

(** Witness of C6: 19 is rejected without touching the client. *)
Lemma setBpm_range_check_witness :
  ResolumeApiClient.setBpm Sample.show 0 (of_Z 19) Sample.client
  = (Sample.client,
     ResolumeApiClient.Rejected
       (ResolumeApiClient.validation_error "BPM must be between 20 and 999")).
Proof.
  apply (proj1 (setBpm_range_check Sample.show 0 (of_Z 19) Sample.client)).
  left. reflexivity.
Defined.

Example setBpm_1000_rejected :
  snd (ResolumeApiClient.setBpm Sample.show 0 (of_Z 1000) Sample.client)
  = ResolumeApiClient.Rejected
      (ResolumeApiClient.validation_error "BPM must be between 20 and 999")
  /\ ResolumeApiClient.fetched
       (fst (ResolumeApiClient.setBpm Sample.show 0 (of_Z 1000) Sample.client)) = [].
Proof. split; reflexivity. Qed.

Example setBpm_20_fetches :
  ResolumeApiClient.fetched
    (fst (ResolumeApiClient.setBpm Sample.show 0 (of_Z 20) Sample.client))
  = [("POST", "/api/resolume/composition/tempo/bpm?bpm=20")].
Proof. vm_compute. reflexivity. Qed.

(** C7 as stated fails.  A first GET answered 204 succeeds, yet nothing is
    cached, and the same GET made 10ms after the first was called (5ms
    after it returned) goes to the network again.  And the TTL runs from
    the moment the payload is stored, not from the call: when the answer to
    a GET called at time 0 is stored at time 600, the same GET called at
    time 1100 is served from the cache. *)
Lemma cache_ttl_no_content_counterexample :
  let first :=
    ResolumeApiClient.request "{}" Sample.show 0 "/api/resolume/status" None
      Sample.no_content 5 Sample.client in
  let slow :=
    ResolumeApiClient.request "{}" Sample.show 0 "/api/resolume/status" None
      Sample.status_ok 600 Sample.client in
  ResolumeApiClient.ok Sample.no_content = true
  /\ snd first = ResolumeApiClient.Returned "{}"
  /\ snd (ResolumeApiClient.request_call 10 "/api/resolume/status" None (fst first))
     = ResolumeApiClient.Fetching
  /\ ResolumeApiClient.fetched
       (fst (ResolumeApiClient.request_call 10 "/api/resolume/status" None (fst first)))
     = [("GET", "/api/resolume/status"); ("GET", "/api/resolume/status")]
  /\ snd slow = ResolumeApiClient.Returned "{connected:true}"
  /\ ResolumeApiClient.request_call 1100 "/api/resolume/status" None (fst slow)
     = (fst slow, ResolumeApiClient.CacheHit "{connected:true}").
Proof. vm_compute. repeat split; reflexivity. Qed.

(** Witness of C7: a status read stored at time 5 is served from the cache
    at time 1004 and fetched again at time 1005. *)
Lemma cache_ttl_witness :
  let c1 :=
    fst (ResolumeApiClient.request_resolve "{}" Sample.show 5 "/api/resolume/status"
           None Sample.status_ok Sample.client) in
  ResolumeApiClient.request_call 1004 "/api/resolume/status" (Some "GET") c1
  = (c1, ResolumeApiClient.CacheHit "{connected:true}").
Proof.
  intros c1.
  destruct (cache_ttl "{}" Sample.show "/api/resolume/status" None (Some "GET")
              Sample.status_ok "{connected:true}" 5 1004 Sample.client)
    as (_ & _ & Hit & _).
  - reflexivity.
  - reflexivity.
  - reflexivity.
  - discriminate.
  - reflexivity.
  - apply Hit. lia.
Defined.

(** ** The connection monitor *)

Section ConnectionFacts.

Import Connection.

(** After teardown a settling status request changes nothing at all. *)
Lemma checkConnection_settle_unmounted (s : Settled) (h : Hook) :
  isMountedRef h = false -> checkConnection_settle s h = h.
Proof.
  intros M. destruct s; simpl;
    unfold checkConnection_resolve, checkConnection_reject; rewrite M; reflexivity.
Qed.

(** The interval never exceeds the ceiling after a failure. *)
Lemma backoff_capped (err : Thrown) (h : Hook) :
  isMountedRef h = true ->
  (pollingIntervalRef (checkConnection_reject err h) <= MAX_INTERVAL)%Q.
Proof.
  intros M. unfold checkConnection_reject. rewrite M. simpl.
  apply Q.le_min_r.
Qed.

(** The delay of the timer [poll] registers is the interval its check
    leaves behind. *)
Lemma poll_delays (s : Settled) (h : Hook) :
  delays (poll s h)
  = (delays h ++ [pollingIntervalRef (checkConnection_settle s (checkConnection_call h))])%list.
Proof.
  unfold poll, scheduleNextCheck. simpl.
  destruct s; simpl; unfold checkConnection_resolve, checkConnection_reject; simpl;
    destruct (isMountedRef h); simpl; try destruct (connected status); reflexivity.
Qed.

(** No step of the polling chain touches the liveness flag. *)
Lemma checkConnection_settle_isMountedRef (s : Settled) (h : Hook) :
  isMountedRef (checkConnection_settle s h) = isMountedRef h.
Proof.
  destruct s; simpl; unfold checkConnection_resolve, checkConnection_reject;
    destruct (isMountedRef h) eqn:M; simpl; auto.
Qed.

Lemma poll_isMountedRef (s : Settled) (h : Hook) :
  isMountedRef (poll s h) = isMountedRef h.
Proof. unfold poll. simpl. now rewrite checkConnection_settle_isMountedRef. Qed.

Lemma poll_pollingIntervalRef (s : Settled) (h : Hook) :
  pollingIntervalRef (poll s h) = pollingIntervalRef (checkConnection_settle s h).
Proof.
  unfold poll. simpl.
  destruct s; simpl; unfold checkConnection_resolve, checkConnection_reject; simpl;
    destruct (isMountedRef h); reflexivity.
Qed.

Lemma reject_pollingIntervalRef (err : Thrown) (h : Hook) :
  isMountedRef h = true ->
  pollingIntervalRef (checkConnection_reject err h)
  = Qmin (pollingIntervalRef h * BACKOFF_MULTIPLIER) MAX_INTERVAL.
Proof. intros M. unfold checkConnection_reject. rewrite M. reflexivity. Qed.

Lemma poll_failed_delays (err : Thrown) (h : Hook) :
  isMountedRef h = true ->
  delays (poll (Failed err) h)
  = (delays h ++ [Qmin (pollingIntervalRef h * BACKOFF_MULTIPLIER) MAX_INTERVAL])%list.
Proof.
  intros M. rewrite poll_delays. f_equal. f_equal. simpl.
  unfold checkConnection_reject. simpl. rewrite M. reflexivity.
Qed.

(** C2, as the code has it.  While mounted: a status check that throws
    replaces the interval by [min (interval * 1.5) 30000]; one that resolves
    with [connected = true] sets it to 5000; one that resolves with
    [connected = false] leaves it as it is.  From an interval of 2000, the
    timers that run three consecutive throwing checks have delays 2000, 3000
    and 4500, and the third failure leaves 6750; the timer registered after
    a check that resolves connected has delay 5000. *)
Theorem polling_interval (h : Hook) :
  isMountedRef h = true ->
  (forall err,
     pollingIntervalRef (checkConnection_reject err h)
     = Qmin (pollingIntervalRef h * BACKOFF_MULTIPLIER) MAX_INTERVAL)
  /\ (forall status, connected status = true ->
        pollingIntervalRef (checkConnection_resolve status h) = SUCCESS_INTERVAL
        /\ delays (poll (Resolved status) h) = (delays h ++ [SUCCESS_INTERVAL])%list)
  /\ (forall status, connected status = false ->
        pollingIntervalRef (checkConnection_resolve status h) = pollingIntervalRef h)
  /\ (pollingIntervalRef h = INITIAL_INTERVAL ->
      forall e1 e2 e3,
        let h3 := poll (Failed e2) (poll (Failed e1) (scheduleNextCheck h)) in
        exists d1 d2 d3,
          delays h3 = (delays h ++ [d1; d2; d3])%list
          /\ (d1 == 2000)%Q /\ (d2 == 3000)%Q /\ (d3 == 4500)%Q
          /\ (pollingIntervalRef (checkConnection_reject e3 (checkConnection_call h3))
              == 6750)%Q).
Proof.
  intros M. repeat split.
  - intros err. unfold checkConnection_reject. rewrite M. reflexivity.
  - unfold checkConnection_resolve. rewrite M, H. reflexivity.
  - rewrite poll_delays. simpl. unfold checkConnection_resolve. simpl.
    rewrite M, H. reflexivity.
  - intros status C. unfold checkConnection_resolve. rewrite M, C. reflexivity.
  - intros I e1 e2 e3 h3. subst h3.
    set (h0 := scheduleNextCheck h).
    set (h3 := poll (Failed e2) (poll (Failed e1) h0)).
    assert (M0 : isMountedRef h0 = true) by exact M.
    assert (I0 : pollingIntervalRef h0 = INITIAL_INTERVAL) by exact I.
    assert (M1 : isMountedRef (poll (Failed e1) h0) = true)
      by (rewrite poll_isMountedRef; exact M0).
    assert (I1 : pollingIntervalRef (poll (Failed e1) h0)
                 = Qmin (INITIAL_INTERVAL * BACKOFF_MULTIPLIER) MAX_INTERVAL).
    { rewrite poll_pollingIntervalRef. simpl.
      rewrite reject_pollingIntervalRef by exact M0. now rewrite I0. }
    exists INITIAL_INTERVAL,
           (Qmin (INITIAL_INTERVAL * BACKOFF_MULTIPLIER) MAX_INTERVAL),
           (Qmin (Qmin (INITIAL_INTERVAL * BACKOFF_MULTIPLIER) MAX_INTERVAL
                  * BACKOFF_MULTIPLIER) MAX_INTERVAL).
    split.
    + unfold h3. rewrite poll_failed_delays by exact M1.
      rewrite poll_failed_delays by exact M0. rewrite I1, I0.
      unfold h0, scheduleNextCheck. simpl. rewrite I.
      rewrite <- !app_assoc. reflexivity.
    + split; [reflexivity|]. split; [reflexivity|]. split; [reflexivity|].
      rewrite reject_pollingIntervalRef.
      * change (pollingIntervalRef (checkConnection_call h3)) with (pollingIntervalRef h3).
        unfold h3. rewrite poll_pollingIntervalRef. simpl.
        rewrite reject_pollingIntervalRef by exact M1. rewrite I1. reflexivity.
      * change (isMountedRef (checkConnection_call h3)) with (isMountedRef h3).
        unfold h3. rewrite poll_isMountedRef. exact M1.
Qed.

End ConnectionFacts.

(** Witness of C2, at the first render. *)
Lemma polling_interval_witness :
  Connection.pollingIntervalRef (Connection.checkConnection_reject NonError Connection.initial)
  = Qmin (Connection.pollingIntervalRef Connection.initial * Connection.BACKOFF_MULTIPLIER)
         Connection.MAX_INTERVAL.
Proof.
  exact (proj1 (polling_interval Connection.initial eq_refl) NonError).
Defined.

(** C2 as stated fails: a status check that succeeds but reports
    [connected = false] (the backend answers, the engine is unreachable)
    leaves the interval at 2000; it is neither reset to 5000 nor grown to
    3000. *)
Lemma polling_interval_counterexample :
  let h := Connection.checkConnection_resolve Sample.unreachable Connection.initial in
  (Connection.pollingIntervalRef h == 2000)%Q
  /\ ~ (Connection.pollingIntervalRef h == 5000)%Q
  /\ ~ (Connection.pollingIntervalRef h == 3000)%Q
  /\ Connection.isConnected h = false
  /\ Connection.error h = None.
Proof. vm_compute. repeat split; intros H; discriminate H. Qed.

(** From the mount on, with the immediate check and every polled check
    throwing: the immediate check has grown the interval before the first
    timer runs, so the timers are registered with delays 2000, 4500 and
    6750. *)
Example delays_from_mount :
  let fail := Connection.Failed NonError in
  let h0 := Connection.checkConnection_settle fail (Connection.mount Connection.initial) in
  Forall2 Qeq (Connection.delays (Connection.poll fail (Connection.poll fail h0)))
          [2000; 4500; 6750]%Q.
Proof. repeat constructor. Qed.

Example backoff_reaches_ceiling :
  let fail := Connection.checkConnection_reject NonError in
  (Connection.pollingIntervalRef
     (fail (fail (fail (fail (fail (fail (fail Connection.initial)))))))
   == 30000)%Q.
Proof. vm_compute. reflexivity. Qed.

(** ** The clip reconciler *)

Section ClipsFacts.

Import Clips.

(** [find] and [findIndex] agree, and pick the first entry that satisfies
    the predicate. *)
Lemma find_first {A : Type} (p : A -> bool) (l : list A) (i : nat) (x : A) :
  l !! i = Some x -> p x = true ->
  (forall (j : nat) (y : A), (j < i)%nat -> l !! j = Some y -> p y = false) ->
  find p l = Some x /\ findIndex p l = Z.of_nat i.
Proof.
  revert i. induction l as [|a l IH]; intros i Hi Hp Hbefore.
  - discriminate Hi.
  - destruct i as [|i]; simpl in *.
    + injection Hi as ->. rewrite Hp. split; reflexivity.
    + rewrite (Hbefore 0%nat a) by (reflexivity || lia).
      destruct (IH i Hi Hp) as [F I].
      { intros j y Hj Hy. apply (Hbefore (S j) y); [lia | exact Hy]. }
      rewrite F, I. split; [reflexivity|].
      destruct (Z.of_nat i <? 0) eqn:E; [apply Z.ltb_lt in E|]; lia.
Qed.

Lemma find_none {A : Type} (p : A -> bool) (l : list A) :
  (forall x, x ∈ l -> p x = false) -> find p l = None.
Proof.
  induction l as [|a l IH]; intros H; simpl; [reflexivity|].
  rewrite (H a) by apply list_elem_of_here.
  apply IH. intros x Hx. apply H. now apply list_elem_of_further.
Qed.

(** C4. A clip list fetched while the hook is mounted: when [clip], at
    0-based position [i], is its first connected entry, the active clip id
    becomes [clip]'s id and the active index and the selection both become
    [i + 1], whatever the selection was; when no entry is connected, the
    active id and index are cleared and the selection is what it was. *)
Theorem active_clip_derivation (response : option (list ClipViewModel)) (h : Hook) :
  isMountedRef h = true ->
  let clipsData := default [] response in
  let h' := fetchClips_resolve response h in
  clips h' = clipsData
  /\ (forall (i : nat) (clip : ClipViewModel),
        first_connected clipsData i clip ->
        activeClipId h' = Some (ClipViewModel.id clip)
        /\ activeClipIndex h' = Some (Z.of_nat i + 1)
        /\ selectedClipIndex h' = Some (Z.of_nat i + 1))
  /\ ((forall c, c ∈ clipsData -> ClipViewModel.isConnected c = false) ->
        activeClipId h' = None
        /\ activeClipIndex h' = None
        /\ selectedClipIndex h' = selectedClipIndex h).
Proof.
  intros M clipsData h'. subst h'. unfold fetchClips_resolve. rewrite M. simpl.
  fold clipsData. split; [|split].
  - destruct (find ClipViewModel.isConnected clipsData); reflexivity.
  - intros i clip (Hi & Hc & Hbefore).
    destruct (find_first ClipViewModel.isConnected clipsData i clip Hi Hc Hbefore)
      as [F I].
    rewrite F, I. simpl. repeat split.
  - intros Hnone. rewrite (find_none _ _ Hnone). simpl. repeat split.
Qed.

(** Witness of C4: the third of four clips is the one playing. *)
Lemma active_clip_derivation_witness :
  let l := [Sample.clip 11 false; Sample.clip 12 false; Sample.clip 13 true;
            Sample.clip 14 true] in
  let h' := fetchClips_resolve (Some l) (selectClip (Some 9) initial) in
  activeClipId h' = Some 13 /\ activeClipIndex h' = Some 3 /\ selectedClipIndex h' = Some 3.
Proof.
  intros l h'.
  apply (proj1 (proj2 (active_clip_derivation (Some l) (selectClip (Some 9) initial)
                         eq_refl)) 2%nat (Sample.clip 13 true)).
  split; [reflexivity|]. split; [reflexivity|].
  intros [|[|j]] c Hj Hc; [injection Hc as <-; reflexivity .. | lia].
Defined.

(** One call of [fetchClips] while disconnected empties the clip list and
    leaves every other cell, the active clip id, the active clip index and
    the selected clip index among them, as it was; it asks nothing of the
    API client. *)
Lemma fetch_disconnected (o : Options) (h : Hook) :
  isConnected o = false ->
  let h' := fetchClips_call o h in
  clips h' = []
  /\ activeClipId h' = activeClipId h
  /\ activeClipIndex h' = activeClipIndex h
  /\ selectedClipIndex h' = selectedClipIndex h
  /\ isLoading h' = isLoading h
  /\ error h' = error h
  /\ apiCalls h' = apiCalls h
  /\ timeouts h' = timeouts h.
Proof.
  intros C h'. subst h'. unfold fetchClips_call. rewrite C. simpl. repeat split.
Qed.

Example fetch_disconnected_keeps_playing_clip :
  let h := fetchClips_resolve (Some [Sample.clip 11 false; Sample.clip 12 true]) initial in
  let h' := fetchClips_call Sample.layer1_offline h in
  clips h' = [] /\ activeClipId h' = Some 12 /\ activeClipIndex h' = Some 2
  /\ selectedClipIndex h' = Some 2.
Proof.
  intros h h'.
  destruct (fetch_disconnected Sample.layer1_offline h eq_refl)
    as (E1 & E2 & E3 & E4 & _).
  fold h' in E1, E2, E3, E4. rewrite E1, E2, E3, E4. repeat split.
Defined.

Lemma offline_step (e : Event) (h : Hook) :
  offline e = true ->
  activeClipId (step e h) = activeClipId h
  /\ activeClipIndex (step e h) = activeClipIndex h
  /\ selectedClipIndex (step e h) = selectedClipIndex h.
Proof.
  intros O. destruct e as [o| | | |o clipIndex| | |o| | |[o]| | | ];
    try discriminate O; cbn in O; apply negb_true_iff in O; cbn.
  - unfold fetchClips_call. rewrite O. repeat split.
  - unfold triggerClip_call. rewrite O. repeat split.
  - unfold clearLayer_call. rewrite O. repeat split.
  - destruct (isMountedRef h); [|repeat split].
    unfold fetchClips_call. rewrite O. repeat split.
Qed.

(** C10, as the code has it.  A call of [fetchClips] while disconnected
    only empties the clip list: the active clip id, the active clip index
    and the selected clip index, like every other cell, are left as that
    call found them, and nothing is asked of the API client.  A trigger or a
    clear attempted while disconnected throws and changes nothing, so the
    three cells keep their values through any number of disconnected
    fetches (direct or by a timer), triggers and clears. *)
Theorem fetch_disconnected_retains (o : Options) (events : list Event) (h : Hook) :
  isConnected o = false ->
  Forall (fun e => offline e = true) events ->
  (clips (fetchClips_call o h) = []
   /\ activeClipId (fetchClips_call o h) = activeClipId h
   /\ activeClipIndex (fetchClips_call o h) = activeClipIndex h
   /\ selectedClipIndex (fetchClips_call o h) = selectedClipIndex h
   /\ isLoading (fetchClips_call o h) = isLoading h
   /\ error (fetchClips_call o h) = error h
   /\ apiCalls (fetchClips_call o h) = apiCalls h
   /\ timeouts (fetchClips_call o h) = timeouts h)
  /\ (forall clipIndex, triggerClip_call o clipIndex h = (h, Some not_connected))
  /\ clearLayer_call o h = (h, Some not_connected)
  /\ (activeClipId (run_events events h) = activeClipId h
      /\ activeClipIndex (run_events events h) = activeClipIndex h
      /\ selectedClipIndex (run_events events h) = selectedClipIndex h).
Proof.
  intros C F. split; [exact (fetch_disconnected o h C)|].
  split; [intros clipIndex; unfold triggerClip_call; now rewrite C|].
  split; [unfold clearLayer_call; now rewrite C|].
  revert h. induction F as [|e events O _ IH]; intros h; [repeat split|].
  unfold run_events in *. cbn [fold_left].
  destruct (IH (step e h)) as (A & B & D).
  destruct (offline_step e h O) as (A' & B' & D').
  rewrite A, B, D. auto.
Qed.

(** Witness of C10: clip 2 of a fetched list is playing when the connection
    drops; two refresh ticks and a failed trigger later it is still shown
    as active. *)
Lemma fetch_disconnected_retains_witness :
  let h := fetchClips_resolve (Some [Sample.clip 11 false; Sample.clip 12 true]) initial in
  activeClipId
    (run_events [FetchCall Sample.layer1_offline; TriggerCall Sample.layer1_offline 1;
                 FetchCall Sample.layer1_offline] h)
  = activeClipId h.
Proof.
  intros h.
  apply (fetch_disconnected_retains Sample.layer1_offline
           [FetchCall Sample.layer1_offline; TriggerCall Sample.layer1_offline 1;
            FetchCall Sample.layer1_offline] h eq_refl).
  repeat constructor.
Defined.

(** C10 as stated fails: the cells are not frozen until a trigger, a clear
    or a reconnected fetch.  Clip 2 is playing and selected when the
    connection drops and the disconnected fetch empties the list.  Still
    disconnected, a layer change empties the selection, a selection of slot
    5 sets it, and the answer to a fetch that was issued before the
    connection dropped, arriving now, replaces the active clip and the
    selection. *)
Lemma fetch_disconnected_counterexample :
  let h := fetchClips_resolve (Some [Sample.clip 11 false; Sample.clip 12 true]) initial in
  let dropped := fetchClips_call Sample.layer1_offline h in
  let late := fetchClips_resolve (Some [Sample.clip 11 true]) dropped in
  clips dropped = []
  /\ activeClipIndex dropped = Some 2 /\ selectedClipIndex dropped = Some 2
  /\ selectedClipIndex (layerChanged dropped) = None
  /\ selectedClipIndex (selectClip (Some 5) dropped) = Some 5
  /\ activeClipId late = Some 11
  /\ activeClipIndex late = Some 1
  /\ selectedClipIndex late = Some 1.
Proof. vm_compute. repeat split; reflexivity. Qed.


Lemma step_paired (e : Event) (h : Hook) :
  paired h -> paired (step e h).
Proof.
  unfold paired. intros P.
  destruct e as [o|response|o err|clipIndex|o clipIndex|o|o err|o|o|o err|cb| |o| ];
    simpl.
  - unfold fetchClips_call. destruct (isConnected o); exact P.
  - unfold fetchClips_resolve. destruct (isMountedRef h); [|exact P]. simpl.
    destruct (find _ _); simpl; split; intros H; (discriminate H || reflexivity).
  - unfold fetchClips_reject. destruct (isMountedRef h); [|exact P]. simpl.
    destruct (bool_decide _); exact P.
  - exact P.
  - unfold triggerClip_call. destruct (isConnected o); [|exact P]. simpl.
    destruct (at_index _ _); simpl; [split; intros H; discriminate H | exact P].
  - exact P.
  - unfold fetchClips_call. destruct (isConnected o); exact P.
  - unfold clearLayer_call. destruct (isConnected o); [|exact P]. simpl.
    split; reflexivity.
  - exact P.
  - unfold fetchClips_call. destruct (isConnected o); exact P.
  - destruct cb as [o]. simpl. destruct (isMountedRef h); [|exact P].
    unfold fetchClips_call. destruct (isConnected o); exact P.
  - exact P.
  - unfold mount, fetchClips_call. destruct (isConnected o); exact P.
  - exact P.
Qed.

(** Hence the pairing holds of every instance a run can reach. *)
Lemma reachable_paired (h : Hook) : reachable h -> paired h.
Proof.
  induction 1 as [|e h _ IH].
  - split; reflexivity.
  - apply step_paired, IH.
Qed.

(** C9. The active clip id and the active clip index are paired (both
    absent or both present) at the first render, and every event keeps them
    paired: fetching (call, resolution, rejection), triggering, clearing,
    selecting, timers, layer changes, mounting and unmounting. *)
Theorem paired_preserved (e : Event) (h : Hook) :
  paired initial /\ (paired h -> paired (step e h)).
Proof.
  split.
  - split; reflexivity.
  - apply step_paired.
Qed.

(** Witness of C9: a trigger on a cached clip. *)
Lemma paired_preserved_witness :
  paired (step (TriggerCall Sample.layer1 1)
            (fetchClips_resolve (Some [Sample.clip 11 false]) initial)).
Proof.
  apply (proj2 (paired_preserved _ _)). split; reflexivity.
Defined.

End ClipsFacts.

Section TriggerFacts.

Import Clips.

(** C1, as the code has it.  A trigger while connected hands the connect
    request to the API client without throwing; before that request settles,
    when a clip is cached at the target index the active clip id is that
    clip's id and the active index and the selection are the target, and
    when none is cached the three are left as they were.  When the request
    resolves, one refetch guarded by the liveness flag is scheduled 500ms
    later.  When it rejects, the clips are refetched at once, the error is
    rethrown and no timer is scheduled.  A trigger while disconnected throws
    and changes nothing. *)
Theorem trigger_clip (o : Options) (clipIndex : Z) (h : Hook) :
  (isConnected o = true ->
     let h1 := fst (triggerClip_call o clipIndex h) in
     snd (triggerClip_call o clipIndex h) = None
     /\ apiCalls h1 = (apiCalls h ++ [TriggerClip (layerIndex o) clipIndex])%list
     /\ (forall targetClip,
           at_index (clips h) (clipIndex - 1) = Some targetClip ->
           activeClipId h1 = Some (ClipViewModel.id targetClip)
           /\ activeClipIndex h1 = Some clipIndex
           /\ selectedClipIndex h1 = Some clipIndex)
     /\ (at_index (clips h) (clipIndex - 1) = None ->
           activeClipId h1 = activeClipId h
           /\ activeClipIndex h1 = activeClipIndex h
           /\ selectedClipIndex h1 = selectedClipIndex h)
     /\ (forall h2,
           timeouts (triggerClip_resolve o h2)
           = (timeouts h2 ++ [(500, RefetchIfMounted o)])%list
           /\ apiCalls (triggerClip_resolve o h2) = apiCalls h2)
     /\ (forall err h2,
           snd (triggerClip_reject o err h2) = err
           /\ apiCalls (fst (triggerClip_reject o err h2))
              = (apiCalls h2 ++ [GetClipsForLayer (layerIndex o)])%list
           /\ timeouts (fst (triggerClip_reject o err h2)) = timeouts h2))
  /\ (isConnected o = false ->
        triggerClip_call o clipIndex h = (h, Some not_connected)).
Proof.
  split; intros C.
  - unfold triggerClip_call. rewrite C. simpl. repeat split.
    + destruct (at_index _ _); reflexivity.
    + rewrite H. reflexivity.
    + rewrite H. reflexivity.
    + rewrite H. reflexivity.
    + rewrite H. reflexivity.
    + rewrite H. reflexivity.
    + rewrite H. reflexivity.
    + unfold triggerClip_reject, fetchClips_call. rewrite C. reflexivity.
    + unfold triggerClip_reject, fetchClips_call. rewrite C. reflexivity.
  - unfold triggerClip_call. rewrite C. reflexivity.
Qed.

(** The guarded refetch does nothing once the hook is unmounted. *)
Lemma run_unmounted (cb : Callback) (h : Hook) :
  isMountedRef h = false -> run cb h = h.
Proof. intros M. destruct cb. simpl. rewrite M. reflexivity. Qed.

End TriggerFacts.

(** Witness of C1: triggering the cached clip 1 of layer 1. *)
Lemma trigger_clip_witness :
  Clips.apiCalls
    (fst (Clips.triggerClip_call Sample.layer1 1
            (Clips.fetchClips_resolve (Some [Sample.clip 11 false]) Clips.initial)))
  = [Clips.TriggerClip 1 1].
Proof.
  exact (proj1 (proj2 (proj1 (trigger_clip Sample.layer1 1
           (Clips.fetchClips_resolve (Some [Sample.clip 11 false]) Clips.initial))
           eq_refl))).
Defined.

(** C1 as stated fails twice.  Triggering index 5 when only one clip is
    cached sets neither the active index nor the selection; and when the
    connect request for the cached clip 1 rejects, the clips are refetched
    at once but no delayed refetch is scheduled. *)
Lemma trigger_clip_counterexample :
  let h := Clips.fetchClips_resolve (Some [Sample.clip 11 false]) Clips.initial in
  let h5 := fst (Clips.triggerClip_call Sample.layer1 5 h) in
  let h1 := fst (Clips.triggerClip_call Sample.layer1 1 h) in
  let failed := fst (Clips.triggerClip_reject Sample.layer1 NonError h1) in
  Clips.activeClipIndex h5 = None
  /\ Clips.selectedClipIndex h5 = None
  /\ Clips.apiCalls h5 = [Clips.TriggerClip 1 5]
  /\ Clips.activeClipIndex h1 = Some 1
  /\ Clips.apiCalls failed = [Clips.TriggerClip 1 1; Clips.GetClipsForLayer 1]
  /\ Clips.timeouts failed = [].
Proof. vm_compute. repeat split; reflexivity. Qed.

Example optimistic_then_reconciled :
  let h := Clips.fetchClips_resolve
             (Some [Sample.clip 11 true; Sample.clip 12 false]) Clips.initial in
  let h1 := fst (Clips.triggerClip_call Sample.layer1 2 h) in
  let h2 := Clips.fetchClips_resolve
              (Some [Sample.clip 11 true; Sample.clip 12 false]) h1 in
  Clips.activeClipIndex h = Some 1
  /\ Clips.activeClipIndex h1 = Some 2
  /\ Clips.activeClipIndex h2 = Some 1
  /\ Clips.selectedClipIndex h2 = Some 1.
Proof. vm_compute. repeat split; reflexivity. Qed.

(** ** The parameter controller *)

Section ControlsFacts.

Import Controls.

(** C8. The scrub setter returns the instance exactly as it got it (no
    state cell, ref, timer or request changes) whenever the connection is
    down, or the active clip id is absent, or the active clip index is
    absent. *)
Theorem scrub_gated (o : Options) (now : Z) (value : number) (h : Hook) :
  isConnected o = false \/ activeClipId o = None \/ activeClipIndex o = None ->
  setScrubPosition o now value h = h.
Proof.
  intros [C | [I | I]]; unfold setScrubPosition; rewrite ?C, ?I; simpl;
    rewrite ?orb_true_r; reflexivity.
Qed.

(** The gate is also closed for an id or index of 0, which is falsy. *)
Lemma scrub_gate_closed (o : Options) (now : Z) (value : number) (h : Hook) :
  gate o = false -> setScrubPosition o now value h = h.
Proof.
  unfold gate, setScrubPosition. intros G.
  destruct (isConnected o), (truthy (activeClipId o)), (truthy (activeClipIndex o));
    simpl in *; try discriminate G; reflexivity.
Qed.

(** *** What running commits changes *)

Lemma commit_call_frame (cb : Commit) (h : Hook) :
  apiCalls (commit_call cb h) = (apiCalls h ++ [write_of cb])%list
  /\ timers (commit_call cb h) = timers h
  /\ (forall k, timeoutRef k (commit_call cb h) = timeoutRef k h)
  /\ (forall k, display k (commit_call cb h) = display k h).
Proof.
  destruct cb; simpl; repeat split; intros []; reflexivity.
Qed.

Lemma run_all_frame (l : list Timer) (h : Hook) :
  apiCalls (run_all l h) = (apiCalls h ++ map (fun t => write_of (callback t)) l)%list
  /\ timers (run_all l h) = timers h
  /\ (forall k, timeoutRef k (run_all l h) = timeoutRef k h)
  /\ (forall k, display k (run_all l h) = display k h).
Proof.
  revert h. induction l as [|t l IH]; intros h; simpl.
  - rewrite app_nil_r. repeat split.
  - destruct (IH (commit_call (callback t) h)) as (A & T & R & D).
    destruct (commit_call_frame (callback t) h) as (A' & T' & R' & D').
    unfold run_all in *. rewrite A, T, A', T'. rewrite <- app_assoc.
    repeat split; intros k; [rewrite R; apply R' | rewrite D; apply D'].
Qed.

(** The writes among the requests of a list of commits are the writes of
    the commits of that control. *)
Lemma writes_of_commits (k : Control) (l : list Timer) :
  filter (fun c => written c = Some k) (map (fun t => write_of (callback t)) l)
  = map (fun t => write_of (callback t))
        (filter (fun t => control_of (callback t) = k) l).
Proof.
  induction l as [|t l IH]; [reflexivity|]. simpl.
  assert (W : written (write_of (callback t)) = Some (control_of (callback t)))
    by (destruct (callback t); reflexivity).
  rewrite !filter_cons.
  destruct (decide (control_of (callback t) = k)) as [E|N].
  - rewrite decide_True by (rewrite W; now f_equal). simpl. now rewrite IH.
  - rewrite decide_False by (rewrite W; intros X; injection X as X; contradiction).
    exact IH.
Qed.

Lemma filter_comm {A : Type} (P Q : A -> Prop) `{!forall x, Decision (P x)}
    `{!forall x, Decision (Q x)} (l : list A) :
  filter P (filter Q l) = filter Q (filter P l).
Proof.
  induction l as [|x l IH]; [reflexivity|].
  rewrite !filter_cons.
  destruct (decide (Q x)), (decide (P x)); rewrite ?filter_cons;
    rewrite ?decide_True by assumption; rewrite ?decide_False by assumption;
    now rewrite IH.
Qed.

(** Time passing runs the commits that are due, once each, and keeps the
    others pending. *)
Lemma advance_spec (k : Control) (now : Z) (h : Hook) :
  pending k (advance now h) = filter (fun t => now < due t) (pending k h)
  /\ writes k (advance now h)
     = (writes k h ++ map (fun t => write_of (callback t))
                        (filter (fun t => due t <= now) (pending k h)))%list
  /\ timeoutRef k (advance now h) = timeoutRef k h
  /\ display k (advance now h) = display k h.
Proof.
  unfold advance.
  set (ready := filter (fun t => due t <= now) (timers h)).
  set (h0 := set_timers _ h).
  destruct (run_all_frame ready h0) as (A & T & R & D).
  unfold pending, writes. rewrite A, T, R, D.
  split; [|split; [|split]].
  - unfold h0. simpl. apply filter_comm.
  - rewrite filter_app. f_equal. rewrite writes_of_commits. f_equal.
    unfold ready. apply filter_comm.
  - unfold h0. destruct k; reflexivity.
  - unfold h0. destruct k; reflexivity.
Qed.

(** *** What a setter changes *)

Lemma filter_snoc {A : Type} (P : A -> Prop) `{!forall x, Decision (P x)}
    (l : list A) (x : A) :
  P x -> filter P (l ++ [x])%list = (filter P l ++ [x])%list.
Proof.
  intros Px. rewrite filter_app. f_equal.
  rewrite filter_cons, decide_True by exact Px. reflexivity.
Qed.

(** A setter whose gate is open shows the value at once, drops the pending
    commit its ref points to, and schedules one for the new value; it hands
    nothing to the API client. *)
Lemma call_setter_spec (k : Control) (o : Options) (now : Z) (value : number) (h : Hook) :
  (k = Scrub -> gate o = true) ->
  let h' := call_setter k o now value h in
  display k h' = value
  /\ pending k h'
     = (match timeoutRef k h with
        | Some id => filter (fun t => handle t <> id) (pending k h)
        | None => pending k h
        end ++ [mkTimer (nextHandle h) (now + DEBOUNCE_DELAY) (commit_of k o value)])%list
  /\ timeoutRef k h' = Some (nextHandle h)
  /\ apiCalls h' = apiCalls h.
Proof.
  intros G h'. subst h'.
  destruct k.
  - unfold call_setter, setBpm, pending, timeoutRef, display.
    destruct (bpmTimeoutRef h) as [id|] eqn:R; simpl; rewrite R; simpl;
      (split; [|split; [|split]]); try reflexivity.
    + now rewrite filter_snoc, filter_comm.
    + now rewrite filter_snoc.
  - unfold call_setter, setOpacity, pending, timeoutRef, display.
    destruct (opacityTimeoutRef h) as [id|] eqn:R; simpl; rewrite R; simpl;
      (split; [|split; [|split]]); try reflexivity.
    + now rewrite filter_snoc, filter_comm.
    + now rewrite filter_snoc.
  - specialize (G eq_refl). unfold gate in G.
    apply andb_true_iff in G as [G G3]. apply andb_true_iff in G as [G1 G2].
    unfold call_setter, setScrubPosition, pending, timeoutRef, display.
    rewrite G1, G2, G3.
    destruct (scrubTimeoutRef h) as [id|] eqn:R; simpl; rewrite R; simpl;
      (split; [|split; [|split]]); try reflexivity.
    + now rewrite filter_snoc, filter_comm.
    + now rewrite filter_snoc.
Qed.

(** *** The debounce *)

Lemma call_setter_arms (k : Control) (o : Options) (now : Z) (value : number) (h : Hook) :
  (k = Scrub -> gate o = true) ->
  pending k h = [] \/ (exists t0 v0, armed k o t0 v0 h) ->
  armed k o now value (call_setter k o now value h)
  /\ writes k (call_setter k o now value h) = writes k h
  /\ display k (call_setter k o now value h) = value.
Proof.
  intros G H.
  destruct (call_setter_spec k o now value h G) as (D & P & R & A).
  split; [|split].
  - exists (nextHandle h). split; [|exact R]. rewrite P.
    destruct H as [E | (t0 & v0 & id & E & Ref)].
    + rewrite E. destruct (timeoutRef k h); reflexivity.
    + rewrite E, Ref. rewrite filter_cons, decide_False by (simpl; intros X; now apply X).
      reflexivity.
  - unfold writes. now rewrite A.
  - exact D.
Qed.

Lemma advance_idle (k : Control) (now : Z) (h : Hook) :
  pending k h = [] ->
  pending k (advance now h) = [] /\ writes k (advance now h) = writes k h.
Proof.
  intros E. destruct (advance_spec k now h) as (P & W & _ & _).
  rewrite P, W, E. split; [reflexivity|]. simpl. apply app_nil_r.
Qed.

(** Before it is due, the pending commit stays pending and nothing is
    written. *)
Lemma advance_armed_early (k : Control) (o : Options) (t : Z) (value : number)
    (now : Z) (h : Hook) :
  armed k o t value h -> now < t + DEBOUNCE_DELAY ->
  armed k o t value (advance now h)
  /\ writes k (advance now h) = writes k h
  /\ display k (advance now h) = display k h.
Proof.
  intros (id & E & Ref) Hnow.
  destruct (advance_spec k now h) as (P & W & R & D).
  split; [|split].
  - exists id. rewrite P, R, E. split; [|exact Ref].
    rewrite filter_cons, decide_True by (simpl; lia). reflexivity.
  - rewrite W, E. rewrite filter_cons, decide_False by (simpl; lia).
    simpl. apply app_nil_r.
  - exact D.
Qed.

(** Once it is due, the pending commit runs: one write, nothing left
    pending. *)
Lemma advance_armed_due (k : Control) (o : Options) (t : Z) (value : number)
    (now : Z) (h : Hook) :
  armed k o t value h -> t + DEBOUNCE_DELAY <= now ->
  pending k (advance now h) = []
  /\ writes k (advance now h) = (writes k h ++ [write_of (commit_of k o value)])%list.
Proof.
  intros (id & E & Ref) Hnow.
  destruct (advance_spec k now h) as (P & W & _ & _).
  split.
  - rewrite P, E. rewrite filter_cons, decide_False by (simpl; lia). reflexivity.
  - rewrite W, E. rewrite filter_cons, decide_True by (simpl; lia). reflexivity.
Qed.

(** A rapid burst that starts with a commit pending ends with exactly one
    commit pending, the one for the last value, and writes nothing. *)
Lemma burst_armed (k : Control) (o : Options) (calls : list (Z * number)) :
  (k = Scrub -> gate o = true) ->
  forall (t0 : Z) (v0 : number) (h : Hook) (t : Z) (value : number),
    armed k o t0 v0 h -> display k h = v0 ->
    rapid ((t0, v0) :: calls) ->
    last ((t0, v0) :: calls) = Some (t, value) ->
    armed k o t value (burst k o calls h)
    /\ writes k (burst k o calls h) = writes k h
    /\ display k (burst k o calls h) = value.
Proof.
  intros G. induction calls as [|[t1 v1] calls IH]; intros t0 v0 h t value A D Rap L.
  - simpl in L. injection L as <- <-. simpl. repeat split; assumption.
  - rewrite last_cons_cons in L. destruct Rap as [[Hle Hlt] Rap]. simpl.
    destruct (advance_armed_early k o t0 v0 t1 h A Hlt) as (A1 & W1 & _).
    destruct (call_setter_arms k o t1 v1 (advance t1 h) G) as (A2 & W2 & D2).
    { right. eauto. }
    destruct (IH t1 v1 _ t value A2 D2 Rap L) as (A3 & W3 & D3).
    split; [exact A3|]. split; [|exact D3].
    now rewrite W3, W2, W1.
Qed.

End ControlsFacts.

Section DebounceFacts.

Import Controls.

Context {Payload : Type}.
Variable numberToString : number -> string.

(** A write handed to the API client reaches the network exactly when it
    passes the client's precondition, and then as one [fetch]. *)
Lemma perform_write_fetches (now : Z) (call : ApiCall)
    (c : @ResolumeApiClient.Client Payload) :
  written call <> None ->
  length (ResolumeApiClient.fetched (fst (Wiring.perform numberToString now call c)))
  = (length (ResolumeApiClient.fetched c) + (if Wiring.passes call then 1 else 0))%nat.
Proof.
  intros W.
  destruct call as [| layer | v | layer v | layer clip v]; simpl in W;
    try contradiction; unfold Wiring.passes; cbn [Wiring.carried Wiring.perform].
  - unfold ResolumeApiClient.setBpm.
    destruct (num_lt v (of_Z 20)), (num_gt v (of_Z 999)); cbn [orb negb andb fst];
      rewrite ?request_call_not_GET by reflexivity; cbn [fst ResolumeApiClient.fetched];
      rewrite ?length_app; simpl; lia.
  - unfold ResolumeApiClient.setLayerOpacity.
    destruct (num_lt v (of_Z 0)), (num_gt v (of_Z 1)); cbn [orb negb andb fst];
      rewrite ?request_call_not_GET by reflexivity; cbn [fst ResolumeApiClient.fetched];
      rewrite ?length_app; simpl; lia.
  - unfold ResolumeApiClient.setClipPosition.
    destruct (num_lt v (of_Z 0)), (num_gt v (of_Z 1)); cbn [orb negb andb fst];
      rewrite ?request_call_not_GET by reflexivity; cbn [fst ResolumeApiClient.fetched];
      rewrite ?length_app; simpl; lia.
Qed.

(** C3, as the code has it.  Take one setter, for scrub with its gate open,
    and a burst of calls to it, each less than 150ms after the one before,
    begun when no commit of that control is pending.  Every call shows its
    value at once; after the burst exactly one commit of the control is
    pending, the one for the last value (every earlier one was cancelled by
    the call that followed it), and nothing has been written; 150ms after
    the last call exactly one write has been handed to the API client,
    carrying the last value (for opacity, divided by 100), and nothing is
    pending.  That write makes one network request when its value passes the
    client's range check, and none otherwise. *)
Theorem debounce_coalescing (k : Control) (o : Options) (calls : list (Z * number))
    (t : Z) (value : number) (h : Hook) (T : Z) :
  (k = Scrub -> gate o = true) ->
  pending k h = [] ->
  rapid (calls ++ [(t, value)]) ->
  t + DEBOUNCE_DELAY <= T ->
  let h' := burst k o (calls ++ [(t, value)]) h in
  let write := write_of (commit_of k o value) in
  (forall now v h0, display k (call_setter k o now v h0) = v)
  /\ display k h' = value
  /\ armed k o t value h'
  /\ writes k h' = writes k h
  /\ pending k (advance T h') = []
  /\ writes k (advance T h') = (writes k h ++ [write])%list
  /\ (forall now (c : @ResolumeApiClient.Client Payload),
        length (ResolumeApiClient.fetched (fst (Wiring.perform numberToString now write c)))
        = (length (ResolumeApiClient.fetched c) + (if Wiring.passes write then 1 else 0))%nat).
Proof.
  intros G Idle Rap HT h' write.
  assert (B : armed k o t value h' /\ writes k h' = writes k h /\ display k h' = value).
  { subst h'. destruct calls as [|[t0 v0] rest].
    - simpl. destruct (advance_idle k t h Idle) as (P0 & W0).
      destruct (call_setter_arms k o t value (advance t h) G (or_introl P0))
        as (A & W & D).
      rewrite W, W0. auto.
    - change (((t0, v0) :: rest) ++ [(t, value)])%list
        with ((t0, v0) :: (rest ++ [(t, value)]))%list in *.
      cbn [burst].
      destruct (advance_idle k t0 h Idle) as (P0 & W0).
      destruct (call_setter_arms k o t0 v0 (advance t0 h) G (or_introl P0))
        as (A & W & D).
      destruct (burst_armed k o (rest ++ [(t, value)]) G t0 v0 _ t value A D Rap)
        as (A' & W' & D').
      { rewrite app_comm_cons. apply last_snoc. }
      rewrite W', W, W0. auto. }
  destruct B as (A & W & D).
  destruct (advance_armed_due k o t value T h' A HT) as (P' & W').
  split; [|split; [|split; [|split; [|split; [|split]]]]].
  - intros now v h0. exact (proj1 (call_setter_spec k o now v h0 G)).
  - exact D.
  - exact A.
  - exact W.
  - exact P'.
  - rewrite W', W. reflexivity.
  - intros now c. apply perform_write_fetches.
    subst write. destruct k; discriminate.
Qed.

End DebounceFacts.

(** Witness of C3: three BPM calls 50 and 70ms apart, then quiet; one
    write, of the last value. *)
Lemma debounce_coalescing_witness :
  Controls.writes Controls.Bpm
    (Controls.advance 270
       (Controls.burst Controls.Bpm Sample.playing
          [(0, of_Z 100); (50, of_Z 110); (120, of_Z 128)] Controls.initial))
  = [Controls.SetBpm (of_Z 128)].
Proof.
  refine (proj1 (proj2 (proj2 (proj2 (proj2 (proj2
    (debounce_coalescing (Payload := string) Sample.show Controls.Bpm Sample.playing
       [(0, of_Z 100); (50, of_Z 110)] 120 (of_Z 128) Controls.initial 270
       _ _ _ _))))))).
  - discriminate.
  - reflexivity.
  - simpl. unfold Controls.DEBOUNCE_DELAY. lia.
  - unfold Controls.DEBOUNCE_DELAY. lia.
Defined.

(** C3 as stated fails.  With the connection up but no active clip, a call
    to the scrub setter shows nothing, schedules nothing and writes
    nothing.  And a BPM of 1000 is shown and handed to the API client, which
    rejects it without a network request. *)
Lemma debounce_coalescing_counterexample :
  let scrubbed :=
    Controls.advance 150
      (Controls.burst Controls.Scrub Sample.idle [(0, Fin (1 # 2))] Controls.initial) in
  let tempo :=
    Controls.advance 150
      (Controls.burst Controls.Bpm Sample.idle [(0, of_Z 1000)] Controls.initial) in
  Controls.scrubPosition scrubbed = of_Z 0
  /\ Controls.apiCalls scrubbed = []
  /\ Controls.burst Controls.Scrub Sample.idle [(0, Fin (1 # 2))] Controls.initial
     = Controls.initial
  /\ Controls.bpm tempo = of_Z 1000
  /\ Controls.apiCalls tempo = [Controls.SetBpm (of_Z 1000)]
  /\ ResolumeApiClient.fetched
       (fst (Wiring.perform Sample.show 150 (Controls.SetBpm (of_Z 1000)) Sample.client))
     = [].
Proof. vm_compute. repeat split; reflexivity. Qed.

Example opacity_57_written_as_fraction :
  Controls.writes Controls.Opacity
    (Controls.advance 150
       (Controls.burst Controls.Opacity Sample.playing [(0, of_Z 57)] Controls.initial))
  = [Controls.SetLayerOpacity 1 (Fin (57 / 100))].
Proof. reflexivity. Qed.

(** Witness of C8: connected, nothing playing. *)
Lemma scrub_gated_witness :
  Controls.setScrubPosition Sample.idle 0 (Fin (1 # 2)) Controls.initial = Controls.initial.
Proof.
  apply scrub_gated. right. left. reflexivity.
Defined.

(** ** Teardown *)

Section TeardownFacts.

(** The continuations that check the liveness flag change nothing once it
    is false. *)
Lemma guarded_continuations_after_teardown :
  (forall s h, Connection.isMountedRef h = false -> Connection.checkConnection_settle s h = h)
  /\ (forall response h, Clips.isMountedRef h = false ->
        Clips.fetchClips_resolve response h = h)
  /\ (forall o err h, Clips.isMountedRef h = false -> Clips.fetchClips_reject o err h = h)
  /\ (forall cb h, Clips.isMountedRef h = false -> Clips.run cb h = h)
  /\ (forall cb h, Controls.isMountedRef h = false -> Controls.commit_resolve cb h = h)
  /\ (forall value h, Controls.isMountedRef h = false ->
        Controls.fetchInitialValues_opacity value h = h).
Proof.
  split; [exact checkConnection_settle_unmounted|].
  split; [intros response h M; unfold Clips.fetchClips_resolve; now rewrite M|].
  split; [intros o err h M; unfold Clips.fetchClips_reject; now rewrite M|].
  split; [exact run_unmounted|].
  split; [intros cb h M; unfold Controls.commit_resolve, Controls.commit_finally;
          now rewrite M|].
  intros [v|] h M; unfold Controls.fetchInitialValues_opacity; now rewrite M.
Qed.

(** The [catch] clause of a commit calls [setError] whether or not the
    liveness flag is still true; it is React that drops the update once the
    component is unmounted. *)
Lemma commit_reject_sets_error (cb : Controls.Commit) (err : Thrown) (h : Controls.Hook) :
  Controls.error (Controls.commit_reject cb err h)
  = Some (message_or (Controls.fallback_message cb) err).
Proof.
  unfold Controls.commit_reject, Controls.commit_finally. simpl.
  destruct (Controls.isMountedRef h), cb; reflexivity.
Qed.

End TeardownFacts.

(** *** A hook inside a component *)

Section ComponentFacts.

Context {Hook Event Arg Obs : Type}.
Variable keep_state : Hook -> Hook -> Hook.
Variable step : Event -> Hook -> Hook.
Variable effect : Arg -> Event.
Variable cleanup : Event.
Variable is_cleanup : Event -> bool.
(** The liveness flag and the state cells of the hook. *)
Variable flag : Hook -> bool.
Variable observable : Hook -> Obs.

Hypothesis effect_sets_flag : forall a h, flag (step (effect a) h) = true.
Hypothesis step_keeps_flag :
  forall e h, is_cleanup e = false -> flag h = true -> flag (step e h) = true.
Hypothesis keep_state_observable :
  forall old new, observable (keep_state old new) = observable old.
Hypothesis cleanup_observable :
  forall e h, is_cleanup e = true -> observable (step e h) = observable h.

#[local] Abbreviation happen := (React.happen keep_state step effect cleanup is_cleanup).
#[local] Abbreviation life := (React.life keep_state step effect cleanup is_cleanup).
#[local] Abbreviation flag_tells := (React.flag_tells flag).

Lemma happen_flag_tells (x : React.Happening) (c : React.Component) :
  flag_tells c -> flag_tells (happen x c).
Proof.
  unfold React.flag_tells. intros I.
  destruct x as [e|a]; cbn [React.happen].
  - destruct (is_cleanup e) eqn:C; [reflexivity|].
    unfold React.run_in. cbn [React.hook React.unmounted].
    destruct (React.unmounted c) eqn:U; [reflexivity|].
    intros F. destruct (flag (React.hook c)) eqn:Fc.
    + rewrite (step_keeps_flag e _ C Fc) in F. discriminate F.
    + now apply I.
  - unfold React.run_in. cbn [React.hook React.unmounted].
    destruct (React.unmounted c) eqn:U; [reflexivity|].
    intros F. rewrite effect_sets_flag in F. discriminate F.
Qed.

Lemma life_flag_tells (xs : list React.Happening) (first : Hook) :
  flag first = true -> flag_tells (life xs first).
Proof.
  intros F. unfold React.life.
  assert (I : flag_tells (React.mkComponent first false)).
  { unfold React.flag_tells. cbn. rewrite F. discriminate. }
  revert I. generalize (React.mkComponent first false) as c.
  induction xs as [|x xs IH]; intros c I; [exact I|].
  cbn [fold_left]. apply IH, happen_flag_tells, I.
Qed.

(** In an unmounted component nothing changes a state cell. *)
Lemma happen_unmounted (x : React.Happening) (c : React.Component) :
  React.unmounted c = true ->
  observable (React.hook (happen x c)) = observable (React.hook c).
Proof.
  intros U. destruct x as [e|a]; cbn [React.happen].
  - destruct (is_cleanup e) eqn:C.
    + cbn. now apply cleanup_observable.
    + unfold React.run_in. rewrite U. cbn. apply keep_state_observable.
  - unfold React.run_in. rewrite U. cbn. apply keep_state_observable.
Qed.

Lemma flag_false_quiet (xs : list React.Happening) (x : React.Happening) (first : Hook) :
  flag first = true ->
  flag (React.hook (life xs first)) = false ->
  observable (React.hook (happen x (life xs first)))
  = observable (React.hook (life xs first)).
Proof.
  intros F0 F. apply happen_unmounted. now apply (life_flag_tells xs first F0).
Qed.

End ComponentFacts.

Section FlagFacts.

Lemma connection_step_flag (e : Connection.Event) (h : Connection.Hook) :
  Connection.is_cleanup e = false -> Connection.isMountedRef h = true ->
  Connection.isMountedRef (Connection.step e h) = true.
Proof.
  intros C M. destruct e as [|s| | | |]; try discriminate C; cbn [Connection.step];
    rewrite ?checkConnection_settle_isMountedRef; first [exact M | reflexivity].
Qed.

Lemma clips_step_flag (e : Clips.Event) (h : Clips.Hook) :
  Clips.is_cleanup e = false -> Clips.isMountedRef h = true ->
  Clips.isMountedRef (Clips.step e h) = true.
Proof.
  intros C M.
  destruct e as [o|response|o err|clipIndex|o clipIndex|o|o err|o|o|o err|cb| |o| ];
    try discriminate C; cbn.
  - unfold Clips.fetchClips_call. destruct (Clips.isConnected o); first [exact M | reflexivity].
  - unfold Clips.fetchClips_resolve. rewrite M. cbn. destruct (Clips.find _ _); first [exact M | reflexivity].
  - unfold Clips.fetchClips_reject. rewrite M. cbn. destruct (bool_decide _); first [exact M | reflexivity].
  - first [exact M | reflexivity].
  - unfold Clips.triggerClip_call. destruct (Clips.isConnected o); [|exact M]. cbn.
    destruct (Clips.at_index _ _); first [exact M | reflexivity].
  - first [exact M | reflexivity].
  - unfold Clips.fetchClips_call. destruct (Clips.isConnected o); first [exact M | reflexivity].
  - unfold Clips.clearLayer_call. destruct (Clips.isConnected o); first [exact M | reflexivity].
  - first [exact M | reflexivity].
  - unfold Clips.fetchClips_call. destruct (Clips.isConnected o); first [exact M | reflexivity].
  - destruct cb as [o]. cbn. rewrite M.
    unfold Clips.fetchClips_call. destruct (Clips.isConnected o); first [exact M | reflexivity].
  - first [exact M | reflexivity].
  - unfold Clips.mount, Clips.fetchClips_call. destruct (Clips.isConnected o); reflexivity.
Qed.

Lemma clips_mount_flag (o : Clips.Options) (h : Clips.Hook) :
  Clips.isMountedRef (Clips.step (Clips.Mount o) h) = true.
Proof.
  cbn. unfold Clips.mount, Clips.fetchClips_call.
  destruct (Clips.isConnected o); reflexivity.
Qed.

Lemma run_all_isMountedRef (ready : list Controls.Timer) (h : Controls.Hook) :
  Controls.isMountedRef (Controls.run_all ready h) = Controls.isMountedRef h.
Proof.
  revert h. induction ready as [|t l IH]; intros h; [reflexivity|].
  unfold Controls.run_all in *. cbn [fold_left]. rewrite IH.
  destruct (Controls.callback t); reflexivity.
Qed.

Lemma call_setter_isMountedRef (k : Controls.Control) (o : Controls.Options) (now : Z)
    (value : number) (h : Controls.Hook) :
  Controls.isMountedRef (Controls.call_setter k o now value h) = Controls.isMountedRef h.
Proof.
  destruct k; cbn [Controls.call_setter].
  - unfold Controls.setBpm.
    destruct (Controls.bpmTimeoutRef
                (Controls.setError None (Controls.setBpmState value h))); reflexivity.
  - unfold Controls.setOpacity.
    destruct (Controls.opacityTimeoutRef
                (Controls.setError None (Controls.setOpacityState value h))); reflexivity.
  - unfold Controls.setScrubPosition.
    destruct (negb (Controls.isConnected o) || negb (Controls.truthy (Controls.activeClipId o))
              || negb (Controls.truthy (Controls.activeClipIndex o))); [reflexivity|].
    destruct (Controls.scrubTimeoutRef
                (Controls.setError None (Controls.setScrubPositionState value h)));
      reflexivity.
Qed.

Lemma controls_step_flag (e : Controls.Event) (h : Controls.Hook) :
  Controls.is_cleanup e = false -> Controls.isMountedRef h = true ->
  Controls.isMountedRef (Controls.step e h) = true.
Proof.
  intros C M. destruct e as [k o now v|now|cb|cb err|o|o v|v| |];
    try discriminate C; cbn [Controls.step].
  - rewrite call_setter_isMountedRef. first [exact M | reflexivity].
  - unfold Controls.advance. rewrite run_all_isMountedRef. first [exact M | reflexivity].
  - unfold Controls.commit_resolve, Controls.commit_finally. rewrite M.
    destruct cb; first [exact M | reflexivity].
  - unfold Controls.commit_reject, Controls.commit_finally. cbn. rewrite M.
    destruct cb; first [exact M | reflexivity].
  - unfold Controls.fetchInitialValues_call. destruct (Controls.isConnected o); first [exact M | reflexivity].
  - unfold Controls.fetchInitialValues_bpm. destruct v; rewrite ?M; first [exact M | reflexivity].
  - unfold Controls.fetchInitialValues_opacity. destruct v; rewrite M; first [exact M | reflexivity].
  - reflexivity.
Qed.

Lemma controls_unmount_observable (h : Controls.Hook) :
  Controls.observable (Controls.unmount h) = Controls.observable h.
Proof.
  unfold Controls.unmount.
  destruct (Controls.bpmTimeoutRef (Controls.set_isMountedRef false h)); cbn;
    destruct (Controls.opacityTimeoutRef h); cbn;
    destruct (Controls.scrubTimeoutRef h); reflexivity.
Qed.

End FlagFacts.



(** What teardown does not stop: a trigger is in flight when the clip
    reconciler is unmounted, and then fails; no state cell changes, but the
    [catch] clause's refetch is still handed to the API client. *)
Example refetch_after_unmount :
  let before :=
    Component.clips
      [React.Happens (Clips.FetchResolve (Some Sample.two_clips));
       React.Happens (Clips.TriggerCall Sample.layer1 2);
       React.Happens Clips.Unmount] in
  let after :=
    Component.clips_happen (React.Happens (Clips.TriggerReject Sample.layer1 NonError))
      before in
  Clips.observable (React.hook after) = Clips.observable (React.hook before)
  /\ Clips.apiCalls (React.hook before) = [Clips.TriggerClip 1 2]
  /\ Clips.apiCalls (React.hook after) = [Clips.TriggerClip 1 2; Clips.GetClipsForLayer 1].
Proof. vm_compute. repeat split; reflexivity. Qed.

(** * Further properties of the code *)

(** ** The API client: invalidation, activation, the other range checks *)

Section ClientCacheFacts.

Import ResolumeApiClient.

Context {Payload : Type}.
Variable emptyObject : Payload.
Variable numberToString : number -> string.

#[local] Abbreviation Client := (@Client Payload).
#[local] Abbreviation Response := (@Response Payload).

Lemma prefix_app (b c : string) : String.prefix b (b ++ c) = true.
Proof.
  induction b as [|ch b IH]; simpl.
  - destruct c; reflexivity.
  - destruct (Ascii.ascii_dec ch ch) as [_|N]; [exact IH | contradiction].
Qed.

Lemma includes_prefix (s sub : string) :
  String.prefix sub s = true -> includes s sub = true.
Proof. destruct s; cbn [includes]; intros ->; reflexivity. Qed.

Lemma includes_self_app (b c : string) : includes (b ++ c) b = true.
Proof. apply includes_prefix, prefix_app. Qed.

Lemma includes_app_l (a s sub : string) :
  includes s sub = true -> includes (a ++ s) sub = true.
Proof.
  intros H. induction a as [|ch a IH]; [exact H|].
  simpl. rewrite IH. apply orb_true_r.
Qed.

(** The cache key of a request contains the request's endpoint. *)
Lemma cacheKey_includes (c : Client) (endpoint : string) (method : option string) :
  includes (cacheKey c endpoint method) endpoint = true.
Proof.
  unfold cacheKey, url_of.
  do 3 apply includes_app_l. apply includes_prefix.
  induction endpoint as [|ch e IH]; simpl; [reflexivity|].
  destruct (Ascii.ascii_dec ch ch) as [_|N]; [exact IH | contradiction].
Qed.

Lemma filtered_lookup (pattern key : string) (c : Client) :
  requestCache (invalidateCache pattern c) !! key
  = if includes key pattern then None else requestCache c !! key.
Proof.
  unfold invalidateCache. cbn [requestCache].
  destruct (includes key pattern) eqn:I.
  - apply map_lookup_filter_None. right. intros x _ F. simpl in F. congruence.
  - destruct (requestCache c !! key) as [x|] eqn:L.
    + apply map_lookup_filter_Some. split; [exact L | exact I].
    + apply map_lookup_filter_None. left. exact L.
Qed.

Lemma request_call_invalidated (pattern : string) (c : Client) (now : Z)
    (endpoint : string) (method : option string) :
  includes (cacheKey c endpoint method) pattern = true ->
  request_call now endpoint method (invalidateCache pattern c)
  = (mkClient (baseUrl c) (requestCache (invalidateCache pattern c))
       (fetched c ++ [(fetch_method method, url_of c endpoint)]), Fetching).
Proof.
  intros I. unfold request_call.
  change (cacheKey (invalidateCache pattern c) endpoint method)
    with (cacheKey c endpoint method).
  rewrite filtered_lookup, I. destruct (is_GET method); reflexivity.
Qed.

Lemma request_call_invalidated_self (pattern : string) (c : Client) (now : Z)
    (method : option string) :
  snd (request_call now pattern method (invalidateCache pattern c)) = Fetching.
Proof. rewrite request_call_invalidated by apply cacheKey_includes. reflexivity. Qed.

(** [invalidateCache pattern]: afterwards a GET whose cache key contains
    [pattern], and in particular a GET of the endpoint [pattern] itself, is
    not answered from the cache whatever its age; entries under keys that do
    not contain [pattern] are kept; nothing is fetched by the invalidation
    itself. *)
Theorem invalidateCache_forces_fetch (pattern : string) (c : Client) :
  (forall now endpoint method,
     includes (cacheKey c endpoint method) pattern = true ->
     request_call now endpoint method (invalidateCache pattern c)
     = (mkClient (baseUrl c) (requestCache (invalidateCache pattern c))
          (fetched c ++ [(fetch_method method, url_of c endpoint)]), Fetching))
  /\ (forall now method,
        snd (request_call now pattern method (invalidateCache pattern c)) = Fetching)
  /\ (forall key, includes key pattern = false ->
        requestCache (invalidateCache pattern c) !! key = requestCache c !! key)
  /\ fetched (invalidateCache pattern c) = fetched c.
Proof.
  split; [|split; [|split]].
  - intros now endpoint method. apply request_call_invalidated.
  - intros now method. apply request_call_invalidated_self.
  - intros key I. rewrite filtered_lookup, I. reflexivity.
  - reflexivity.
Qed.

(** [clearCache]: afterwards every request goes to the network. *)
Lemma clearCache_forces_fetch (now : Z) (endpoint : string) (method : option string)
    (c : Client) :
  snd (request_call now endpoint method (clearCache c)) = Fetching.
Proof.
  unfold request_call, clearCache. cbn [requestCache].
  rewrite lookup_empty. destruct (is_GET method); reflexivity.
Qed.

(** [activateConfiguration]: when the PUT is answered with a success that
    is a 204 or has a decodable body, the call returns and the next read of
    the connection status goes to the network, however fresh the cached
    status was; when it is answered with a non-2xx status, the call throws
    an error carrying that status and the client, cache included, is as it
    was. *)
Theorem activateConfiguration_refreshes_status (now : Z) (configId : string)
    (r : Response) (c : Client) :
  (ok r = true -> status r = 204 \/ json r <> None ->
     let c' :=
       fst (activateConfiguration_resolve emptyObject numberToString now configId r c) in
     snd (activateConfiguration_resolve emptyObject numberToString now configId r c)
     = Returned tt
     /\ (forall later, snd (getConnectionStatus later c') = Fetching)
     /\ fetched c' = fetched c)
  /\ (ok r = false ->
        activateConfiguration_resolve emptyObject numberToString now configId r c
        = (c, Threw (http_error numberToString r))
        /\ statusCode (http_error numberToString r) = Some (status r)).
Proof.
  split.
  - intros Hok Hbody c'. subst c'.
    unfold activateConfiguration_resolve, request_resolve. rewrite Hok. cbn [negb].
    destruct (status r =? 204) eqn:E.
    + cbn [fst snd]. split; [reflexivity|]. split; [|reflexivity].
      intros later. unfold getConnectionStatus.
      apply request_call_invalidated_self.
    + destruct Hbody as [H204 | Hjson]; [apply Z.eqb_neq in E; contradiction|].
      destruct (json r) as [d|]; [|contradiction].
      assert (G : is_GET (Some "PUT") = false) by reflexivity. rewrite G.
      cbn [fst snd]. split; [reflexivity|]. split; [|reflexivity].
      intros later. unfold getConnectionStatus.
      apply request_call_invalidated_self.
  - intros Hok. unfold activateConfiguration_resolve, request_resolve.
    rewrite Hok. split; reflexivity.
Qed.

Lemma unit_interval_in (q : Q) :
  (0 <= q <= 1)%Q ->
  num_lt (Fin q) (of_Z 0) || num_gt (Fin q) (of_Z 1) = false.
Proof.
  intros [Hlo Hhi]. apply orb_false_iff. split.
  - destruct (num_lt (Fin q) (of_Z 0)) eqn:E; [|reflexivity].
    apply num_lt_Fin in E. exfalso. exact (Qlt_not_le _ _ E Hlo).
  - unfold num_gt. destruct (num_lt (of_Z 1) (Fin q)) eqn:E; [|reflexivity].
    apply num_lt_Fin in E. exfalso. exact (Qlt_not_le _ _ E Hhi).
Qed.

(** The three writes of a value in the 0 to 1 wire domain, [setLayerOpacity],
    [setClipOpacity] and [setClipPosition]: a value below 0 or above 1 is
    rejected with the validation error and the client is unchanged, so
    nothing is fetched; every finite value from 0 to 1, bounds included,
    issues exactly one request, a POST, a PUT and a POST respectively. *)
Theorem unit_interval_checks (now : Z) (layerIndex clipIndex : Z) (v : number) (c : Client) :
  (num_lt v (of_Z 0) = true \/ num_gt v (of_Z 1) = true ->
     setLayerOpacity numberToString now layerIndex v c
     = (c, Rejected (validation_error "Opacity must be between 0 and 1"))
     /\ setClipOpacity numberToString now layerIndex clipIndex v c
        = (c, Rejected (validation_error "Opacity must be between 0 and 1"))
     /\ setClipPosition numberToString now layerIndex clipIndex v c
        = (c, Rejected (validation_error "Position must be between 0 and 1")))
  /\ (forall q, v = Fin q -> (0 <= q <= 1)%Q ->
        (exists url,
           setLayerOpacity numberToString now layerIndex v c
           = (mkClient (baseUrl c) (requestCache c) (fetched c ++ [("POST", url)]),
              Requested Fetching))
        /\ (exists url,
              setClipOpacity numberToString now layerIndex clipIndex v c
              = (mkClient (baseUrl c) (requestCache c) (fetched c ++ [("PUT", url)]),
                 Requested Fetching))
        /\ (exists url,
              setClipPosition numberToString now layerIndex clipIndex v c
              = (mkClient (baseUrl c) (requestCache c) (fetched c ++ [("POST", url)]),
                 Requested Fetching))).
Proof.
  split.
  - intros H.
    assert (E : num_lt v (of_Z 0) || num_gt v (of_Z 1) = true)
      by (apply orb_true_iff; exact H).
    unfold setLayerOpacity, setClipOpacity, setClipPosition. rewrite E.
    repeat split.
  - intros q -> Hq. pose proof (unit_interval_in q Hq) as E.
    unfold setLayerOpacity, setClipOpacity, setClipPosition. rewrite E.
    rewrite !request_call_not_GET by reflexivity.
    split; [|split]; eexists; reflexivity.
Qed.

(** Two GET-equivalent requests for different endpoints have different
    cache keys. *)
Lemma cacheKey_inj (c : Client) (e1 e2 : string) (m1 m2 : option string) :
  is_GET m1 = true -> is_GET m2 = true ->
  cacheKey c e1 m1 = cacheKey c e2 m2 -> e1 = e2.
Proof.
  intros G1 G2 K. rewrite (cacheKey_GET c e2 m2 m1 G2 G1) in K.
  unfold cacheKey, url_of in K.
  apply String.app_inj in K. apply String.app_inj in K.
  apply String.app_inj in K. exact K.
Qed.

(** The cache is keyed by endpoint: storing the answer to a GET of one
    endpoint leaves what the cache holds for any other endpoint as it was,
    so a GET of the other endpoint is answered from the cache, or fetched,
    exactly as it would have been before. *)
Theorem cache_keyed_by_endpoint (e1 e2 : string) (m1 m2 : option string) (r : Response)
    (d : Payload) (t0 t : Z) (c : Client) :
  is_GET m1 = true -> is_GET m2 = true -> e1 <> e2 ->
  ok r = true -> status r <> 204 -> json r = Some d ->
  let c1 := fst (request_resolve emptyObject numberToString t0 e1 m1 r c) in
  requestCache c1 !! cacheKey c1 e2 m2 = requestCache c !! cacheKey c e2 m2
  /\ snd (request_call t e2 m2 c1) = snd (request_call t e2 m2 c).
Proof.
  intros G1 G2 Ne Hok H204 Hjson.
  unfold request_resolve. rewrite Hok. cbn [negb].
  apply Z.eqb_neq in H204. rewrite H204, Hjson, G1. cbn [fst].
  set (c1 := mkClient _ _ _).
  assert (L : requestCache c1 !! cacheKey c1 e2 m2 = requestCache c !! cacheKey c e2 m2).
  { unfold c1. cbn [requestCache].
    change (cacheKey (mkClient (baseUrl c)
                        (<[cacheKey c e1 m1:=mkEntry d t0]> (requestCache c)) (fetched c))
              e2 m2) with (cacheKey c e2 m2).
    apply lookup_insert_ne. intros K. apply Ne.
    exact (cacheKey_inj c e1 e2 m1 m2 G1 G2 K). }
  split; [exact L|].
  unfold request_call. rewrite L.
  destruct (is_GET m2); [|reflexivity].
  destruct (requestCache c !! cacheKey c e2 m2) as [cached|]; [|reflexivity].
  destruct (t - timestamp cached <? cacheTTL); reflexivity.
Qed.

End ClientCacheFacts.

(** A client whose cache holds the connection status, stored at time 5. *)
Lemma invalidateCache_forces_fetch_witness :
  let c1 :=
    fst (ResolumeApiClient.request_resolve "{}" Sample.show 5 "/api/resolume/status"
           None Sample.status_ok Sample.client) in
  snd (ResolumeApiClient.request_call 6 "/api/resolume/status" None c1)
  = ResolumeApiClient.CacheHit "{connected:true}"
  /\ snd (ResolumeApiClient.request_call 6 "/api/resolume/status" None
            (ResolumeApiClient.invalidateCache "/resolume/status" c1))
     = ResolumeApiClient.Fetching.
Proof.
  intros c1. split; [reflexivity|].
  rewrite (proj1 (invalidateCache_forces_fetch "/resolume/status" c1)
             6 "/api/resolume/status" None); reflexivity.
Defined.

Lemma activateConfiguration_refreshes_status_witness :
  let c1 :=
    fst (ResolumeApiClient.request_resolve "{}" Sample.show 5 "/api/resolume/status"
           None Sample.status_ok Sample.client) in
  snd (ResolumeApiClient.getConnectionStatus 6
         (fst (ResolumeApiClient.activateConfiguration_resolve "{}" Sample.show 6
                 "studio" Sample.no_content c1)))
  = ResolumeApiClient.Fetching.
Proof.
  intros c1.
  apply (proj1 (activateConfiguration_refreshes_status "{}" Sample.show 6 "studio"
                  Sample.no_content c1) eq_refl (or_introl eq_refl)).
Defined.

Lemma unit_interval_checks_witness :
  ResolumeApiClient.setClipPosition Sample.show 0 1 2 (Fin (3 # 2)) Sample.client
  = (Sample.client,
     ResolumeApiClient.Rejected
       (ResolumeApiClient.validation_error "Position must be between 0 and 1")).
Proof.
  apply (proj1 (unit_interval_checks Sample.show 0 1 2 (Fin (3 # 2)) Sample.client)).
  right. reflexivity.
Defined.

Lemma cache_keyed_by_endpoint_witness :
  let c1 :=
    fst (ResolumeApiClient.request_resolve "{}" Sample.show 5 "/api/resolume/status"
           None Sample.status_ok Sample.client) in
  snd (ResolumeApiClient.request_call 6 "/api/resolume/config" None c1)
  = snd (ResolumeApiClient.request_call 6 "/api/resolume/config" None Sample.client).
Proof.
  intros c1.
  apply (cache_keyed_by_endpoint "{}" Sample.show "/api/resolume/status"
           "/api/resolume/config" None None Sample.status_ok "{connected:true}" 5 6
           Sample.client); try reflexivity; discriminate.
Defined.

(** ** The connection monitor: bounds, ceiling, retry, teardown *)

Section ConnectionRunFacts.

Import Connection.

Lemma grown_bounds (i : Q) :
  (INITIAL_INTERVAL <= i)%Q ->
  (INITIAL_INTERVAL <= grown i <= MAX_INTERVAL)%Q /\ (i <= MAX_INTERVAL -> i <= grown i)%Q.
Proof.
  unfold grown, INITIAL_INTERVAL, MAX_INTERVAL, BACKOFF_MULTIPLIER. intros H.
  split; [split|].
  - apply Q.min_glb; lra.
  - apply Q.le_min_r.
  - intros Hi. apply Q.min_glb; lra.
Qed.

Lemma grown_monotone (i j : Q) : (i <= j)%Q -> (grown i <= grown j)%Q.
Proof.
  intros H. unfold grown. apply Q.min_le_compat_r.
  unfold BACKOFF_MULTIPLIER. lra.
Qed.

Lemma step_pollingIntervalRef (e : Event) (h : Hook) :
  pollingIntervalRef (step e h) = pollingIntervalRef h
  \/ pollingIntervalRef (step e h) = grown (pollingIntervalRef h)
  \/ pollingIntervalRef (step e h) = SUCCESS_INTERVAL
  \/ pollingIntervalRef (step e h) = INITIAL_INTERVAL.
Proof.
  destruct e as [|[status|err]| | | |]; simpl; auto.
  - unfold checkConnection_resolve. destruct (isMountedRef h); simpl; auto.
    destruct (connected status); auto.
  - unfold checkConnection_reject. destruct (isMountedRef h); simpl; auto.
Qed.

(** Whatever happens (checks failing or succeeding in any order, retries,
    remounts), the polling interval stays between the initial interval of
    2000ms and the ceiling of 30000ms. *)
Theorem interval_bounded (events : list Event) :
  (INITIAL_INTERVAL <= pollingIntervalRef (run events initial) <= MAX_INTERVAL)%Q.
Proof.
  unfold run.
  assert (B : (INITIAL_INTERVAL <= pollingIntervalRef initial <= MAX_INTERVAL)%Q)
    by (simpl; unfold INITIAL_INTERVAL, MAX_INTERVAL; lra).
  revert B. generalize initial as h.
  induction events as [|e events IH]; intros h B; [exact B|].
  simpl. apply IH.
  destruct (step_pollingIntervalRef e h) as [E|[E|[E|E]]]; rewrite E.
  - exact B.
  - apply grown_bounds, B.
  - unfold INITIAL_INTERVAL, SUCCESS_INTERVAL, MAX_INTERVAL. lra.
  - unfold INITIAL_INTERVAL, MAX_INTERVAL. lra.
Qed.

(** A run of status checks that all throw. *)
Lemma failures_pollingIntervalRef (errs : list Thrown) (h : Hook) :
  isMountedRef h = true ->
  pollingIntervalRef (run (map (fun e => Settle (Failed e)) errs) h)
  = Nat.iter (length errs) grown (pollingIntervalRef h)
  /\ isMountedRef (run (map (fun e => Settle (Failed e)) errs) h) = true.
Proof.
  revert h. induction errs as [|e errs IH]; intros h M; [split; [reflexivity | exact M]|].
  cbn [map length]. unfold run in *. cbn [fold_left step checkConnection_settle].
  destruct (IH (checkConnection_reject e h)) as [I M'].
  { rewrite <- (checkConnection_settle_isMountedRef (Failed e) h) in M. exact M. }
  rewrite I, reject_pollingIntervalRef by exact M. split; [|exact M'].
  fold (grown (pollingIntervalRef h)).
  clear. induction (length errs) as [|n IHn]; [reflexivity|].
  simpl. now rewrite IHn.
Qed.

Lemma iter_grown_ge (n : nat) (i : Q) :
  (INITIAL_INTERVAL <= i)%Q ->
  (INITIAL_INTERVAL <= Nat.iter n grown i <= MAX_INTERVAL)%Q \/ n = 0%nat.
Proof.
  intros H. destruct n as [|n]; [now right|left].
  induction n as [|n IH].
  - simpl. apply grown_bounds, H.
  - change (Nat.iter (S (S n)) grown i) with (grown (Nat.iter (S n) grown i)).
    apply grown_bounds, IH.
Qed.

Lemma iter_grown_monotone (n : nat) (i j : Q) :
  (i <= j)%Q -> (Nat.iter n grown i <= Nat.iter n grown j)%Q.
Proof.
  intros H. induction n as [|n IH]; [exact H|]. simpl. apply grown_monotone, IH.
Qed.

(** The backoff reaches its ceiling: while mounted, from any interval of at
    least 2000ms, seven or more consecutive throwing checks leave the
    interval at 30000ms, and every further failure keeps it there. *)
Theorem backoff_ceiling (errs : list Thrown) (h : Hook) :
  isMountedRef h = true ->
  (INITIAL_INTERVAL <= pollingIntervalRef h)%Q ->
  (7 <= length errs)%nat ->
  (pollingIntervalRef (run (map (fun e => Settle (Failed e)) errs) h) == MAX_INTERVAL)%Q.
Proof.
  intros M Lo Len.
  rewrite (proj1 (failures_pollingIntervalRef errs h M)).
  replace (length errs) with (7 + (length errs - 7))%nat by lia.
  rewrite Nat.iter_add.
  set (x := Nat.iter (length errs - 7) grown (pollingIntervalRef h)).
  assert (Hx : (INITIAL_INTERVAL <= x)%Q).
  { subst x. destruct (iter_grown_ge (length errs - 7) _ Lo) as [[B _]|E].
    - exact B.
    - rewrite E. exact Lo. }
  apply Qle_antisym.
  - destruct (iter_grown_ge 7 x Hx) as [[_ B]|E]; [exact B | discriminate E].
  - apply Qle_trans with (Nat.iter 7 grown INITIAL_INTERVAL).
    + vm_compute. discriminate.
    + apply iter_grown_monotone, Hx.
Qed.

(** A manual retry: one status request is issued at once, the interval is
    back at 2000ms whatever the backoff had reached, and no timer is
    registered by the retry itself; a failure of that check then leaves
    3000ms. *)
Theorem retry_resets_backoff (err : Thrown) (h : Hook) :
  isMountedRef h = true ->
  pollingIntervalRef (retryConnection h) = INITIAL_INTERVAL
  /\ statusRequests (retryConnection h) = S (statusRequests h)
  /\ delays (retryConnection h) = delays h
  /\ observable (retryConnection h) = observable h
  /\ (pollingIntervalRef (checkConnection_reject err (retryConnection h)) == 3000)%Q.
Proof.
  intros M. repeat split.
  unfold checkConnection_reject, retryConnection, checkConnection_call. simpl.
  rewrite M. reflexivity.
Qed.

Lemma step_unmounted (e : Event) (h : Hook) :
  e <> Mount -> isMountedRef h = false ->
  isMountedRef (step e h) = false /\ observable (step e h) = observable h.
Proof.
  intros Ne M. destruct e as [|s| | | |]; simpl; auto.
  - rewrite checkConnection_settle_unmounted by exact M. auto.
  - contradiction.
Qed.

(** Teardown of the connection monitor: once the effect is cleaned up, and
    until it runs again, nothing that happens (a check settling either way,
    a timer firing, a retry) changes any state cell; a check that was in
    flight still has its [then] register the next timer. *)
Theorem connection_teardown_safe (events : list Event) (s : Settled) (h : Hook) :
  Forall (fun e => e <> Mount) events ->
  observable (run events (unmount h)) = observable h
  /\ delays (poll s (unmount h)) = (delays h ++ [pollingIntervalRef h])%list.
Proof.
  intros F. split.
  - change (observable h) with (observable (unmount h)).
    assert (M : isMountedRef (unmount h) = false) by reflexivity.
    revert M. generalize (unmount h) as u.
    induction F as [|e events Ne _ IH]; intros u M; [reflexivity|].
    unfold run in *. simpl.
    destruct (step_unmounted e u Ne M) as [M' O].
    rewrite (IH _ M'). exact O.
  - rewrite poll_delays. change (checkConnection_call (unmount h)) with
      (unmount (checkConnection_call h)).
    rewrite checkConnection_settle_unmounted by reflexivity. reflexivity.
Qed.

End ConnectionRunFacts.

Lemma backoff_ceiling_witness :
  (Connection.pollingIntervalRef
     (Connection.run
        (map (fun e => Connection.Settle (Connection.Failed e))
             [NonError; NonError; NonError; NonError; NonError; NonError; NonError])
        Connection.initial)
   == Connection.MAX_INTERVAL)%Q.
Proof.
  apply backoff_ceiling; [reflexivity | apply Qle_refl | simpl; lia].
Defined.

Lemma retry_resets_backoff_witness :
  (Connection.pollingIntervalRef
     (Connection.checkConnection_reject NonError
        (Connection.retryConnection
           (Connection.checkConnection_reject NonError
              (Connection.checkConnection_reject NonError Connection.initial))))
   == 3000)%Q.
Proof.
  apply (retry_resets_backoff NonError
           (Connection.checkConnection_reject NonError
              (Connection.checkConnection_reject NonError Connection.initial))).
  reflexivity.
Defined.

Lemma connection_teardown_safe_witness :
  Connection.observable
    (Connection.run
       [Connection.Settle (Connection.Resolved Sample.unreachable); Connection.Schedule;
        Connection.Call; Connection.Settle (Connection.Failed NonError)]
       (Connection.unmount Connection.initial))
  = Connection.observable Connection.initial.
Proof.
  apply (connection_teardown_safe _ (Connection.Failed NonError) Connection.initial).
  repeat constructor; discriminate.
Defined.

(** ** The clip reconciler: clearing, reconciliation, teardown, re-render *)

Section ClipsRunFacts.

Import Clips.

(** [clearLayer] while connected: before the clear request settles the
    active clip id, the active clip index and the selection are emptied and
    the request is handed to the API client; when it resolves, one refetch
    guarded by the liveness flag is scheduled 300ms later; when it rejects,
    the clips are refetched at once, the error is rethrown and no timer is
    scheduled.  While disconnected it throws and changes nothing. *)
Theorem clear_layer (o : Options) (h : Hook) :
  (isConnected o = true ->
     let h1 := fst (clearLayer_call o h) in
     snd (clearLayer_call o h) = None
     /\ activeClipId h1 = None /\ activeClipIndex h1 = None /\ selectedClipIndex h1 = None
     /\ clips h1 = clips h
     /\ apiCalls h1 = (apiCalls h ++ [ClearLayer (layerIndex o)])%list
     /\ (forall h2,
           timeouts (clearLayer_resolve o h2)
           = (timeouts h2 ++ [(300, RefetchIfMounted o)])%list
           /\ apiCalls (clearLayer_resolve o h2) = apiCalls h2
           /\ observable (clearLayer_resolve o h2) = observable h2)
     /\ (forall err h2,
           snd (clearLayer_reject o err h2) = err
           /\ apiCalls (fst (clearLayer_reject o err h2))
              = (apiCalls h2 ++ [GetClipsForLayer (layerIndex o)])%list
           /\ timeouts (fst (clearLayer_reject o err h2)) = timeouts h2))
  /\ (isConnected o = false -> clearLayer_call o h = (h, Some not_connected)).
Proof.
  split; intros C.
  - unfold clearLayer_call. rewrite C. cbn [negb fst snd].
    split; [reflexivity|]. split; [reflexivity|]. split; [reflexivity|].
    split; [reflexivity|]. split; [reflexivity|]. split; [reflexivity|].
    split.
    + intros h2. repeat split.
    + intros err h2. unfold clearLayer_reject, fetchClips_call. rewrite C.
      repeat split.
  - unfold clearLayer_call. rewrite C. reflexivity.
Qed.

Lemma fetchClips_resolve_independent (response : option (list ClipViewModel))
    (h1 h2 : Hook) :
  isMountedRef h1 = true -> isMountedRef h2 = true ->
  clips (fetchClips_resolve response h1) = clips (fetchClips_resolve response h2)
  /\ activeClipId (fetchClips_resolve response h1)
     = activeClipId (fetchClips_resolve response h2)
  /\ activeClipIndex (fetchClips_resolve response h1)
     = activeClipIndex (fetchClips_resolve response h2).
Proof.
  intros M1 M2. unfold fetchClips_resolve. rewrite M1, M2. cbn [negb].
  destruct (find ClipViewModel.isConnected (default [] response)); cbn; repeat split.
Qed.

(** What a fetched list does to the active clip does not depend on what
    the hook held before: an optimistic trigger or clear is overridden by
    the next fetch that resolves. *)
Theorem fetch_overrides_optimistic (response : option (list ClipViewModel))
    (h1 h2 : Hook) :
  isMountedRef h1 = true -> isMountedRef h2 = true ->
  let a := fetchClips_resolve response h1 in
  let b := fetchClips_resolve response h2 in
  clips a = clips b
  /\ activeClipId a = activeClipId b
  /\ activeClipIndex a = activeClipIndex b
  /\ isLoading a = isLoading b
  /\ (activeClipIndex a <> None -> selectedClipIndex a = selectedClipIndex b).
Proof.
  intros M1 M2 a b. subst a b. unfold fetchClips_resolve. rewrite M1, M2. cbn [negb].
  destruct (find ClipViewModel.isConnected (default [] response)); cbn;
    repeat split; intros N; contradiction.
Qed.

Lemma find_Some_index {A : Type} (p : A -> bool) (l : list A) (x : A) :
  find p l = Some x ->
  exists i : nat,
    findIndex p l = Z.of_nat i /\ l !! i = Some x /\ p x = true
    /\ forall (j : nat) (y : A), (j < i)%nat -> l !! j = Some y -> p y = false.
Proof.
  induction l as [|a l IH]; simpl; [discriminate|].
  destruct (p a) eqn:Pa.
  - intros [= ->]. exists 0%nat. repeat split; [exact Pa | intros j y Hj; lia].
  - intros F. destruct (IH F) as (i & I & L & Px & Before).
    exists (S i). rewrite I.
    destruct (Z.of_nat i <? 0) eqn:E; [apply Z.ltb_lt in E; lia|].
    split; [lia|]. split; [exact L|]. split; [exact Px|].
    intros [|j] y Hj Hy; simpl in Hy.
    + injection Hy as <-. exact Pa.
    + apply (Before j y); [lia | exact Hy].
Qed.

(** After a fetch resolves while mounted, an active clip index always
    points into the fetched list, at the first entry that is connected; the
    active clip id is that entry's id and the selection is the same index. *)
Theorem active_index_points_at_playing_clip (response : option (list ClipViewModel))
    (h : Hook) (i : Z) :
  isMountedRef h = true ->
  let h' := fetchClips_resolve response h in
  activeClipIndex h' = Some i ->
  exists clip,
    1 <= i <= Z.of_nat (length (clips h'))
    /\ first_connected (clips h') (Z.to_nat (i - 1)) clip
    /\ at_index (clips h') (i - 1) = Some clip
    /\ activeClipId h' = Some (ClipViewModel.id clip)
    /\ selectedClipIndex h' = Some i.
Proof.
  intros M h'. subst h'. unfold fetchClips_resolve. rewrite M. cbn [negb].
  destruct (find ClipViewModel.isConnected (default [] response)) as [clip|] eqn:F;
    cbn; [|discriminate].
  destruct (find_Some_index _ _ _ F) as (n & I & L & P & Before).
  rewrite I. intros [= <-]. exists clip.
  replace (Z.of_nat n + 1 - 1) with (Z.of_nat n) by lia. rewrite Nat2Z.id.
  split; [|split; [|split; [|split]]].
  - apply lookup_lt_Some in L. lia.
  - split; [exact L|]. split; [exact P | exact Before].
  - unfold at_index. destruct (Z.of_nat n <? 0) eqn:E; [apply Z.ltb_lt in E; lia|].
    rewrite Nat2Z.id. exact L.
  - reflexivity.
  - reflexivity.
Qed.

Lemma quiet_step_unmounted (e : Event) (h : Hook) :
  quiet e = true -> isMountedRef h = false ->
  isMountedRef (step e h) = false /\ observable (step e h) = observable h.
Proof.
  intros Q M. destruct e; try discriminate Q; simpl.
  - unfold fetchClips_resolve. rewrite M. auto.
  - unfold fetchClips_reject. rewrite M. auto.
  - auto.
  - auto.
  - rewrite run_unmounted by exact M. auto.
Qed.

(** Teardown of the clip reconciler, as far as it goes: once the effect is
    cleaned up, a fetch that settles either way, a delayed refetch that
    comes due, and a trigger or clear that succeeds change no state cell;
    the delayed refetch asks nothing of the API client. *)
Theorem clips_teardown_quiet (events : list Event) (cb : Callback) (h : Hook) :
  Forall (fun e => quiet e = true) events ->
  observable (run_events events (unmount h)) = observable h
  /\ run cb (unmount h) = unmount h.
Proof.
  intros F. split; [|apply run_unmounted; reflexivity].
  change (observable h) with (observable (unmount h)).
  assert (M : isMountedRef (unmount h) = false) by reflexivity.
  revert M. generalize (unmount h) as u.
  induction F as [|e events Q _ IH]; intros u M; [reflexivity|].
  unfold run_events in *. simpl.
  destruct (quiet_step_unmounted e u Q M) as [M' O].
  rewrite (IH _ M'). exact O.
Qed.

(** A re-render with another layer index: the selection is emptied; the
    active clip id and index are left as they were; when the new options
    are connected the old clip list stays on display while one fetch for
    the new layer is in flight, and when they are not the clip list is
    emptied.  The liveness flag is true again, so a response that arrives
    afterwards is applied whichever request it answers. *)
Theorem rerender_resets_selection (o : Options) (h : Hook) :
  let h' := rerender o h in
  selectedClipIndex h' = None
  /\ activeClipId h' = activeClipId h
  /\ activeClipIndex h' = activeClipIndex h
  /\ isMountedRef h' = true
  /\ (isConnected o = true ->
        clips h' = clips h /\ isLoading h' = true
        /\ apiCalls h' = (apiCalls h ++ [GetClipsForLayer (layerIndex o)])%list)
  /\ (isConnected o = false -> clips h' = [] /\ apiCalls h' = apiCalls h)
  /\ (forall response, clips (fetchClips_resolve response h') = default [] response).
Proof.
  intros h'. subst h'. unfold rerender, layerChanged, selectClip, mount, fetchClips_call.
  destruct (isConnected o); cbn.
  - repeat split; try discriminate.
    intros response. destruct (find _ _); reflexivity.
  - repeat split; try discriminate.
    intros response. destruct (find _ _); reflexivity.
Qed.

End ClipsRunFacts.

Section ClipsClientFacts.

Import Clips.

Variable numberToString : number -> string.

(** A clips read answered 404, handled while mounted: the clip list is
    emptied, the error names the layer, loading ends, and the active clip
    and the selection are left alone; any other non-2xx answer keeps the
    clip list and shows the HTTP status line.  Neither is cached. *)
Theorem fetch_not_found (now : Z) (o : Options)
    (r : @ResolumeApiClient.Response Wiring.ClipsPayload)
    (c : @ResolumeApiClient.Client Wiring.ClipsPayload) (h : Hook) :
  isMountedRef h = true ->
  ResolumeApiClient.ok r = false ->
  let c' := fst (Wiring.fetchClips_response numberToString now o r c h) in
  let h' := snd (Wiring.fetchClips_response numberToString now o r c h) in
  c' = c
  /\ isLoading h' = false
  /\ activeClipId h' = activeClipId h
  /\ activeClipIndex h' = activeClipIndex h
  /\ selectedClipIndex h' = selectedClipIndex h
  /\ (ResolumeApiClient.status r = 404 ->
        clips h' = []
        /\ error h'
           = Some ("Layer " ++ pretty (layerIndex o) ++ " not found in Resolume composition"))
  /\ (ResolumeApiClient.status r <> 404 ->
        clips h' = clips h
        /\ error h'
           = Some ("HTTP " ++ numberToString (of_Z (ResolumeApiClient.status r)) ++ ": "
                     ++ ResolumeApiClient.statusText r)).
Proof.
  intros M Hok c' h'. subst c' h'.
  unfold Wiring.fetchClips_response, ResolumeApiClient.request_resolve.
  rewrite Hok. cbn [negb fst snd].
  unfold fetchClips_reject. rewrite M. cbn [negb].
  unfold ResolumeApiClient.http_error. cbn [statusCode].
  destruct (bool_decide (Some (ResolumeApiClient.status r) = Some 404)) eqn:B.
  - apply bool_decide_eq_true in B. injection B as B. cbn.
    do 5 (split; [reflexivity|]).
    split; intros H; [split; reflexivity | contradiction].
  - apply bool_decide_eq_false in B. cbn.
    do 5 (split; [reflexivity|]).
    split; intros H; [exfalso; apply B; now f_equal | split; reflexivity].
Qed.

(** A refetch made while the clips of the layer are cached and younger than
    the 1000ms TTL never reaches the network: the cached list is applied
    again.  So the delayed refetch after a trigger, when it falls within
    1000ms of the previous fetch, puts the active clip back to what the
    list fetched before the trigger says. *)
Theorem refetch_within_ttl_reapplies_cache (now t0 : Z) (o : Options)
    (d : Wiring.ClipsPayload) (clipIndex : Z)
    (c : @ResolumeApiClient.Client Wiring.ClipsPayload) (h : Hook) :
  isConnected o = true ->
  isMountedRef h = true ->
  ResolumeApiClient.requestCache c
    !! ResolumeApiClient.cacheKey c (Wiring.clips_endpoint numberToString (layerIndex o)) None
  = Some (ResolumeApiClient.mkEntry d t0) ->
  now - t0 < 1000 ->
  let before := fetchClips_resolve d h in
  let triggered := fst (triggerClip_call o clipIndex before) in
  let '(c', after, awaiting) := Wiring.fetchClips numberToString now o c triggered in
  c' = c /\ awaiting = false
  /\ clips after = default [] d
  /\ activeClipId after = activeClipId before
  /\ activeClipIndex after = activeClipIndex before.
Proof.
  intros C M L Fresh before triggered.
  unfold Wiring.fetchClips. rewrite C. cbn [negb].
  unfold ResolumeApiClient.request_call. cbn [ResolumeApiClient.is_GET].
  rewrite L. cbn [ResolumeApiClient.timestamp ResolumeApiClient.data].
  assert (E : (now - t0 <? ResolumeApiClient.cacheTTL) = true)
    by (apply Z.ltb_lt; unfold ResolumeApiClient.cacheTTL; lia).
  rewrite E.
  assert (Mt : isMountedRef (fetchClips_call o triggered) = true).
  { subst triggered before. unfold fetchClips_call, triggerClip_call, fetchClips_resolve.
    rewrite C, M. cbn [negb].
    destruct (find _ _); cbn; destruct (at_index _ _); reflexivity. }
  split; [reflexivity|]. split; [reflexivity|].
  subst before.
  destruct (fetchClips_resolve_independent d (fetchClips_call o triggered) h Mt M)
    as (E1 & E2 & E3).
  rewrite E1, E2, E3. split; [|split]; try reflexivity.
  unfold fetchClips_resolve. rewrite M. cbn [negb]. destruct (find _ _); reflexivity.
Qed.

End ClipsClientFacts.

Lemma clear_layer_witness :
  Clips.activeClipId
    (fst (Clips.clearLayer_call Sample.layer1
            (Clips.fetchClips_resolve (Some Sample.two_clips) Clips.initial)))
  = None.
Proof.
  exact (proj1 (proj2 (proj1 (clear_layer Sample.layer1
           (Clips.fetchClips_resolve (Some Sample.two_clips) Clips.initial)) eq_refl))).
Defined.

Lemma fetch_overrides_optimistic_witness :
  Clips.activeClipIndex
    (Clips.fetchClips_resolve (Some Sample.two_clips)
       (fst (Clips.triggerClip_call Sample.layer1 2
               (Clips.fetchClips_resolve (Some Sample.two_clips) Clips.initial))))
  = Clips.activeClipIndex (Clips.fetchClips_resolve (Some Sample.two_clips) Clips.initial).
Proof.
  exact (proj1 (proj2 (proj2 (fetch_overrides_optimistic (Some Sample.two_clips)
           (fst (Clips.triggerClip_call Sample.layer1 2
                   (Clips.fetchClips_resolve (Some Sample.two_clips) Clips.initial)))
           Clips.initial eq_refl eq_refl)))).
Defined.

Lemma active_index_points_at_playing_clip_witness :
  exists clip,
    1 <= 1 <= Z.of_nat (length (Clips.clips
                                  (Clips.fetchClips_resolve (Some Sample.two_clips)
                                     Clips.initial)))
    /\ Clips.first_connected
         (Clips.clips (Clips.fetchClips_resolve (Some Sample.two_clips) Clips.initial))
         (Z.to_nat (1 - 1)) clip
    /\ Clips.at_index
         (Clips.clips (Clips.fetchClips_resolve (Some Sample.two_clips) Clips.initial))
         (1 - 1) = Some clip
    /\ Clips.activeClipId (Clips.fetchClips_resolve (Some Sample.two_clips) Clips.initial)
       = Some (Clips.ClipViewModel.id clip)
    /\ Clips.selectedClipIndex
         (Clips.fetchClips_resolve (Some Sample.two_clips) Clips.initial)
       = Some 1.
Proof.
  exact (active_index_points_at_playing_clip (Some Sample.two_clips) Clips.initial 1
           eq_refl eq_refl).
Defined.

Lemma clips_teardown_quiet_witness :
  Clips.observable
    (Clips.run_events
       [Clips.FetchResolve (Some Sample.two_clips);
        Clips.TimerFires (Clips.RefetchIfMounted Sample.layer1);
        Clips.FetchReject Sample.layer1 NonError]
       (Clips.unmount Clips.initial))
  = Clips.observable Clips.initial.
Proof.
  apply (clips_teardown_quiet _ (Clips.RefetchIfMounted Sample.layer1) Clips.initial).
  repeat constructor.
Defined.

Lemma rerender_resets_selection_witness :
  Clips.clips
    (Clips.rerender (Clips.mkOptions 2 true 3000)
       (Clips.fetchClips_resolve (Some Sample.two_clips) Clips.initial))
  = Sample.two_clips.
Proof.
  exact (proj1 (proj1 (proj2 (proj2 (proj2 (proj2
           (rerender_resets_selection (Clips.mkOptions 2 true 3000)
              (Clips.fetchClips_resolve (Some Sample.two_clips) Clips.initial))))))
           eq_refl)).
Defined.

Lemma fetch_not_found_witness :
  Clips.error
    (snd (Wiring.fetchClips_response Sample.show 5 Sample.layer1 Sample.not_found
            Sample.clips_client Clips.initial))
  = Some "Layer 1 not found in Resolume composition".
Proof.
  exact (proj2 (proj1 (proj2 (proj2 (proj2 (proj2 (proj2
           (fetch_not_found Sample.show 5 Sample.layer1 Sample.not_found
              Sample.clips_client Clips.initial eq_refl eq_refl))))))
           eq_refl)).
Defined.

Lemma refetch_within_ttl_reapplies_cache_witness :
  let before := Clips.fetchClips_resolve (Some Sample.two_clips) Clips.initial in
  let triggered := fst (Clips.triggerClip_call Sample.layer1 2 before) in
  let '(c', after, awaiting) :=
    Wiring.fetchClips Sample.show 800 Sample.layer1 Sample.clips_cached triggered in
  c' = Sample.clips_cached /\ awaiting = false
  /\ Clips.clips after = default [] (Some Sample.two_clips)
  /\ Clips.activeClipId after = Clips.activeClipId before
  /\ Clips.activeClipIndex after = Clips.activeClipIndex before.
Proof.
  apply (refetch_within_ttl_reapplies_cache Sample.show 800 100 Sample.layer1
           (Some Sample.two_clips) 2 Sample.clips_cached Clips.initial);
    [reflexivity | reflexivity | reflexivity | lia].
Defined.

(** ** The parameter controller: bookkeeping of the timers *)

Section ControlsRunFacts.

Import Controls.

Lemma filter_all {A : Type} (P : A -> Prop) `{!forall x, Decision (P x)} (l : list A) :
  (forall x, x ∈ l -> P x) -> filter P l = l.
Proof.
  induction l as [|x l IH]; intros Hall; [reflexivity|].
  rewrite filter_cons, decide_True by (apply Hall; apply list_elem_of_here).
  f_equal. apply IH. intros y Hy. apply Hall. now apply list_elem_of_further.
Qed.

(** Dropping pending timers, with refs and the next handle as they were,
    keeps the bookkeeping sound. *)
Lemma sound_filter (P : Timer -> Prop) `{!forall t, Decision (P t)} (h h' : Hook) :
  sound h ->
  timers h' = filter P (timers h) ->
  nextHandle h' = nextHandle h ->
  (forall k, timeoutRef k h' = timeoutRef k h) ->
  sound h'.
Proof.
  intros (S1 & S2 & S3) T N R. split; [|split].
  - intros t Ht. rewrite T in Ht. apply list_elem_of_filter in Ht as [_ Ht].
    rewrite N. now apply S1.
  - intros k id Hk. rewrite R in Hk. destruct (S2 k id Hk) as [Lt Own].
    rewrite N. split; [exact Lt|].
    intros t Ht. rewrite T in Ht. apply list_elem_of_filter in Ht as [_ Ht].
    now apply Own.
  - intros k. unfold pending. rewrite T, filter_comm, R.
    destruct (S3 k) as [E | (t & E & Ref)]; unfold pending in E; rewrite E.
    + now left.
    + rewrite filter_cons. destruct (decide (P t)); [right; eauto | now left].
Qed.

Lemma sound_same (h h' : Hook) :
  sound h ->
  timers h' = timers h ->
  nextHandle h' = nextHandle h ->
  (forall k, timeoutRef k h' = timeoutRef k h) ->
  sound h'.
Proof.
  intros S T N R. apply (sound_filter (fun _ => True) h h' S); [|exact N | exact R].
  rewrite T. symmetry. apply filter_all. auto.
Qed.

Lemma clearTimeout_sound (ref : option nat) (h : Hook) :
  sound h -> sound (clearTimeout ref h).
Proof.
  intros S. destruct ref as [id|]; [|exact S].
  apply (sound_filter (fun t => handle t <> id) h _ S); try reflexivity;
    try (intros []; reflexivity).
Qed.

Lemma run_all_nextHandle (ready : list Timer) (h : Hook) :
  nextHandle (run_all ready h) = nextHandle h.
Proof.
  revert h. induction ready as [|t l IH]; intros h; [reflexivity|].
  unfold run_all in *. simpl. rewrite IH. destruct (callback t); reflexivity.
Qed.

Lemma advance_sound (now : Z) (h : Hook) : sound h -> sound (advance now h).
Proof.
  intros S. unfold advance.
  set (h0 := set_timers _ h).
  destruct (run_all_frame (filter (fun t => due t <= now) (timers h)) h0) as (_ & T & R & _).
  apply (sound_filter (fun t => now < due t) h _ S).
  - rewrite T. reflexivity.
  - rewrite run_all_nextHandle. reflexivity.
  - intros k. rewrite R. destruct k; reflexivity.
Qed.

(** What a setter whose gate is open does to the bookkeeping. *)
Lemma call_setter_shape (k : Control) (o : Options) (now : Z) (value : number) (h : Hook) :
  (k = Scrub -> gate o = true) ->
  timers (call_setter k o now value h)
  = (timers (clearTimeout (timeoutRef k h) h)
       ++ [mkTimer (nextHandle h) (now + DEBOUNCE_DELAY) (commit_of k o value)])%list
  /\ nextHandle (call_setter k o now value h) = S (nextHandle h)
  /\ timeoutRef k (call_setter k o now value h) = Some (nextHandle h)
  /\ (forall k', k' <> k ->
        timeoutRef k' (call_setter k o now value h) = timeoutRef k' h).
Proof.
  intros G. destruct k.
  - unfold call_setter, setBpm, timeoutRef.
    destruct (bpmTimeoutRef h) as [id|] eqn:R; simpl; rewrite R; simpl;
      repeat split; intros []; congruence.
  - unfold call_setter, setOpacity, timeoutRef.
    destruct (opacityTimeoutRef h) as [id|] eqn:R; simpl; rewrite R; simpl;
      repeat split; intros []; congruence.
  - specialize (G eq_refl). unfold gate in G.
    apply andb_true_iff in G as [G G3]. apply andb_true_iff in G as [G1 G2].
    unfold call_setter, setScrubPosition, timeoutRef. rewrite G1, G2, G3.
    destruct (scrubTimeoutRef h) as [id|] eqn:R; simpl; rewrite R; simpl;
      repeat split; intros []; congruence.
Qed.

(** In a sound instance, clearing through the ref of one control removes
    that control's pending commit and no other control's. *)
Lemma clearTimeout_own (k : Control) (h : Hook) :
  sound h ->
  pending k (clearTimeout (timeoutRef k h) h) = []
  /\ forall k', k' <> k -> pending k' (clearTimeout (timeoutRef k h) h) = pending k' h.
Proof.
  intros (S1 & S2 & S3). split.
  - destruct (S3 k) as [E | (t & E & Ref)].
    + destruct (timeoutRef k h); unfold pending in *; simpl; [|exact E].
      rewrite filter_comm, E. reflexivity.
    + rewrite Ref. unfold pending in *. simpl. rewrite filter_comm, E.
      rewrite filter_cons, decide_False by (intros N; now apply N). reflexivity.
  - intros k' Ne. destruct (timeoutRef k h) as [id|] eqn:Ref; [|reflexivity].
    unfold pending. simpl. rewrite filter_comm. apply filter_all.
    intros t Ht Eq. apply list_elem_of_filter in Ht as [Hk Ht].
    destruct (S2 k id Ref) as [_ Own]. rewrite (Own t Ht Eq) in Hk. now apply Ne.
Qed.

Lemma call_setter_sound (k : Control) (o : Options) (now : Z) (value : number) (h : Hook) :
  sound h -> sound (call_setter k o now value h).
Proof.
  intros S.
  destruct (decide (k = Scrub /\ gate o = false)) as [[-> G]|Open].
  { simpl. now rewrite scrub_gate_closed. }
  assert (G : k = Scrub -> gate o = true).
  { intros ->. destruct (gate o) eqn:E; [reflexivity|]. exfalso. apply Open. auto. }
  destruct (call_setter_shape k o now value h G) as (T & N & R & R').
  pose proof (clearTimeout_sound (timeoutRef k h) h S) as (C1 & C2 & C3).
  destruct (clearTimeout_own k h S) as (Own & Others).
  assert (RC : forall k', timeoutRef k' (clearTimeout (timeoutRef k h) h) = timeoutRef k' h).
  { intros k'. destruct (timeoutRef k h); destruct k'; reflexivity. }
  assert (NC : nextHandle (clearTimeout (timeoutRef k h) h) = nextHandle h).
  { destruct (timeoutRef k h); reflexivity. }
  split; [|split].
  - intros t Ht. rewrite T in Ht. rewrite N. apply elem_of_app in Ht as [Ht|Ht].
    + apply C1 in Ht. rewrite NC in Ht. lia.
    + apply list_elem_of_singleton in Ht. subst t. simpl. lia.
  - intros k' id Hk'. rewrite N. destruct (decide (k' = k)) as [->|Ne].
    + rewrite R in Hk'. injection Hk' as <-. split; [lia|].
      intros t Ht Eq. rewrite T in Ht. apply elem_of_app in Ht as [Ht|Ht].
      * apply C1 in Ht. rewrite NC in Ht. lia.
      * apply list_elem_of_singleton in Ht. subst t. simpl. destruct k; reflexivity.
    + rewrite (R' k' Ne) in Hk'. rewrite <- RC in Hk'.
      destruct (C2 k' id Hk') as [Lt Own']. rewrite NC in Lt. split; [lia|].
      intros t Ht Eq. rewrite T in Ht. apply elem_of_app in Ht as [Ht|Ht].
      * now apply Own'.
      * apply list_elem_of_singleton in Ht. subst t. simpl in Eq. lia.
  - intros k'. unfold pending. rewrite T, filter_app.
    fold (pending k' (clearTimeout (timeoutRef k h) h)).
    destruct (decide (k' = k)) as [->|Ne].
    + right. rewrite Own. eexists. split.
      * rewrite filter_cons, decide_True by (simpl; destruct k; reflexivity). reflexivity.
      * simpl. exact R.
    + rewrite (Others k' Ne).
      rewrite filter_cons, decide_False, filter_nil, app_nil_r
        by (simpl; destruct k; simpl; intros X; apply Ne; now rewrite <- X).
      rewrite (R' k' Ne).
      destruct S as (_ & _ & S3). exact (S3 k').
Qed.

Lemma step_sound (e : Event) (h : Hook) : sound h -> sound (step e h).
Proof.
  intros S. destruct e as [k o now v|now|cb|cb err|o|o v|v| |]; simpl.
  - now apply call_setter_sound.
  - now apply advance_sound.
  - apply (sound_same h _ S); unfold commit_resolve, commit_finally;
      destruct (isMountedRef h), cb; try reflexivity; try (intros []; reflexivity).
  - apply (sound_same h _ S); unfold commit_reject, commit_finally; simpl;
      destruct (isMountedRef h), cb; try reflexivity; try (intros []; reflexivity).
  - apply (sound_same h _ S); unfold fetchInitialValues_call;
      destruct (isConnected o); try reflexivity; try (intros []; reflexivity).
  - apply (sound_same h _ S); unfold fetchInitialValues_bpm;
      destruct v, (isMountedRef h); try reflexivity; try (intros []; reflexivity).
  - apply (sound_same h _ S); unfold fetchInitialValues_opacity;
      destruct v, (isMountedRef h); try reflexivity; try (intros []; reflexivity).
  - apply (sound_same h _ S); try reflexivity; try (intros []; reflexivity).
  - unfold unmount. do 3 apply clearTimeout_sound.
    apply (sound_same h _ S); try reflexivity; try (intros []; reflexivity).
Qed.

Lemma run_events_sound (events : list Event) (h : Hook) :
  sound h -> sound (run_events events h).
Proof.
  revert h. induction events as [|e events IH]; intros h S; [exact S|].
  unfold run_events in *. simpl. apply IH, step_sound, S.
Qed.

Lemma initial_sound : sound initial.
Proof.
  split; [|split].
  - intros t Ht. apply elem_of_nil in Ht. contradiction.
  - intros [] id H; discriminate H.
  - intros k. now left.
Qed.

End ControlsRunFacts.

Section ControlsBookkeeping.

Import Controls.

(** At any moment of any run, a control has at most one commit pending, and
    its ref holds the handle of that commit. *)
Theorem one_commit_pending (events : list Event) (k : Control) :
  (length (pending k (run_events events initial)) <= 1)%nat
  /\ (forall t, t ∈ pending k (run_events events initial) ->
        timeoutRef k (run_events events initial) = Some (handle t)).
Proof.
  destruct (run_events_sound events initial initial_sound) as (_ & _ & S3).
  destruct (S3 k) as [E | (t & E & Ref)]; rewrite E.
  - split; [simpl; lia|]. intros t Ht. apply elem_of_nil in Ht. contradiction.
  - split; [simpl; lia|]. intros t' Ht. apply list_elem_of_singleton in Ht.
    subst t'. exact Ref.
Qed.

Lemma call_setter_apiCalls (k : Control) (o : Options) (now : Z) (value : number)
    (h : Hook) :
  apiCalls (call_setter k o now value h) = apiCalls h.
Proof.
  destruct (decide (k = Scrub /\ gate o = false)) as [[-> G]|Open].
  { simpl. now rewrite scrub_gate_closed. }
  apply call_setter_spec. intros ->.
  destruct (gate o) eqn:E; [reflexivity|]. exfalso. apply Open. auto.
Qed.

Lemma call_setter_display_other (k k' : Control) (o : Options) (now : Z) (value : number)
    (h : Hook) :
  k <> k' -> display k (call_setter k' o now value h) = display k h.
Proof.
  intros Ne. destruct k'; cbn [call_setter].
  - unfold setBpm. destruct (bpmTimeoutRef (setError None (setBpmState value h)));
      destruct k; try contradiction; reflexivity.
  - unfold setOpacity.
    destruct (opacityTimeoutRef (setError None (setOpacityState value h)));
      destruct k; try contradiction; reflexivity.
  - unfold setScrubPosition.
    destruct (negb (isConnected o) || negb (truthy (activeClipId o))
              || negb (truthy (activeClipIndex o))); [reflexivity|].
    destruct (scrubTimeoutRef (setError None (setScrubPositionState value h)));
      destruct k; try contradiction; reflexivity.
Qed.

(** The three controls do not disturb one another: in any state a run can
    reach, a call to the setter of one control leaves the pending commit,
    the writes and the displayed value of every other control as they
    were. *)
Theorem controls_independent (events : list Event) (k k' : Control) (o : Options)
    (now : Z) (value : number) :
  k <> k' ->
  let h := run_events events initial in
  pending k (call_setter k' o now value h) = pending k h
  /\ writes k (call_setter k' o now value h) = writes k h
  /\ display k (call_setter k' o now value h) = display k h.
Proof.
  intros Ne h.
  pose proof (run_events_sound events initial initial_sound) as S. fold h in S.
  split; [|split].
  - destruct (decide (k' = Scrub /\ gate o = false)) as [[-> G]|Open].
    { simpl. now rewrite scrub_gate_closed. }
    assert (G : k' = Scrub -> gate o = true).
    { intros ->. destruct (gate o) eqn:E; [reflexivity|]. exfalso. apply Open. auto. }
    destruct (call_setter_shape k' o now value h G) as (T & _).
    destruct (clearTimeout_own k' h S) as (_ & Others).
    unfold pending at 1. rewrite T, filter_app.
    fold (pending k (clearTimeout (timeoutRef k' h) h)).
    rewrite (Others k Ne).
    rewrite filter_cons, decide_False, filter_nil, app_nil_r
      by (simpl; destruct k'; simpl; intros X; apply Ne; now rewrite <- X).
    reflexivity.
  - unfold writes. now rewrite call_setter_apiCalls.
  - now apply call_setter_display_other.
Qed.

Lemma clearTimeout_timeoutRef (ref : option nat) (h : Hook) (k : Control) :
  timeoutRef k (clearTimeout ref h) = timeoutRef k h.
Proof. destruct ref, k; reflexivity. Qed.

Lemma clearTimeout_apiCalls (ref : option nat) (h : Hook) :
  apiCalls (clearTimeout ref h) = apiCalls h.
Proof. destruct ref; reflexivity. Qed.

Lemma clearTimeout_isMountedRef (ref : option nat) (h : Hook) :
  isMountedRef (clearTimeout ref h) = isMountedRef h.
Proof. destruct ref; reflexivity. Qed.

Lemma clearTimeout_timers (ref : option nat) (h : Hook) (t : Timer) :
  t ∈ timers (clearTimeout ref h) ->
  t ∈ timers h /\ ref <> Some (handle t).
Proof.
  destruct ref as [id|]; simpl.
  - intros Ht. apply list_elem_of_filter in Ht as [Hn Ht]. split; [exact Ht|].
    intros [= ->]. now apply Hn.
  - intros Ht. split; [exact Ht | discriminate].
Qed.

(** Teardown cancels every pending commit: in any state a run can reach,
    unmounting leaves no timer pending, so that afterwards the passing of
    time hands nothing to the API client. *)
Theorem unmount_cancels_commits (events : list Event) (later : Z) :
  let h := run_events events initial in
  timers (unmount h) = []
  /\ apiCalls (advance later (unmount h)) = apiCalls h
  /\ isMountedRef (unmount h) = false.
Proof.
  intros h.
  destruct (run_events_sound events initial initial_sound) as (_ & _ & S3). fold h in S3.
  assert (E : timers (unmount h) = []).
  { destruct (timers (unmount h)) as [|t rest] eqn:L; [reflexivity|]. exfalso.
    assert (Ht : t ∈ timers (unmount h)) by (rewrite L; apply list_elem_of_here).
    unfold unmount in Ht.
    apply clearTimeout_timers in Ht as [Ht R3].
    apply clearTimeout_timers in Ht as [Ht R2].
    apply clearTimeout_timers in Ht as [Ht R1].
    change (timeoutRef Scrub
              (clearTimeout
                 (opacityTimeoutRef
                    (clearTimeout (bpmTimeoutRef (set_isMountedRef false h))
                       (set_isMountedRef false h)))
                 (clearTimeout (bpmTimeoutRef (set_isMountedRef false h))
                    (set_isMountedRef false h)))
            <> Some (handle t)) in R3.
    change (timeoutRef Opacity
              (clearTimeout (bpmTimeoutRef (set_isMountedRef false h))
                 (set_isMountedRef false h))
            <> Some (handle t)) in R2.
    rewrite !clearTimeout_timeoutRef in R3. rewrite clearTimeout_timeoutRef in R2.
    assert (Q1 : bpmTimeoutRef h <> Some (handle t)) by exact R1.
    assert (Q2 : opacityTimeoutRef h <> Some (handle t)) by exact R2.
    assert (Q3 : scrubTimeoutRef h <> Some (handle t)) by exact R3.
    change (t ∈ timers h) in Ht.
    assert (Hp : t ∈ pending (control_of (callback t)) h).
    { unfold pending. apply list_elem_of_filter. split; [reflexivity | exact Ht]. }
    destruct (S3 (control_of (callback t))) as [E | (t' & E & Ref)]; rewrite E in Hp.
    - apply elem_of_nil in Hp. contradiction.
    - apply list_elem_of_singleton in Hp. subst t'.
      destruct (control_of (callback t)); simpl in Ref; contradiction. }
  split; [exact E|]. split.
  - unfold advance. rewrite E. cbn [filter list_filter run_all fold_left].
    change (apiCalls (set_timers [] (unmount h))) with (apiCalls (unmount h)).
    unfold unmount. rewrite !clearTimeout_apiCalls. reflexivity.
  - unfold unmount. rewrite !clearTimeout_isMountedRef. reflexivity.
Qed.

End ControlsBookkeeping.

Lemma controls_independent_witness :
  let h :=
    Controls.run_events
      [Controls.SetterCall Controls.Opacity Sample.playing 0 (of_Z 40)] Controls.initial in
  Controls.pending Controls.Opacity
    (Controls.call_setter Controls.Bpm Sample.playing 10 (of_Z 128) h)
  = Controls.pending Controls.Opacity h.
Proof.
  exact (proj1 (controls_independent
           [Controls.SetterCall Controls.Opacity Sample.playing 0 (of_Z 40)]
           Controls.Opacity Controls.Bpm Sample.playing 10 (of_Z 128)
           ltac:(discriminate))).
Defined.


(** ** The parameter controller: the opacity domains *)

Section OpacityFacts.

Import Controls.

Context {Payload : Type}.
Variable numberToString : number -> string.

Lemma div100 (q : Q) : (q / 100 == q * (1 # 100))%Q.
Proof. reflexivity. Qed.

(** The debounced opacity commit divides the displayed value by 100 before
    it hands it to the API client: a displayed value from 0 to 100, bounds
    included, passes the client's 0 to 1 check and makes one network
    request; a displayed value of -1 or less, or above 100, is rejected by
    the client without a request.  (Between -1 and 0 the quotient of
    doubles can be a zero, which the client lets through.) *)
Theorem opacity_commit_reaches_network (now : Z) (layer : Z) (q : Q)
    (c : @ResolumeApiClient.Client Payload) :
  let call := write_of (CommitOpacity layer (Fin q)) in
  ((0 <= q <= 100)%Q ->
     snd (Wiring.perform numberToString now call c)
     = ResolumeApiClient.Requested ResolumeApiClient.Fetching
     /\ length (ResolumeApiClient.fetched (fst (Wiring.perform numberToString now call c)))
        = S (length (ResolumeApiClient.fetched c)))
  /\ ((q <= -1 \/ 100 < q)%Q ->
        Wiring.perform numberToString now call c
        = (c, ResolumeApiClient.Rejected
                (ResolumeApiClient.validation_error "Opacity must be between 0 and 1"))).
Proof.
  intros call. subst call. cbn [write_of num_div100 Wiring.perform].
  unfold ResolumeApiClient.setLayerOpacity. split.
  - intros [Lo Hi].
    rewrite unit_interval_in by (rewrite div100; split; lra).
    rewrite request_call_not_GET by reflexivity. cbn [fst snd ResolumeApiClient.fetched].
    split; [reflexivity|]. rewrite length_app. simpl. lia.
  - intros H.
    assert (E : num_lt (Fin (q / 100)) (of_Z 0) || num_gt (Fin (q / 100)) (of_Z 1) = true).
    { apply orb_true_iff. destruct H as [H|H]; [left|right]; unfold num_gt;
        apply num_lt_Fin; rewrite div100; unfold inject_Z; lra. }
    rewrite E. reflexivity.
Qed.

Lemma Qfloor_half (n : Z) (x : Q) : (x == inject_Z n)%Q -> Qfloor (x + (1 # 2)) = n.
Proof.
  intros E.
  pose proof (Qfloor_le (x + (1 # 2))) as Lo.
  pose proof (Qlt_floor (x + (1 # 2))) as Hi.
  set (f := Qfloor (x + (1 # 2))) in *.
  rewrite inject_Z_plus in Hi. change (inject_Z 1) with 1%Q in Hi.
  assert (A : (f < n + 1)%Z).
  { rewrite Zlt_Qlt, inject_Z_plus. change (inject_Z 1) with 1%Q. lra. }
  assert (B : (n < f + 1)%Z).
  { rewrite Zlt_Qlt, inject_Z_plus. change (inject_Z 1) with 1%Q. lra. }
  lia.
Qed.

(** A whole-number opacity survives the round trip: what the commit writes
    for a displayed [n] (that is [n / 100]), read back by the initial fetch
    while mounted, is displayed as [n] again; and a whole-number tempo read
    back is displayed unchanged. *)
Theorem opacity_round_trip (n : Z) (o : Options) (h : Hook) :
  isMountedRef h = true ->
  (forall layer wire,
     write_of (CommitOpacity layer (of_Z n)) = SetLayerOpacity layer wire ->
     opacity (fetchInitialValues_opacity (Some wire) h) = of_Z n)
  /\ bpm (fetchInitialValues_bpm o (Some (of_Z n)) h) = of_Z n.
Proof.
  intros M. split.
  - intros layer wire [= <-]. unfold fetchInitialValues_opacity. rewrite M.
    change (of_Z (Qfloor (inject_Z n / 100 * 100 + (1 # 2))) = of_Z n).
    f_equal. apply Qfloor_half. rewrite div100. ring.
  - unfold fetchInitialValues_bpm. rewrite M.
    change (of_Z (Qfloor (inject_Z n + (1 # 2))) = of_Z n).
    f_equal. apply Qfloor_half. reflexivity.
Qed.

End OpacityFacts.

Lemma opacity_commit_reaches_network_witness :
  snd (Wiring.perform Sample.show 150
         (Controls.write_of (Controls.CommitOpacity 1 (Fin 57))) Sample.client)
  = ResolumeApiClient.Requested ResolumeApiClient.Fetching.
Proof.
  apply (proj1 (opacity_commit_reaches_network Sample.show 150 1 57 Sample.client)).
  split; discriminate.
Defined.

Lemma opacity_round_trip_witness :
  Controls.bpm (Controls.fetchInitialValues_bpm Sample.playing (Some (of_Z 128))
                  Controls.initial)
  = of_Z 128.
Proof.
  exact (proj2 (opacity_round_trip 128 Sample.playing Controls.initial eq_refl)).
Defined.

(** ** The components on top of the hooks *)

Section ComponentFacts.

(** A click on the button of a clip slot always moves the selection to that
    slot, whether or not a clip is cached there and whether or not the
    connection is up; while connected it hands exactly one connect request
    to the API client, and when no clip is cached at the slot the active
    clip stays what it was, so that selection and active clip differ; while
    disconnected it does nothing else. *)
Theorem click_selects_slot (o : Clips.Options) (clipIndex : Z) (h : Clips.Hook) :
  let h' := ResolumeControls.clickClip o clipIndex h in
  Clips.selectedClipIndex h' = Some clipIndex
  /\ (Clips.isConnected o = true ->
        Clips.apiCalls h'
        = (Clips.apiCalls h ++ [Clips.TriggerClip (Clips.layerIndex o) clipIndex])%list
        /\ (Clips.at_index (Clips.clips h) (clipIndex - 1) = None ->
              Clips.activeClipId h' = Clips.activeClipId h
              /\ Clips.activeClipIndex h' = Clips.activeClipIndex h))
  /\ (Clips.isConnected o = false -> h' = Clips.selectClip (Some clipIndex) h).
Proof.
  intros h'. subst h'.
  unfold ResolumeControls.clickClip, Dashboard.handleClipTrigger, Clips.triggerClip_call.
  split; [reflexivity|]. split; intros C; rewrite C; cbn [negb fst].
  - split.
    + destruct (Clips.at_index _ _); reflexivity.
    + intros N. rewrite N. split; reflexivity.
  - reflexivity.
Qed.

(** As [Dashboard] wires the hooks, the scrub setter is gated on the active
    clip id but aims at the selected clip index: with the connection up and
    an active clip, after the user selects slot [j] the debounced scrub
    commit writes the position of clip [j] of the layer, whichever clip is
    playing; and after a click on the clear button the scrub setter does
    nothing. *)
Theorem scrub_follows_selection (selectedLayer j : Z) (connection : Connection.Hook)
    (clipsHook : Clips.Hook) (now : Z) (value : number) (h : Controls.Hook) :
  Connection.isConnected connection = true ->
  Controls.truthy (Clips.activeClipId clipsHook) = true ->
  j <> 0 ->
  Controls.pending Controls.Scrub h = [] ->
  let selected := Clips.selectClip (Some j) clipsHook in
  let cleared :=
    ResolumeControls.clickClear (Dashboard.clips_options selectedLayer connection)
      clipsHook in
  Controls.writes Controls.Scrub
    (Controls.advance (now + Controls.DEBOUNCE_DELAY)
       (Controls.setScrubPosition
          (Dashboard.controls_options selectedLayer connection selected) now value h))
  = (Controls.writes Controls.Scrub h
       ++ [Controls.SetClipPosition selectedLayer j value])%list
  /\ Controls.setScrubPosition
       (Dashboard.controls_options selectedLayer connection cleared) now value h
     = h.
Proof.
  intros C A J Idle selected cleared. split.
  - set (o := Dashboard.controls_options selectedLayer connection selected).
    assert (G : Controls.Scrub = Controls.Scrub -> Controls.gate o = true).
    { intros _. unfold Controls.gate, o, Dashboard.controls_options, selected. simpl.
      rewrite C, A. simpl. apply negb_true_iff. now apply Z.eqb_neq. }
    destruct (call_setter_arms Controls.Scrub o now value h G (or_introl Idle))
      as (Armed & W & _).
    destruct (advance_armed_due Controls.Scrub o now value
                (now + Controls.DEBOUNCE_DELAY) _ Armed (Z.le_refl _)) as (_ & W').
    change (Controls.setScrubPosition o now value h)
      with (Controls.call_setter Controls.Scrub o now value h).
    rewrite W', W. reflexivity.
  - apply scrub_gate_closed.
    unfold Controls.gate, Dashboard.controls_options, cleared,
      ResolumeControls.clickClear. simpl. rewrite andb_false_r. reflexivity.
Qed.

(** [calculatePosition] never leaves the 0 to 1 range: its result is a
    number from 0 to 1, or [NaN] (only for a scrubber of zero width clicked
    at its left edge); either way the API client's position check lets it
    through, so a scrub is never rejected as out of range. *)
Theorem calculatePosition_clamped (rect : option VideoScrubber.DOMRect) (clientX : Q) :
  (VideoScrubber.calculatePosition rect clientX = NaN
   \/ exists q, VideoScrubber.calculatePosition rect clientX = Fin q /\ (0 <= q <= 1)%Q)
  /\ (VideoScrubber.calculatePosition rect clientX = NaN ->
        exists r, rect = Some r
                  /\ (VideoScrubber.width r == 0)%Q
                  /\ (clientX - VideoScrubber.left r == 0)%Q)
  /\ (forall layer clip,
        Wiring.passes
          (Controls.SetClipPosition layer clip (VideoScrubber.calculatePosition rect clientX))
        = true).
Proof.
  assert (P : forall q layer clip, (0 <= q <= 1)%Q ->
                Wiring.passes (Controls.SetClipPosition layer clip (Fin q)) = true).
  { intros q layer clip Hq. unfold Wiring.passes. cbn [Wiring.carried].
    pose proof (unit_interval_in q Hq) as E. apply orb_false_iff in E as [E1 E2].
    rewrite E1, E2. reflexivity. }
  destruct rect as [r|]; cbn [VideoScrubber.calculatePosition].
  2:{ split; [right; exists (inject_Z 0); split; [reflexivity | split; discriminate]|].
      split; [discriminate|]. intros layer clip. reflexivity. }
  unfold VideoScrubber.num_div.
  destruct (Qeq_bool (VideoScrubber.width r) 0) eqn:W.
  - destruct (Qeq_bool (clientX - VideoScrubber.left r) 0) eqn:Z0.
    + split; [left; reflexivity|]. split; [|intros; reflexivity].
      intros _. exists r. split; [reflexivity|].
      split; now apply Qeq_bool_iff.
    + destruct (Qle_bool 0 (clientX - VideoScrubber.left r)); cbn.
      * split; [right; eexists; split; [reflexivity | split; discriminate]|].
        split; [discriminate|]. intros; reflexivity.
      * split; [right; eexists; split; [reflexivity | split; discriminate]|].
        split; [discriminate|]. intros; reflexivity.
  - cbn [VideoScrubber.num_min VideoScrubber.num_max of_Z].
    set (q := Qmax (inject_Z 0) (Qmin (inject_Z 1) _)).
    assert (Hq : (0 <= q <= 1)%Q).
    { unfold q. split.
      - apply Q.le_max_l.
      - apply Q.max_lub; [discriminate | apply Q.le_min_l]. }
    split; [right; exists q; split; [reflexivity | exact Hq]|].
    split; [discriminate|]. intros layer clip. now apply P.
Qed.

End ComponentFacts.

Lemma click_selects_slot_witness :
  Clips.apiCalls (ResolumeControls.clickClip Sample.layer1 5 Clips.initial)
  = [Clips.TriggerClip 1 5].
Proof.
  exact (proj1 (proj1 (proj2 (click_selects_slot Sample.layer1 5 Clips.initial)) eq_refl)).
Defined.

Lemma scrub_follows_selection_witness :
  Controls.writes Controls.Scrub
    (Controls.advance (40 + Controls.DEBOUNCE_DELAY)
       (Controls.setScrubPosition
          (Dashboard.controls_options 1
             (Connection.checkConnection_resolve
                (Connection.mkStatus true None None None) Connection.initial)
             (Clips.selectClip (Some 2)
                (Clips.fetchClips_resolve (Some Sample.two_clips) Clips.initial)))
          40 (Fin (1 # 4)) Controls.initial))
  = [Controls.SetClipPosition 1 2 (Fin (1 # 4))].
Proof.
  apply (scrub_follows_selection 1 2
           (Connection.checkConnection_resolve
              (Connection.mkStatus true None None None) Connection.initial)
           (Clips.fetchClips_resolve (Some Sample.two_clips) Clips.initial)
           40 (Fin (1 # 4)) Controls.initial);
    [reflexivity | reflexivity | discriminate | reflexivity].
Defined.

Lemma calculatePosition_clamped_witness :
  exists r, Some (VideoScrubber.mkRect 10 0) = Some r
            /\ (VideoScrubber.width r == 0)%Q
            /\ (10 - VideoScrubber.left r == 0)%Q.
Proof.
  exact (proj1 (proj2 (calculatePosition_clamped (Some (VideoScrubber.mkRect 10 0)) 10))
           eq_refl).
Defined.

(** ** Writes and the cache; the initial reads *)

Section WriteFacts.

Context {Payload : Type}.
Variable emptyObject : Payload.
Variable numberToString : number -> string.

Lemma request_call_same_cache (now : Z) (endpoint : string) (method : option string)
    (c1 c2 : @ResolumeApiClient.Client Payload) :
  ResolumeApiClient.requestCache c1 = ResolumeApiClient.requestCache c2 ->
  ResolumeApiClient.baseUrl c1 = ResolumeApiClient.baseUrl c2 ->
  snd (ResolumeApiClient.request_call now endpoint method c1)
  = snd (ResolumeApiClient.request_call now endpoint method c2).
Proof.
  intros RC B. unfold ResolumeApiClient.request_call, ResolumeApiClient.cacheKey,
    ResolumeApiClient.url_of. rewrite RC, B.
  destruct (ResolumeApiClient.is_GET method); [|reflexivity].
  destruct (_ !! _) as [cached|]; [|reflexivity].
  destruct (_ <? _); reflexivity.
Qed.

Lemma perform_write_client (now : Z) (call : Controls.ApiCall)
    (c : @ResolumeApiClient.Client Payload) :
  Controls.written call <> None ->
  ResolumeApiClient.requestCache (fst (Wiring.perform numberToString now call c))
  = ResolumeApiClient.requestCache c
  /\ ResolumeApiClient.baseUrl (fst (Wiring.perform numberToString now call c))
     = ResolumeApiClient.baseUrl c.
Proof.
  intros W.
  destruct call as [| layer | v | layer v | layer clip v]; simpl in W;
    try contradiction; cbn [Wiring.perform].
  - unfold ResolumeApiClient.setBpm.
    destruct (num_lt v (of_Z 20) || num_gt v (of_Z 999)); [split; reflexivity|].
    rewrite request_call_not_GET by reflexivity. split; reflexivity.
  - unfold ResolumeApiClient.setLayerOpacity.
    destruct (num_lt v (of_Z 0) || num_gt v (of_Z 1)); [split; reflexivity|].
    rewrite request_call_not_GET by reflexivity. split; reflexivity.
  - unfold ResolumeApiClient.setClipPosition.
    destruct (num_lt v (of_Z 0) || num_gt v (of_Z 1)); [split; reflexivity|].
    rewrite request_call_not_GET by reflexivity. split; reflexivity.
Qed.

Lemma request_resolve_not_GET (now : Z) (endpoint : string) (method : option string)
    (r : @ResolumeApiClient.Response Payload) (c : @ResolumeApiClient.Client Payload) :
  ResolumeApiClient.is_GET method = false ->
  fst (ResolumeApiClient.request_resolve emptyObject numberToString now endpoint method r c)
  = c.
Proof.
  intros G. unfold ResolumeApiClient.request_resolve. rewrite G.
  destruct (negb (ResolumeApiClient.ok r)); [reflexivity|].
  destruct (ResolumeApiClient.status r =? 204); [reflexivity|].
  destruct (ResolumeApiClient.json r); reflexivity.
Qed.

Lemma perform_write_fetched (now : Z) (call : Controls.ApiCall)
    (c : @ResolumeApiClient.Client Payload) :
  Controls.written call <> None ->
  Wiring.passes call = true ->
  ResolumeApiClient.fetched (fst (Wiring.perform numberToString now call c))
  = (ResolumeApiClient.fetched c
       ++ [("POST", (ResolumeApiClient.baseUrl c
                       ++ Wiring.write_endpoint numberToString call)%string)])%list.
Proof.
  intros W P.
  destruct call as [| layer | v | layer v | layer clip v]; simpl in W;
    try contradiction; unfold Wiring.passes in P; cbn [Wiring.carried] in P;
    apply andb_true_iff in P as [P1 P2]; apply negb_true_iff in P1, P2;
    cbn [Wiring.perform Wiring.write_endpoint].
  - unfold ResolumeApiClient.setBpm. rewrite P1, P2. cbn [orb].
    rewrite request_call_not_GET by reflexivity. reflexivity.
  - unfold ResolumeApiClient.setLayerOpacity. rewrite P1, P2. cbn [orb].
    rewrite request_call_not_GET by reflexivity. reflexivity.
  - unfold ResolumeApiClient.setClipPosition. rewrite P1, P2. cbn [orb].
    rewrite request_call_not_GET by reflexivity. reflexivity.
Qed.

(** A write never touches the cache, from the call to the handling of its
    response: after the parameter controller hands a tempo, opacity or
    position write to the API client, and whatever the response to the
    POST it makes (a success with or without a body, an error), the cache is
    what it was; every read is then answered from the cache, or fetched,
    exactly as it would have been before the write, so a tempo or opacity
    cached before the write is still served afterwards, until its TTL runs
    out. *)
Theorem writes_keep_cache (now later : Z) (call : Controls.ApiCall)
    (r : @ResolumeApiClient.Response Payload) (c : @ResolumeApiClient.Client Payload) :
  Controls.written call <> None ->
  let c1 := fst (Wiring.perform numberToString now call c) in
  let c2 := fst (Wiring.perform_response emptyObject numberToString later call r c1) in
  ResolumeApiClient.requestCache c2 = ResolumeApiClient.requestCache c
  /\ (forall t endpoint method,
        snd (ResolumeApiClient.request_call t endpoint method c2)
        = snd (ResolumeApiClient.request_call t endpoint method c))
  /\ (Wiring.passes call = true ->
        ResolumeApiClient.fetched c1
        = (ResolumeApiClient.fetched c
             ++ [("POST", (ResolumeApiClient.baseUrl c
                             ++ Wiring.write_endpoint numberToString call)%string)])%list)
  /\ ResolumeApiClient.fetched c2 = ResolumeApiClient.fetched c1.
Proof.
  intros W c1 c2.
  assert (E : c2 = c1).
  { subst c2. unfold Wiring.perform_response. apply request_resolve_not_GET.
    unfold Wiring.write_method. destruct (Controls.written call); [reflexivity|].
    contradiction. }
  destruct (perform_write_client now call c W) as [RC B]. fold c1 in RC, B.
  rewrite E. split; [exact RC|]. split; [|split; [|reflexivity]].
  - intros t endpoint method. now apply request_call_same_cache.
  - intros P. now apply perform_write_fetched.
Qed.

End WriteFacts.

Section InitialValueFacts.

Import Controls.

(** The initial reads, while mounted: disconnected, nothing is asked and
    nothing changes; connected, the tempo is asked first and the opacity of
    the layer only once the tempo read has settled, whether it succeeded or
    not; a tempo that failed to read leaves the displayed tempo alone, and
    an opacity that failed to read, for whatever reason, displays 100. *)
Theorem initial_values (o : Options) (tempo level : option number) (h : Hook) :
  isMountedRef h = true ->
  (isConnected o = false -> fetchInitialValues_call o h = h)
  /\ (isConnected o = true ->
        let h1 := fetchInitialValues_call o h in
        let h2 := fetchInitialValues_bpm o tempo h1 in
        let h3 := fetchInitialValues_opacity level h2 in
        apiCalls h1 = (apiCalls h ++ [GetBpm])%list
        /\ apiCalls h3 = (apiCalls h ++ [GetBpm; GetLayerOpacity (layerIndex o)])%list
        /\ bpm h3 = match tempo with Some v => num_round v | None => bpm h end
        /\ opacity h3
           = match level with
             | Some v => num_round (num_times100 v)
             | None => of_Z 100
             end
        /\ timers h3 = timers h).
Proof.
  intros M. split; intros C.
  - unfold fetchInitialValues_call. rewrite C. reflexivity.
  - unfold fetchInitialValues_call, fetchInitialValues_bpm, fetchInitialValues_opacity.
    rewrite C. cbn [negb]. cbn [api isMountedRef]. rewrite M.
    destruct tempo, level; cbn; rewrite ?M; cbn; rewrite <- ?app_assoc; repeat split.
Qed.

End InitialValueFacts.

(** A tempo read cached at time 5 is still served at time 30, after a tempo
    write at time 10 whose response was handled at time 20. *)
Lemma writes_keep_cache_witness :
  snd (ResolumeApiClient.request_call 30 "/api/resolume/composition/tempo/bpm" None
         (fst (Wiring.perform_response "{}" Sample.show 20 (Controls.SetBpm (of_Z 128))
                 Sample.status_ok
                 (fst (Wiring.perform Sample.show 10 (Controls.SetBpm (of_Z 128))
                         Sample.tempo_cached)))))
  = ResolumeApiClient.CacheHit "{value:120}".
Proof.
  rewrite (proj1 (proj2 (writes_keep_cache "{}" Sample.show 10 20
                           (Controls.SetBpm (of_Z 128)) Sample.status_ok
                           Sample.tempo_cached ltac:(discriminate)))).
  reflexivity.
Defined.

Lemma initial_values_witness :
  Controls.opacity
    (Controls.fetchInitialValues_opacity None
       (Controls.fetchInitialValues_bpm Sample.playing None
          (Controls.fetchInitialValues_call Sample.playing Controls.initial)))
  = of_Z 100.
Proof.
  exact (proj1 (proj2 (proj2 (proj2 (proj2
           (initial_values Sample.playing None None Controls.initial eq_refl) eq_refl))))).
Defined.
